(** * TactilityTool: a shallow embedding of [tactility.py]

    The build tool is a sequential Python script whose behaviour is a
    function of the file system, the process environment, the network and
    the external build command.  The embedding below keeps that shape:

    - the file system is a tree of directories and files ([node]);
    - the mutable world (file system, environment variables, standard
      output, the module-level flags, and the traces of network fetches,
      spawned commands and HTTP requests) is a record ([world]);
    - Python code is written in a small state-and-exception monad [M];
    - what the outside answers (the CDN, [idf.py], the device, the [re]
      module) is a record of oracles ([Env]) every theorem quantifies over.

    Paths follow [posixpath]; the file system has no symbolic links, so
    [..] is resolved lexically. *)

From Stdlib Require Import String Ascii List ZArith Bool Arith Lia PrimFloat.
Import ListNotations.
Open Scope string_scope.
Set Warnings "-register-all".

(** ** Strings as Python uses them *)

Module Str.

Definition startswith (s pre : string) : bool := String.prefix pre s.

Definition endswith (s suf : string) : bool :=
  (String.length suf <=? String.length s)%nat
  && (substring (String.length s - String.length suf) (String.length suf) s =? suf).

(** [s.removesuffix(suf)] *)
Definition removesuffix (s suf : string) : string :=
  if negb (suf =? "") && endswith s suf
  then substring 0 (String.length s - String.length suf) s
  else s.

(** [s.split(sep)] for a one-character separator. *)
Fixpoint split (sep : ascii) (s : string) : list string :=
  match s with
  | EmptyString => [""]
  | String c s' =>
      if Ascii.eqb c sep then "" :: split sep s'
      else match split sep s' with
           | [] => [String c ""]
           | h :: t => String c h :: t
           end
  end.

(** [sep.join(parts)] *)
Definition join (sep : string) (parts : list string) : string :=
  String.concat sep parts.

Fixpoint has_char (c : ascii) (s : string) : bool :=
  match s with
  | EmptyString => false
  | String c' s' => Ascii.eqb c' c || has_char c s'
  end.

(** [needle in s] for two strings. *)
Fixpoint contains (s needle : string) : bool :=
  String.prefix needle s ||
  match s with
  | EmptyString => false
  | String _ s' => contains s' needle
  end.

Fixpoint all_chars (p : ascii -> bool) (s : string) : bool :=
  match s with
  | EmptyString => true
  | String c s' => p c && all_chars p s'
  end.

Fixpoint filter_chars (p : ascii -> bool) (s : string) : string :=
  match s with
  | EmptyString => ""
  | String c s' => if p c then String c (filter_chars p s') else filter_chars p s'
  end.

Fixpoint lstrip (p : ascii -> bool) (s : string) : string :=
  match s with
  | EmptyString => ""
  | String c s' => if p c then lstrip p s' else s
  end.

Fixpoint map_chars (f : ascii -> ascii) (s : string) : string :=
  match s with
  | EmptyString => ""
  | String c s' => String (f c) (map_chars f s')
  end.

Fixpoint rev (s : string) : string :=
  match s with
  | EmptyString => ""
  | String c s' => rev s' ++ String c ""
  end.

Definition rstrip (p : ascii -> bool) (s : string) : string :=
  rev (lstrip p (rev s)).

Definition in_range (lo hi : nat) (c : ascii) : bool :=
  let n := nat_of_ascii c in (lo <=? n)%nat && (n <=? hi)%nat.

Definition is_upper := in_range 65 90.
Definition is_lower := in_range 97 122.
Definition is_digit := in_range 48 57.
Definition is_alpha (c : ascii) : bool := is_upper c || is_lower c.

Definition lower_char (c : ascii) : ascii :=
  if is_upper c then ascii_of_nat (nat_of_ascii c + 32) else c.

Definition lower : string -> string := map_chars lower_char.

(** Decimal rendering of an integer, as [str(n)] gives it. *)
Fixpoint digits (fuel : nat) (n : nat) (acc : string) : string :=
  match fuel with
  | O => acc
  | S fuel' =>
      let acc' := String (ascii_of_nat (48 + n mod 10)) acc in
      if (n <? 10)%nat then acc' else digits fuel' (n / 10) acc'
  end.

Definition of_nat (n : nat) : string := digits (S n) n "".

Definition of_Z (z : Z) : string :=
  match z with
  | Z0 => "0"
  | Zpos p => of_nat (Pos.to_nat p)
  | Zneg p => "-" ++ of_nat (Pos.to_nat p)
  end.

End Str.

(** ** [posixpath] *)

Module Path.

Definition sep : string := "/".
Definition sep_char : ascii := "/"%char.

(** [os.path.join(a, b)] *)
Definition join (a b : string) : string :=
  if Str.startswith b sep then b
  else if (a =? "") || Str.endswith a sep then a ++ b
  else a ++ sep ++ b.

Definition join3 (a b c : string) : string := join (join a b) c.

(** [os.path.basename(p)]: what follows the last separator. *)
Definition basename (p : string) : string :=
  last (Str.split sep_char p) "".

(** [os.path.dirname(p)]: what precedes the last separator, without
    trailing separators unless it consists of separators only. *)
Definition dirname (p : string) : string :=
  let parts := Str.split sep_char p in
  let head := match removelast parts with
              | [] => ""
              | front => Str.join sep front ++ sep
              end in
  if Str.all_chars (Ascii.eqb sep_char) head then head
  else Str.rstrip (Ascii.eqb sep_char) head.

(** Lexical normalisation of a component list on top of an absolute
    directory [stack]: empty and [.] components vanish, [..] drops the
    last component (and stays at the root). *)
Fixpoint norm (stack comps : list string) : list string :=
  match comps with
  | [] => stack
  | c :: cs =>
      if (c =? "") || (c =? ".") then norm stack cs
      else if c =? ".." then norm (removelast stack) cs
      else norm (stack ++ [c]) cs
  end.

(** The absolute component list a path string denotes for a process whose
    working directory is [cwd]. *)
Definition resolve (cwd : list string) (p : string) : list string :=
  if Str.startswith p sep then norm [] (Str.split sep_char p)
  else norm cwd (Str.split sep_char p).

(** An absolute component list written back as a path string. *)
Fixpoint render_from (comps : list string) : string :=
  match comps with
  | [] => ""
  | c :: cs => sep ++ c ++ render_from cs
  end.

Definition render (comps : list string) : string :=
  match comps with
  | [] => sep
  | _ => render_from comps
  end.

(** [os.path.realpath(p)] on a file system without symbolic links. *)
Definition realpath (cwd : list string) (p : string) : string :=
  render (resolve cwd p).

End Path.

(** ** File contents and the file-system tree *)

(** JSON values as [json.load] returns them. *)
Inductive json : Type :=
| JNull
| JBool (b : bool)
| JNum (z : Z)
| JStr (s : string)
| JArr (items : list json)
| JObj (fields : list (string * json)).

(** What a regular file holds: raw bytes, or one of the container formats
    the tool reads and writes, kept in parsed form.  A zip member is a file
    name and its payload (a name ending in [/] is a directory entry); a tar
    entry is a name and [Some] content for a regular file, [None] for a
    directory. *)
Inductive data : Type :=
| Bytes (s : string)
| JsonDoc (j : json)
| ZipArchive (members : list (string * data))
| TarArchive (entries : list (string * option data)).

(** A directory lists its entries in the order [os.listdir] reports them. *)
Inductive node : Type :=
| File (d : data)
| Dir (entries : list (string * node)).

Module FS.

Definition path := list string.

Fixpoint assoc {A} (k : string) (es : list (string * A)) : option A :=
  match es with
  | [] => None
  | (k', v) :: t => if k' =? k then Some v else assoc k t
  end.

Definition drop_entry {A} (k : string) (es : list (string * A)) : list (string * A) :=
  filter (fun e => negb (fst e =? k)) es.

(** Replace the entry named [k] where it stands, or append it. *)
Fixpoint set_entry {A} (k : string) (v : A) (es : list (string * A)) : list (string * A) :=
  match es with
  | [] => [(k, v)]
  | (k', v') :: t =>
      if k' =? k then (k, v) :: drop_entry k t else (k', v') :: set_entry k v t
  end.

Fixpoint lookup (n : node) (p : path) : option node :=
  match p with
  | [] => Some n
  | c :: p' =>
      match n with
      | Dir es => match assoc c es with
                  | Some n' => lookup n' p'
                  | None => None
                  end
      | File _ => None
      end
  end.

(** Rewrite the directory entry the path names: [f] receives the current
    entry and answers the new one ([Some None] removes it, [None] is a
    refusal).  [None] overall also when a parent is missing or is not a
    directory, or for the root itself. *)
Fixpoint alter (f : option node -> option (option node)) (p : path) (n : node)
  : option node :=
  match p, n with
  | [], _ => None
  | _, File _ => None
  | [c], Dir es =>
      match f (assoc c es) with
      | Some (Some n') => Some (Dir (set_entry c n' es))
      | Some None => Some (Dir (drop_entry c es))
      | None => None
      end
  | c :: p', Dir es =>
      match assoc c es with
      | Some child =>
          match alter f p' child with
          | Some child' => Some (Dir (set_entry c child' es))
          | None => None
          end
      | None => None
      end
  end.

(** [open(p, "wb")] followed by a write of [d]. *)
Definition write (d : data) : path -> node -> option node :=
  alter (fun cur => match cur with
                    | Some (Dir _) => None
                    | _ => Some (Some (File d))
                    end).

(** [os.remove(p)] *)
Definition remove : path -> node -> option node :=
  alter (fun cur => match cur with
                    | Some (File _) => Some None
                    | _ => None
                    end).

(** [shutil.rmtree(p)] *)
Definition rmtree : path -> node -> option node :=
  alter (fun cur => match cur with
                    | Some (Dir _) => Some None
                    | _ => None
                    end).

(** [os.mkdir(p)] *)
Definition mkdir : path -> node -> option node :=
  alter (fun cur => match cur with
                    | None => Some (Some (Dir []))
                    | Some _ => None
                    end).

(** A chain of fresh directories [c1/c2/...] as one node. *)
Fixpoint fresh_dirs (p : path) : node :=
  match p with
  | [] => Dir []
  | c :: p' => Dir [(c, fresh_dirs p')]
  end.

(** [os.makedirs(p, exist_ok=True)]: refused when a component exists and
    is a regular file. *)
Fixpoint makedirs (p : path) (n : node) : option node :=
  match n with
  | File _ => None
  | Dir es =>
      match p with
      | [] => Some n
      | c :: p' =>
          match assoc c es with
          | Some child =>
              match makedirs p' child with
              | Some child' => Some (Dir (set_entry c child' es))
              | None => None
              end
          | None => Some (Dir (set_entry c (fresh_dirs p') es))
          end
      end
  end.

(** Put [n'] at [p], replacing what is there. *)
Definition put (n' : node) (p : path) (n : node) : option node :=
  match p with
  | [] => Some n'
  | _ => alter (fun _ => Some (Some n')) p n
  end.

(** The loop of [shutil.copytree(src, dst, dirs_exist_ok=True)] once
    [dst] exists: the entries of the source directory are copied over the
    entries [des] of the destination.  A sub-directory is merged
    recursively (refused when the destination has a regular file of that
    name); a regular file is copied with [copy2], which writes inside the
    destination entry when that is a directory.  [copytree] goes on after
    a refusal and raises at the end: the boolean tells whether every entry
    could be copied. *)
Fixpoint merge (src : node) (des : list (string * node)) {struct src}
  : list (string * node) * bool :=
  match src with
  | File _ => (des, false)
  | Dir es =>
      (fix go (es : list (string * node)) (cur : list (string * node)) (ok : bool)
         {struct es} : list (string * node) * bool :=
         match es with
         | [] => (cur, ok)
         | (name, child) :: rest =>
             match child with
             | File d =>
                 match assoc name cur with
                 | Some (Dir sub) =>
                     match assoc name sub with
                     | Some (Dir _) => go rest cur false
                     | _ => go rest (set_entry name (Dir (set_entry name (File d) sub)) cur) ok
                     end
                 | _ => go rest (set_entry name (File d) cur) ok
                 end
             | Dir _ =>
                 match assoc name cur with
                 | Some (File _) => go rest cur false
                 | Some (Dir sub) =>
                     let '(sub', ok') := merge child sub in
                     go rest (set_entry name (Dir sub') cur) (ok && ok')
                 | None =>
                     let '(sub', ok') := merge child [] in
                     go rest (set_entry name (Dir sub') cur) (ok && ok')
                 end
             end
         end) es des true
  end.

End FS.

(** ** Exceptions, the world and the monad *)

(** The Python exceptions that occur.  [OSError] stands for the whole
    family raised by file and socket operations ([FileNotFoundError],
    [IsADirectoryError], [urllib.error.URLError], [shutil.Error], ...), with
    its text. *)
Inductive exn : Type :=
| SystemExit (code : Z)
| OSError (text : string)
| RequestException (text : string)
| ValueError (text : string)
| IndexError (text : string)
| KeyError (key : string)
| TypeError (text : string)
| ReError (text : string)
| BadZipFile (text : string)
| OtherException (text : string).

(** [isinstance(e, Exception)]: everything but [SystemExit]. *)
Definition is_Exception (e : exn) : bool :=
  match e with SystemExit _ => false | _ => true end.

(** [isinstance(e, OSError)]; [requests.RequestException] derives from
    [IOError], which is [OSError]. *)
Definition is_OSError (e : exn) : bool :=
  match e with OSError _ | RequestException _ => true | _ => false end.

Definition is_RequestException (e : exn) : bool :=
  match e with RequestException _ => true | _ => false end.

(** [str(e)] *)
Definition exn_str (e : exn) : string :=
  match e with
  | SystemExit c => Str.of_Z c
  | OSError t | RequestException t | ValueError t | IndexError t
  | TypeError t | ReError t | BadZipFile t | OtherException t => t
  | KeyError k => "'" ++ k ++ "'"
  end.

Inductive outcome (A : Type) : Type :=
| Return (a : A)
| Raise (e : exn).
Arguments Return {A} a.
Arguments Raise {A} e.

(** The state the script reads and writes. *)
Record world : Type := mkWorld {
  fs : node;                         (* the file system, from the root *)
  cwd : FS.path;                     (* the working directory *)
  environ : list (string * string);  (* os.environ *)
  stdout : list string;              (* what was written, oldest first *)
  fetched : list string;             (* URLs handed to urlopen, oldest first *)
  spawned : list (list string);      (* commands handed to Popen, oldest first *)
  requested : list (string * string);(* HTTP method and URL of each device call *)
  verbose : bool;                    (* the module-level flags *)
  use_local_sdk : bool;
  local_base_path : option string
}.

Definition with_fs (f : node) (w : world) : world :=
  mkWorld f (cwd w) (environ w) (stdout w) (fetched w) (spawned w) (requested w)
          (verbose w) (use_local_sdk w) (local_base_path w).

Definition with_environ (e : list (string * string)) (w : world) : world :=
  mkWorld (fs w) (cwd w) e (stdout w) (fetched w) (spawned w) (requested w)
          (verbose w) (use_local_sdk w) (local_base_path w).

Definition with_env_var (k v : string) (w : world) : world :=
  with_environ (FS.set_entry k v (environ w)) w.

Definition with_stdout (o : list string) (w : world) : world :=
  mkWorld (fs w) (cwd w) (environ w) o (fetched w) (spawned w) (requested w)
          (verbose w) (use_local_sdk w) (local_base_path w).

Definition with_fetched (l : list string) (w : world) : world :=
  mkWorld (fs w) (cwd w) (environ w) (stdout w) l (spawned w) (requested w)
          (verbose w) (use_local_sdk w) (local_base_path w).

Definition with_spawned (l : list (list string)) (w : world) : world :=
  mkWorld (fs w) (cwd w) (environ w) (stdout w) (fetched w) l (requested w)
          (verbose w) (use_local_sdk w) (local_base_path w).

Definition with_requested (l : list (string * string)) (w : world) : world :=
  mkWorld (fs w) (cwd w) (environ w) (stdout w) (fetched w) (spawned w) l
          (verbose w) (use_local_sdk w) (local_base_path w).

(** What the outside answers. *)
Inductive fetch_result : Type :=
| FetchOk (body : data)             (* urlopen succeeded, response.read() gave body *)
| FetchRaise (e : exn).             (* urlopen raised *)

Inductive spawn_result : Type :=
| Exited (fs' : node) (output : list string) (returncode : Z)
| SpawnRaise (e : exn).             (* Popen itself raised *)

Inductive http_result : Type :=
| Response (status_code : Z)
| RequestRaise (e : exn).

Inductive re_result : Type :=
| Match
| NoMatch
| InvalidPattern (text : string).

Record Env : Type := mkEnv {
  urlopen : world -> string -> fetch_result;
  popen : world -> list string -> spawn_result;
  requests_put : world -> string -> data -> http_result;
  re_search : string -> string -> re_result
}.

(** Python code: a function of the world that returns or raises. *)
Definition M (A : Type) : Type := world -> outcome A * world.

Definition ret {A} (a : A) : M A := fun w => (Return a, w).

Definition raise {A} (e : exn) : M A := fun w => (Raise e, w).

Definition bind {A B} (m : M A) (k : A -> M B) : M B :=
  fun w => match m w with
           | (Return a, w') => k a w'
           | (Raise e, w') => (Raise e, w')
           end.

(** [try: m  except <class> as e: h e] *)
Definition try_except {A} (m : M A) (class : exn -> bool) (h : exn -> M A) : M A :=
  fun w => match m w with
           | (Return a, w') => (Return a, w')
           | (Raise e, w') => if class e then h e w' else (Raise e, w')
           end.

Definition get {A} (f : world -> A) : M A := fun w => (Return (f w), w).

Definition modify (f : world -> world) : M unit := fun w => (Return tt, f w).

Definition when (b : bool) (m : M unit) : M unit := if b then m else ret tt.

Declare Scope py_scope.
Delimit Scope py_scope with py.
Notation "x <- m ;; k" := (bind m (fun x => k))
  (at level 61, m at next level, right associativity) : py_scope.
Notation "m ;; k" := (bind m (fun _ => k))
  (at level 61, right associativity) : py_scope.
Open Scope py_scope.

(** ** Module-level constants and the console helpers *)

Definition ttbuild_path : string := ".tactility".
Definition ttbuild_version : string := "3.4.0".
Definition ttbuild_cdn : string := "https://cdn.tactilityproject.org".
Definition ttport : Z := 6666.

Definition esc : string := String (ascii_of_nat 27) "".
Definition lf : string := String (ascii_of_nat 10) "".
Definition cr : string := String (ascii_of_nat 13) "".
Definition shell_color_red : string := esc ++ "[91m".
Definition shell_color_orange : string := esc ++ "[93m".
Definition shell_color_green : string := esc ++ "[32m".
Definition shell_color_reset : string := esc ++ "[m".

(** [sys.stdout.write(s)] *)
Definition write_stdout (s : string) : M unit :=
  modify (fun w => with_stdout (stdout w ++ [s]) w).

(** A line as [print] ends it. *)
Definition line (s : string) : string := s ++ lf.

(** [print(s)] *)
Definition print (s : string) : M unit := write_stdout (line s).

Definition warning_text (message : string) : string :=
  shell_color_orange ++ "WARNING: " ++ message ++ shell_color_reset.

Definition error_text (message : string) : string :=
  shell_color_red ++ "ERROR: " ++ message ++ shell_color_reset.

Definition print_warning (message : string) : M unit := print (warning_text message).

Definition print_error (message : string) : M unit := print (error_text message).

Definition status_busy_text (status : string) : string := "⌛ " ++ status ++ cr.

Definition print_status_busy (status : string) : M unit :=
  write_stdout (status_busy_text status).

Definition status_success_text (status : string) : string :=
  "✅ " ++ shell_color_green ++ status ++ shell_color_reset ++ "          ".

Definition status_error_text (status : string) : string :=
  "❌ " ++ shell_color_red ++ status ++ shell_color_reset ++ "          ".

Definition print_status_success (status : string) : M unit :=
  print (status_success_text status).

Definition print_status_error (status : string) : M unit :=
  print (status_error_text status).

(** [sys.exit(1)] raises [SystemExit]. *)
Definition exit_with_error {A} (message : string) : M A :=
  print_error message ;; raise (SystemExit 1).

Definition get_url (ip path : string) : string :=
  "http://" ++ ip ++ ":" ++ Str.of_Z ttport ++ path.

(** ** [os], [os.path] and [shutil] on the world *)

Module OS.

(** The node a path string names; the empty string names nothing. *)
Definition stat (w : world) (p : string) : option node :=
  if p =? "" then None else FS.lookup (fs w) (Path.resolve (cwd w) p).

Definition exists_ (p : string) : M bool :=
  get (fun w => match stat w p with Some _ => true | None => false end).

Definition isdir (p : string) : M bool :=
  get (fun w => match stat w p with Some (Dir _) => true | _ => false end).

Definition isfile (p : string) : M bool :=
  get (fun w => match stat w p with Some (File _) => true | _ => false end).

Definition listdir (p : string) : M (list string) :=
  fun w => match stat w p with
           | Some (Dir es) => (Return (map fst es), w)
           | Some (File _) => (Raise (OSError ("Not a directory: " ++ p)), w)
           | None => (Raise (OSError ("No such file or directory: " ++ p)), w)
           end.

(** A change of the tree at a path; a refusal is an [OSError]. *)
Definition update (op : FS.path -> node -> option node) (text p : string) : M unit :=
  fun w =>
    if p =? "" then (Raise (OSError (text ++ p)), w)
    else match op (Path.resolve (cwd w) p) (fs w) with
         | Some f => (Return tt, with_fs f w)
         | None => (Raise (OSError (text ++ p)), w)
         end.

Definition remove : string -> M unit := update FS.remove "Cannot remove: ".

Definition makedirs : string -> M unit := update FS.makedirs "File exists: ".

Definition rmtree : string -> M unit := update FS.rmtree "Cannot remove tree: ".

(** [with open(p, "wb") as f: f.write(d)] *)
Definition write_file (p : string) (d : data) : M unit :=
  update (FS.write d) "Cannot open for writing: " p.

(** [open(p)] of a regular file, giving its content. *)
Definition read_file (p : string) : M data :=
  fun w => match stat w p with
           | Some (File d) => (Return d, w)
           | Some (Dir _) => (Raise (OSError ("Is a directory: " ++ p)), w)
           | None => (Raise (OSError ("No such file or directory: " ++ p)), w)
           end.

(** [shutil.copy(src, dst)] *)
Definition copy (src dst : string) : M unit :=
  d <- isdir dst ;;
  let dst' := if d then Path.join dst (Path.basename src) else dst in
  same <- get (fun w => match stat w src, stat w dst' with
                        | Some _, Some _ =>
                            if list_eq_dec string_dec (Path.resolve (cwd w) src)
                                 (Path.resolve (cwd w) dst')
                            then true else false
                        | _, _ => false
                        end) ;;
  if same then raise (OSError ("Same file: " ++ src))
  else content <- read_file src ;; write_file dst' content.

(** [shutil.copytree(src, dst, dirs_exist_ok=True)] *)
Definition copytree (src dst : string) : M unit :=
  fun w =>
    match stat w src with
    | Some (Dir es) =>
        match makedirs dst w with
        | (Return _, w1) =>
            let target := Path.resolve (cwd w1) dst in
            let des := match FS.lookup (fs w1) target with
                       | Some (Dir des) => des
                       | _ => []
                       end in
            let '(des', ok) := FS.merge (Dir es) des in
            match FS.put (Dir des') target (fs w1) with
            | Some f =>
                if ok then (Return tt, with_fs f w1)
                else (Raise (OSError ("Could not copy every entry of: " ++ src)), with_fs f w1)
            | None => (Raise (OSError ("Cannot write: " ++ dst)), w1)
            end
        | (Raise e, w1) => (Raise e, w1)
        end
    | Some (File _) => (Raise (OSError ("Not a directory: " ++ src)), w)
    | None => (Raise (OSError ("No such file or directory: " ++ src)), w)
    end.

(** [os.environ[k] = v] *)
Definition setenv (k v : string) : M unit := modify (with_env_var k v).

End OS.

(** ** [urllib.parse.urlparse(url).scheme] *)

Definition is_c0_or_space (c : ascii) : bool := (nat_of_ascii c <=? 32)%nat.

Definition is_unsafe_url_byte (c : ascii) : bool :=
  let n := nat_of_ascii c in (n =? 9)%nat || (n =? 10)%nat || (n =? 13)%nat.

Definition is_scheme_char (c : ascii) : bool :=
  Str.is_alpha c || Str.is_digit c
  || Ascii.eqb c "+" || Ascii.eqb c "-" || Ascii.eqb c ".".

(** The characters before the first colon, when there is one. *)
Fixpoint before_colon (s : string) : option string :=
  match s with
  | EmptyString => None
  | String c s' =>
      if Ascii.eqb c ":" then Some ""
      else match before_colon s' with
           | Some pre => Some (String c pre)
           | None => None
           end
  end.

Definition urlparse_scheme (url : string) : string :=
  let url := Str.lstrip is_c0_or_space url in
  let url := Str.filter_chars (fun c => negb (is_unsafe_url_byte c)) url in
  match before_colon url with
  | Some (String c0 rest) =>
      if Str.is_alpha c0 && Str.all_chars is_scheme_char (String c0 rest)
      then Str.lower (String c0 rest)
      else ""
  | _ => ""
  end.

(** ** JSON values seen from Python *)

Module Json.

(** [d[k]] on a parsed object: the last occurrence of a key wins. *)
Definition dict_get (k : string) (fields : list (string * json)) : option json :=
  FS.assoc k (rev fields).

Definition is_str (s : string) (j : json) : bool :=
  match j with JStr s' => s' =? s | _ => false end.

(** [key in j] *)
Definition contains (key : string) (j : json) : M bool :=
  match j with
  | JObj fields => ret (match dict_get key fields with Some _ => true | None => false end)
  | JArr items => ret (existsb (is_str key) items)
  | JStr s => ret (Str.contains s key)
  | _ => raise (TypeError "argument is not iterable")
  end.

(** [j[key]] *)
Definition getitem (j : json) (key : string) : M json :=
  match j with
  | JObj fields =>
      match dict_get key fields with
      | Some v => ret v
      | None => raise (KeyError key)
      end
  | JArr _ => raise (TypeError "list indices must be integers or slices, not str")
  | JStr _ => raise (TypeError "string indices must be integers, not 'str'")
  | _ => raise (TypeError "object is not subscriptable")
  end.

(** [repr(j)]; string literals are quoted without escapes. *)
Fixpoint repr (j : json) : string :=
  match j with
  | JNull => "None"
  | JBool true => "True"
  | JBool false => "False"
  | JNum z => Str.of_Z z
  | JStr s => "'" ++ s ++ "'"
  | JArr items => "[" ++ Str.join ", " (map repr items) ++ "]"
  | JObj fields =>
      "{" ++ Str.join ", " (map (fun '(k, v) => "'" ++ k ++ "': " ++ repr v) fields) ++ "}"
  end.

(** [str(j)], what an f-string inserts. *)
Definition str (j : json) : string :=
  match j with
  | JStr s => s
  | _ => repr j
  end.

End Json.

(** [repr] of a list of strings, as an f-string shows [platforms]. *)
Definition repr_list (l : list string) : string :=
  "[" ++ Str.join ", " (map (fun s => "'" ++ s ++ "'") l) ++ "]".

(** ** [tarfile] with [format=USTAR_FORMAT] *)

Module Tar.

Definition LENGTH_NAME : nat := 100.
Definition LENGTH_PREFIX : nat := 155.

(** Whether a ustar header can hold the member name: in the name field, or
    split at a separator into the prefix and name fields
    ([TarInfo._posix_split_name]). *)
Definition name_fits (name : string) : bool :=
  (String.length name <=? LENGTH_NAME)%nat
  || (let components := Str.split Path.sep_char name in
      existsb (fun i =>
                 (String.length (Str.join Path.sep (firstn i components)) <=? LENGTH_PREFIX)%nat
                 && (String.length (Str.join Path.sep (skipn i components)) <=? LENGTH_NAME)%nat)
              (seq 1 (List.length components - 1))).

Definition entry : Type := string * option data.

(** [sorted] on the names of a directory, carried out on what each name
    contributes to the archive. *)
Fixpoint insert_block {A} (b : string * A) (l : list (string * A)) : list (string * A) :=
  match l with
  | [] => [b]
  | h :: t => if String.leb (fst b) (fst h) then b :: l else h :: insert_block b t
  end.

Definition sort_blocks {A} (l : list (string * A)) : list (string * A) :=
  fold_right insert_block [] l.

(** The members written one directory entry after the other, up to the
    first one that raises [ValueError]; its text is kept. *)
Fixpoint chain (blocks : list (string * (list entry * option string)))
  : list entry * option string :=
  match blocks with
  | [] => ([], None)
  | (_, (es, Some text)) :: _ => (es, Some text)
  | (_, (es, None)) :: rest => let '(es', r) := chain rest in ((es ++ es')%list, r)
  end.

(** [TarFile.add(name, arcname)], recursive: the members added for the node
    at [here], and the text of the [ValueError] that stopped it if one did.
    The archive file itself ([self_name]) is skipped. *)
Fixpoint add (self_name here : FS.path) (n : node) (arcname : string) {struct n}
  : list entry * option string :=
  if list_eq_dec string_dec here self_name then ([], None)
  else
    let name := Str.lstrip (Ascii.eqb Path.sep_char) arcname in
    match n with
    | File d =>
        if name_fits name then ([(name, Some d)], None)
        else ([], Some "name is too long")
    | Dir es =>
        let header := if Str.endswith name Path.sep then name else name ++ Path.sep in
        if negb (name_fits header) then ([], Some "name is too long")
        else
          let blocks :=
            (fix go (es : list (string * node)) :=
               match es with
               | [] => []
               | (f, child) :: rest =>
                   (f, add self_name (here ++ [f])%list child (Path.join arcname f)) :: go rest
               end) es in
          let '(inner, r) := chain (sort_blocks blocks) in
          ((name, None) :: inner, r)
    end.

End Tar.

Section Program.

Variable E : Env.

(** ** Core *)

(** [urllib.request.urlopen(request, timeout=30)] and [response.read()];
    every call is recorded. *)
Definition do_urlopen (url : string) : M data :=
  fun w =>
    let w' := with_fetched (fetched w ++ [url]) w in
    match urlopen E w url with
    | FetchOk body => (Return body, w')
    | FetchRaise e => (Raise e, w')
    end.

Definition download_file (url filepath : string) : M bool :=
  v <- get verbose ;;
  when v (print ("Downloading from " ++ url ++ " to " ++ filepath)) ;;
  let scheme := urlparse_scheme url in
  if negb ((scheme =? "http") || (scheme =? "https")) then
    print_error ("Unsupported URL scheme: " ++ scheme) ;;
    ret false
  else
    try_except
      (body <- do_urlopen url ;;
       OS.write_file filepath body ;;
       ret true)
      is_OSError
      (fun error =>
         when v (print_error ("Failed to fetch URL " ++ url ++ lf ++ exn_str error)) ;;
         ret false).

(** ** Validation *)

(** [re.search(pattern, string) is None] *)
Definition re_search_is_none (pattern : json) (s : string) : M bool :=
  match pattern with
  | JStr pat =>
      match re_search E pat s with
      | Match => ret false
      | NoMatch => ret true
      | InvalidPattern text => raise (ReError text)
      end
  | _ => raise (TypeError "first argument must be string or compiled pattern")
  end.

Definition validate_self (sdk_json : json) : M unit :=
  has_version <- Json.contains "toolVersion" sdk_json ;;
  when (negb has_version)
    (exit_with_error "Server returned invalid SDK data format (toolVersion not found)") ;;
  has_compat <- Json.contains "toolCompatibility" sdk_json ;;
  when (negb has_compat)
    (exit_with_error "Server returned invalid SDK data format (toolCompatibility not found)") ;;
  has_url <- Json.contains "toolDownloadUrl" sdk_json ;;
  when (negb has_url)
    (exit_with_error "Server returned invalid SDK data format (toolDownloadUrl not found)") ;;
  tool_version <- Json.getitem sdk_json "toolVersion" ;;
  tool_compatibility <- Json.getitem sdk_json "toolCompatibility" ;;
  when (negb (Json.is_str ttbuild_version tool_version))
    (print_warning ("New version available: " ++ Json.str tool_version
                    ++ " (currently using " ++ ttbuild_version ++ ")") ;;
     print_warning "Run 'tactility.py updateself' to update.") ;;
  incompatible <- re_search_is_none tool_compatibility ttbuild_version ;;
  if incompatible then
    print_error "The tool is not compatible anymore." ;;
    print_error "Run 'tactility.py updateself' to update." ;;
    raise (SystemExit 1)
  else ret tt.

(** ** SDK helpers *)

Definition get_sdk_dir (version platform : string) : M string :=
  local <- get use_local_sdk ;;
  if local then
    base_path <- get local_base_path ;;
    match base_path with
    | None => exit_with_error "TACTILITY_SDK_PATH environment variable is not set"
    | Some base_path =>
        let sdk_parent_dir := Path.join base_path (version ++ "-" ++ platform) in
        let sdk_dir := Path.join sdk_parent_dir "TactilitySDK" in
        d <- OS.isdir sdk_dir ;;
        if negb d then
          exit_with_error ("Local SDK folder not found for platform " ++ platform
                           ++ ": " ++ sdk_dir)
        else ret sdk_dir
    end
  else ret (Path.join3 ttbuild_path (version ++ "-" ++ platform) "TactilitySDK").

Definition get_sdk_root_dir (version platform : string) : string :=
  Path.join ttbuild_path (version ++ "-" ++ platform).

Definition get_sdk_url (version file : string) : string :=
  ttbuild_cdn ++ "/sdk/" ++ version ++ "/" ++ file.

Definition sdk_exists (version platform : string) : M bool :=
  sdk_dir <- get_sdk_dir version platform ;;
  OS.isdir sdk_dir.

(** ** SDK download *)

(** [ZipFile.extractall(path)] member by member, after
    [ZipFile._extract_member]: the member name loses its empty, [.] and
    [..] components, missing parent directories are made, a member whose
    name ends in a separator is a directory, any other is written. *)
Definition extract_member (targetpath : string) (member : string * data) : M unit :=
  let '(filename, payload) := member in
  let valid := fun x => negb ((x =? "") || (x =? ".") || (x =? "..")) in
  let arcname := Str.join Path.sep (filter valid (Str.split Path.sep_char filename)) in
  targetpath <- get (fun w => Path.realpath (cwd w) (Path.join targetpath arcname)) ;;
  let upperdirs := Path.dirname targetpath in
  present <- OS.exists_ upperdirs ;;
  when (negb (upperdirs =? "") && negb present) (OS.makedirs upperdirs) ;;
  if Str.endswith filename Path.sep then
    d <- OS.isdir targetpath ;;
    when (negb d) (OS.update FS.mkdir "Cannot create directory: " targetpath)
  else OS.write_file targetpath payload.

Fixpoint extractall (targetpath : string) (members : list (string * data)) : M unit :=
  match members with
  | [] => ret tt
  | member :: rest => extract_member targetpath member ;; extractall targetpath rest
  end.

(** The loop of [safe_extract_zip]: every member is checked, nothing is
    written. *)
Fixpoint check_members (target_dir : string) (members : list (string * data)) : M unit :=
  match members with
  | [] => ret tt
  | (filename, _) :: rest =>
      dest <- get (fun w => Path.realpath (cwd w) (Path.join target_dir filename)) ;;
      if negb (Str.startswith dest (target_dir ++ Path.sep)) then
        raise (ValueError ("Invalid zip entry: " ++ filename))
      else check_members target_dir rest
  end.

Definition safe_extract_zip (zip_ref : list (string * data)) (target_dir : string) : M unit :=
  target_dir <- get (fun w => Path.realpath (cwd w) target_dir) ;;
  check_members target_dir zip_ref ;;
  extractall target_dir zip_ref.

(** [json.load(open(path))] *)
Definition json_load (path : string) : M json :=
  content <- OS.read_file path ;;
  match content with
  | JsonDoc j => ret j
  | _ => raise (ValueError "Expecting value")
  end.

(** [zipfile.ZipFile(path, "r")] *)
Definition zip_open (path : string) : M (list (string * data)) :=
  content <- OS.read_file path ;;
  match content with
  | ZipArchive members => ret members
  | _ => raise (BadZipFile "File is not a zip file")
  end.

Definition sdk_download (version platform : string) : M bool :=
  let sdk_root_dir := get_sdk_root_dir version platform in
  OS.makedirs sdk_root_dir ;;
  let sdk_index_url := get_sdk_url version "index.json" in
  print ("Downloading SDK version " ++ version ++ " for " ++ platform) ;;
  let sdk_index_filepath := Path.join sdk_root_dir "index.json" in
  v <- get verbose ;;
  when v (print ("Downloading " ++ sdk_index_url ++ " to " ++ sdk_index_filepath)) ;;
  ok <- download_file sdk_index_url sdk_index_filepath ;;
  if negb ok then
    print_error ("Failed to download SDK version " ++ version
                 ++ ". Check your internet connection and make sure this release exists.") ;;
    ret false
  else
    sdk_index_json <- json_load sdk_index_filepath ;;
    sdk_platforms <- Json.getitem sdk_index_json "platforms" ;;
    known <- Json.contains platform sdk_platforms ;;
    if negb known then
      print_error ("Platform " ++ platform ++ " not found in " ++ Json.str sdk_platforms
                   ++ " for version " ++ version) ;;
      ret false
    else
      sdk_platform_file <- Json.getitem sdk_platforms platform ;;
      let sdk_zip_source_url := get_sdk_url version (Json.str sdk_platform_file) in
      let sdk_zip_target_filepath :=
        Path.join sdk_root_dir (version ++ "-" ++ platform ++ ".zip") in
      when v (print ("Downloading " ++ sdk_zip_source_url ++ " to "
                     ++ sdk_zip_target_filepath)) ;;
      ok <- download_file sdk_zip_source_url sdk_zip_target_filepath ;;
      if negb ok then
        print_error ("Failed to download " ++ sdk_zip_source_url ++ " to "
                     ++ sdk_zip_target_filepath) ;;
        ret false
      else
        zip_ref <- zip_open sdk_zip_target_filepath ;;
        safe_extract_zip zip_ref (Path.join sdk_root_dir "TactilitySDK") ;;
        ret true.

Fixpoint sdk_download_all (version : string) (platforms : list string) : M bool :=
  match platforms with
  | [] => ret true
  | platform :: rest =>
      cached <- sdk_exists version platform ;;
      if negb cached then
        ok <- sdk_download version platform ;;
        if negb ok then ret false else sdk_download_all version rest
      else
        v <- get verbose ;;
        when v (print ("Using cached download for SDK version " ++ version
                       ++ " and platform " ++ platform)) ;;
        sdk_download_all version rest
  end.

(** ** Building *)

Definition get_cmake_path (platform : string) : string :=
  Path.join "build" ("cmake-build-" ++ platform).

Definition find_elf_file (platform : string) : M (option string) :=
  let cmake_dir := get_cmake_path platform in
  present <- OS.exists_ cmake_dir ;;
  if present then
    files <- OS.listdir cmake_dir ;;
    match find (fun file => Str.endswith file ".app.elf") files with
    | Some file => ret (Some (Path.join cmake_dir file))
    | None => ret None
    end
  else ret None.

(** [wait_for_process(process)]: the decoded, non-empty lines the process
    wrote, in order.  The process is taken to terminate. *)
Definition wait_for_process (lines : list string) : list string :=
  filter (fun decoded_line => negb (decoded_line =? "")) lines.

(** [with subprocess.Popen(command, ...) as process:] up to the point where
    the process has exited: its output buffer and return code.  Every spawn
    is recorded; the process leaves the file system as the oracle says. *)
Definition run_process (command : list string) : M (list string * Z) :=
  fun w =>
    let w' := with_spawned (spawned w ++ [command]) w in
    match popen E w command with
    | Exited f output returncode =>
        (Return (wait_for_process output, returncode), with_fs f w')
    | SpawnRaise e => (Raise e, w')
    end.

Fixpoint print_lines (lines : list string) : M unit :=
  match lines with
  | [] => ret tt
  | line :: rest => write_stdout line ;; print_lines rest
  end.

Definition build_first (version platform : string) (skip_build : bool) : M bool :=
  sdk_dir <- get_sdk_dir version platform ;;
  v <- get verbose ;;
  when v (print ("Using SDK at " ++ sdk_dir)) ;;
  OS.setenv "TACTILITY_SDK_PATH" sdk_dir ;;
  let sdkconfig_path := Path.join ttbuild_path ("sdkconfig.app." ++ platform) in
  OS.copy sdkconfig_path "sdkconfig" ;;
  elf_path <- find_elf_file platform ;;
  match elf_path with
  | Some elf_path => OS.remove elf_path
  | None => ret tt
  end ;;
  if skip_build then ret true
  else
    print ("Building first " ++ platform ++ " build") ;;
    let cmake_path := get_cmake_path platform in
    print_status_busy ("Building " ++ platform ++ " ELF") ;;
    let build_command := ["idf.py"; "-B"; cmake_path; "build"] in
    when v (print ("Running command: " ++ Str.join " " build_command)) ;;
    process <- run_process build_command ;;
    let '(build_output, returncode) := process in
    if (returncode =? 0)%Z then
      print (shell_color_green ++ "Building for " ++ platform ++ " ✅" ++ shell_color_reset) ;;
      ret true
    else
      elf <- find_elf_file platform ;;
      match elf with
      | None =>
          print_lines build_output ;;
          print_status_error ("Building " ++ platform ++ " ELF") ;;
          ret false
      | Some _ =>
          print_status_success ("Building " ++ platform ++ " ELF") ;;
          ret true
      end.

Definition build_consecutively (version platform : string) (skip_build : bool) : M bool :=
  sdk_dir <- get_sdk_dir version platform ;;
  v <- get verbose ;;
  when v (print ("Using SDK at " ++ sdk_dir)) ;;
  OS.setenv "TACTILITY_SDK_PATH" sdk_dir ;;
  let sdkconfig_path := Path.join ttbuild_path ("sdkconfig.app." ++ platform) in
  OS.copy sdkconfig_path "sdkconfig" ;;
  if skip_build then ret true
  else
    let cmake_path := get_cmake_path platform in
    print_status_busy ("Building " ++ platform ++ " ELF") ;;
    let build_command := ["idf.py"; "-B"; cmake_path; "elf"] in
    when v (print ("Running command: " ++ Str.join " " build_command)) ;;
    process <- run_process build_command ;;
    let '(build_output, returncode) := process in
    if (returncode =? 0)%Z then
      print_status_success ("Building " ++ platform ++ " ELF") ;;
      ret true
    else
      print_lines build_output ;;
      print_status_error ("Building " ++ platform ++ " ELF") ;;
      ret false.



Definition printed (lines : list string) (w : world) : world :=
  with_stdout (stdout w ++ lines) w.

(** What [if verbose: print(s)] leaves. *)
Definition announced (flag : bool) (s : string) (w : world) : world :=
  if flag then printed [line s] w else w.

Definition first_build_command (platform : string) : list string :=
  ["idf.py"; "-B"; get_cmake_path platform; "build"].





Definition is_some {A} (o : option A) : bool :=
  match o with Some _ => true | None => false end.

(** The body of the loop of [build_all] for one platform. *)
Definition build_platform (version platform : string) (skip_build : bool) : M bool :=
  elf <- find_elf_file platform ;;
  match elf with
  | None => build_first version platform skip_build
  | Some _ => build_consecutively version platform skip_build
  end.

Fixpoint build_all (version : string) (platforms : list string) (skip_build : bool)
  : M bool :=
  match platforms with
  | [] => ret true
  | platform :: rest =>
      ok <- build_platform version platform skip_build ;;
      if negb ok then ret false else build_all version rest skip_build
  end.

(** ** Packaging *)

Definition package_intermediate_manifest (target_path : string) : M bool :=
  present <- OS.isfile "manifest.properties" ;;
  if negb present then
    print_error "manifest.properties not found" ;;
    ret false
  else
    OS.copy "manifest.properties" (Path.join target_path "manifest.properties") ;;
    ret true.

Fixpoint package_binaries_loop (elf_dir : string) (platforms : list string) : M bool :=
  match platforms with
  | [] => ret true
  | platform :: rest =>
      elf_path <- find_elf_file platform ;;
      match elf_path with
      | None =>
          print_error ("ELF file not found for " ++ platform) ;;
          ret false
      | Some elf_path =>
          OS.copy elf_path (Path.join elf_dir (platform ++ ".elf")) ;;
          package_binaries_loop elf_dir rest
      end
  end.

Definition package_intermediate_binaries (target_path : string) (platforms : list string)
  : M bool :=
  let elf_dir := Path.join target_path "elf" in
  OS.makedirs elf_dir ;;
  package_binaries_loop elf_dir platforms.

Definition package_intermediate_assets (target_path : string) : M unit :=
  d <- OS.isdir "assets" ;;
  when d (OS.copytree "assets" (Path.join target_path "assets")).

Definition package_intermediate (platforms : list string) : M bool :=
  let target_path := Path.join "build" "package-intermediate" in
  d <- OS.isdir target_path ;;
  when d (OS.rmtree target_path) ;;
  OS.makedirs target_path ;;
  ok <- package_intermediate_manifest target_path ;;
  if negb ok then ret false
  else
    ok <- package_intermediate_binaries target_path platforms ;;
    if negb ok then ret false
    else
      package_intermediate_assets target_path ;;
      ret true.

Definition package_name (platforms : list string) : M string :=
  match platforms with
  | [] => raise (IndexError "list index out of range")
  | first :: _ =>
      elf_path <- find_elf_file first ;;
      match elf_path with
      | None => raise (TypeError "expected str, bytes or os.PathLike object, not NoneType")
      | Some elf_path =>
          let elf_base_name := Str.removesuffix (Path.basename elf_path) ".app.elf" in
          ret (Path.join "build" (elf_base_name ++ ".app"))
      end
  end.

(** [with tarfile.open(tar_path, mode="w", format=tarfile.USTAR_FORMAT) as tar:
         tar.add(directory, arcname="")]: the archive file is created when it
    is opened and holds the members added up to an exception, if any. *)
Definition tar_create (tar_path directory : string) : M unit :=
  OS.write_file tar_path (TarArchive []) ;;
  source <- get (fun w => OS.stat w directory) ;;
  match source with
  | None => raise (OSError ("No such file or directory: " ++ directory))
  | Some n =>
      self_name <- get (fun w => Path.resolve (cwd w) tar_path) ;;
      here <- get (fun w => Path.resolve (cwd w) directory) ;;
      let '(members, error) := Tar.add self_name here n "" in
      OS.write_file tar_path (TarArchive members) ;;
      match error with
      | Some text => raise (ValueError text)
      | None => ret tt
      end
  end.

Definition package_all (platforms : list string) : M bool :=
  let status := "Building package with " ++ repr_list platforms in
  print_status_busy status ;;
  ok <- package_intermediate platforms ;;
  if negb ok then
    print_status_error "Building package failed: missing inputs" ;;
    ret false
  else
    try_except
      (tar_path <- package_name platforms ;;
       tar_create tar_path (Path.join "build" "package-intermediate") ;;
       print_status_success status ;;
       ret true)
      is_Exception
      (fun e =>
         print_status_error ("Building package failed: " ++ exn_str e) ;;
         ret false).

(** ** Device client *)

(** [requests.put(url, files={'elf': file}, timeout=http_timeout_seconds)]:
    the status code of the response.  Every call is recorded. *)
Definition do_put (url : string) (file : data) : M Z :=
  fun w =>
    let w' := with_requested (requested w ++ [("PUT", url)]) w in
    match requests_put E w url file with
    | Response status_code => (Return status_code, w')
    | RequestRaise e => (Raise e, w')
    end.

(** The first loop of [install_action]: [false] after reporting the first
    platform that has no ELF file. *)
Fixpoint install_check (platforms : list string) : M bool :=
  match platforms with
  | [] => ret true
  | platform :: rest =>
      elf_path <- find_elf_file platform ;;
      match elf_path with
      | None =>
          print_status_error ("ELF file not built for " ++ platform) ;;
          ret false
      | Some _ => install_check rest
      end
  end.

Definition install_action (ip : string) (platforms : list string) : M bool :=
  print_status_busy "Installing" ;;
  built <- install_check platforms ;;
  if negb built then ret false
  else
    package_path <- package_name platforms ;;
    let url := get_url ip "/app/install" in
    try_except
      (file <- OS.read_file package_path ;;
       status_code <- do_put url file ;;
       if negb (status_code =? 200)%Z then
         print_status_error "Install failed" ;;
         ret false
       else
         print_status_success "Installing" ;;
         ret true)
      is_OSError
      (fun e =>
         if is_RequestException e then
           print_status_error ("Install request failed: " ++ exn_str e) ;;
           ret false
         else
           print_status_error ("Install file error: " ++ exn_str e) ;;
           ret false).

End Program.

(** ** Concrete worlds

    A project directory, a CDN, a build tool and a device to run the
    definitions on. *)

Module Example.

(** A [re.search] for patterns without metacharacters: the pattern matches
    where it occurs literally. *)
Definition re_literal (pattern s : string) : re_result :=
  if Str.contains s pattern then Match else NoMatch.

Definition sdkconfig : data := Bytes "CONFIG_IDF_TARGET=esp32".

Definition manifest : data := Bytes "[manifest]".

Definition elf : data := Bytes "ELF".

Definition home : FS.path := ["home"; "dev"; "app"].

(** A project that was never built and has no SDK yet. *)
Definition project_fresh : node :=
  Dir [(".tactility", Dir [("sdkconfig.app.esp32", File sdkconfig);
                           ("sdkconfig.app.esp32s3", File sdkconfig);
                           ("sdkconfig.app.esp32c6", File sdkconfig)]);
       ("manifest.properties", File manifest);
       ("build", Dir [])].

(** The same project after both platforms were built. *)
Definition project_built : node :=
  Dir [(".tactility", Dir [("sdkconfig.app.esp32", File sdkconfig);
                           ("sdkconfig.app.esp32s3", File sdkconfig);
                           ("sdkconfig.app.esp32c6", File sdkconfig)]);
       ("manifest.properties", File manifest);
       ("build", Dir [("cmake-build-esp32", Dir [("Hello.app.elf", File elf)]);
                      ("cmake-build-esp32s3", Dir [("Hello.app.elf", File elf)])])].


Definition root_of (project : node) : node :=
  Dir [("home", Dir [("dev", Dir [("app", project)])])].

Definition world_of (project : node) : world :=
  mkWorld (root_of project) home [] [] [] [] [] false false None.

(** A build tool that leaves [Hello.app.elf] in the build directory it is
    given and exits with [status], whatever the target. *)
Definition idf_builds (status : Z) (w : world) (command : list string) : spawn_result :=
  match command with
  | [_; _; cmake_path; _] =>
      let dir := Path.resolve (cwd w) cmake_path in
      match FS.makedirs dir (fs w) with
      | Some f =>
          match FS.write elf (dir ++ ["Hello.app.elf"])%list f with
          | Some f' => Exited f' ["compiling"; "linking"] status
          | None => Exited f ["cannot write"] 1
          end
      | None => Exited (fs w) ["cannot create the build directory"] 1
      end
  | _ => SpawnRaise (OSError "No such file or directory: idf.py")
  end.

(** A build tool that touches nothing and exits with [status]. *)
Definition idf_idle (status : Z) (w : world) (command : list string) : spawn_result :=
  Exited (fs w) ["nothing to do"] status.

(** A build tool that builds every platform but [broken]. *)
Definition idf_except (broken : string) (w : world) (command : list string) : spawn_result :=
  match command with
  | [_; _; cmake_path; _] =>
      if cmake_path =? get_cmake_path broken
      then Exited (fs w) ["error: " ++ broken] 2
      else idf_builds 2 w command
  | _ => SpawnRaise (OSError "No such file or directory: idf.py")
  end.

(** A CDN that is unreachable. *)
Definition cdn_down (w : world) (url : string) : fetch_result :=
  FetchRaise (OSError "<urlopen error [Errno 111] Connection refused>").

(** A CDN that serves an index naming [sdk.zip] for [esp32], and that
    archive with the given members. *)
Definition cdn_serving (members : list (string * data)) (w : world) (url : string)
  : fetch_result :=
  if Str.endswith url "/index.json"
  then FetchOk (JsonDoc (JObj [("platforms", JObj [("esp32", JStr "sdk.zip")])]))
  else if Str.endswith url "/sdk.zip" then FetchOk (ZipArchive members)
  else FetchRaise (OSError "HTTP Error 404: Not Found").

(** A device that answers every install with [status]. *)
Definition device_answers (status : Z) (w : world) (url : string) (file : data)
  : http_result :=
  Response status.

(** A device that does not answer in time. *)
Definition device_silent (w : world) (url : string) (file : data) : http_result :=
  RequestRaise (RequestException "Read timed out. (read timeout=10)").

Definition env (fetch : world -> string -> fetch_result)
  (spawn : world -> list string -> spawn_result)
  (put : world -> string -> data -> http_result) : Env :=
  mkEnv fetch spawn put re_literal.

Definition env_default : Env := env cdn_down (idf_builds 2) (device_answers 200).

End Example.

(** ** Notions the properties are stated with *)

(** A component list as a real directory path has it: no empty name and no
    separator inside a name. *)
Definition wellformed (p : FS.path) : Prop :=
  Forall (fun c => c <> "" /\ Str.has_char Path.sep_char c = false) p.

(** [dest] lies below [target], and is not [target] itself. *)
Definition strict_descendant (dest target : FS.path) : Prop :=
  exists rest, rest <> [] /\ dest = (target ++ rest)%list.


(** The world in which [install_action] works, after its first status
    line. *)
Definition install_world (w : world) : world := printed [status_busy_text "Installing"] w.

Definition install_url (ip : string) : string := get_url ip "/app/install".

(** The world once a request was handed to [requests]. *)
Definition after_request (method url : string) (w : world) : world :=
  with_requested (requested w ++ [(method, url)]) w.






(** A name without a path separator, as a platform identifier is. *)
Definition plain (name : string) : Prop := Str.has_char Path.sep_char name = false.







(** The error line of [validate_self] for a missing key. *)
Definition missing_key_text (key : string) : string :=
  error_text ("Server returned invalid SDK data format (" ++ key ++ " not found)").

(** ** The rest of the script

    The functions the definitions above leave out: the manifest checks, the
    SDK helpers, the environment validation, the actions and the command
    line. *)

Definition with_verbose (b : bool) (w : world) : world :=
  mkWorld (fs w) (cwd w) (environ w) (stdout w) (fetched w) (spawned w) (requested w)
          b (use_local_sdk w) (local_base_path w).

Definition with_use_local_sdk (b : bool) (w : world) : world :=
  mkWorld (fs w) (cwd w) (environ w) (stdout w) (fetched w) (spawned w) (requested w)
          (verbose w) b (local_base_path w).

Definition with_local_base_path (p : option string) (w : world) : world :=
  mkWorld (fs w) (cwd w) (environ w) (stdout w) (fetched w) (spawned w) (requested w)
          (verbose w) (use_local_sdk w) p.

(** [os.environ.get(k)] *)
Definition environ_get (k : string) : M (option string) :=
  get (fun w => FS.assoc k (environ w)).

(** [x in l] for a list of strings. *)
Definition mem (x : string) (l : list string) : bool := existsb (String.eqb x) l.

(** *** [configparser.RawConfigParser]

    A parser that has read its files: the options of the [DEFAULT] section
    and, per section, its options.  Option names are stored as
    [optionxform] leaves them. *)
Record config : Type := mkConfig {
  defaults : list (string * string);
  sections : list (string * list (string * string))
}.

Module Config.

Definition default_section : string := "DEFAULT".

Definition optionxform (optionstr : string) : string := Str.lower optionstr.

Definition has_section (c : config) (section : string) : bool :=
  is_some (FS.assoc section (sections c)).

Definition has_option (c : config) (section option : string) : bool :=
  if (section =? "") || (section =? default_section) then
    is_some (FS.assoc (optionxform option) (defaults c))
  else
    match FS.assoc section (sections c) with
    | None => false
    | Some options =>
        is_some (FS.assoc (optionxform option) options)
        || is_some (FS.assoc (optionxform option) (defaults c))
    end.

(** [key in parser] *)
Definition contains (c : config) (key : string) : bool :=
  (key =? default_section) || has_section c key.

(** [parser[key]]: the proxy of a section, which is its name. *)
Definition getitem (c : config) (key : string) : M string :=
  if negb (key =? default_section) && negb (has_section c key)
  then raise (KeyError key)
  else ret key.

(** [parser.get(section, option)]: the section first, then [DEFAULT]. *)
Definition get_option (c : config) (section option : string) : M string :=
  let sectiondict := FS.assoc section (sections c) in
  if negb (is_some sectiondict) && negb (section =? default_section)
  then raise (OtherException ("No section: '" ++ section ++ "'"))
  else
    let option := optionxform option in
    match match sectiondict with
          | Some options => FS.assoc option options
          | None => None
          end with
    | Some value => ret value
    | None =>
        match FS.assoc option (defaults c) with
        | Some value => ret value
        | None =>
            raise (OtherException ("No option '" ++ option ++ "' in section: '"
                                   ++ section ++ "'"))
        end
    end.

(** [key in proxy] *)
Definition proxy_contains (c : config) (name key : string) : bool :=
  has_option c name key.

(** [proxy[key]] *)
Definition proxy_getitem (c : config) (name key : string) : M string :=
  if negb (has_option c name key) then raise (KeyError key)
  else get_option c name key.

(** [parser[section][key]] *)
Definition lookup (c : config) (section key : string) : M string :=
  proxy <- getitem c section ;;
  proxy_getitem c proxy key.

End Config.

(** *** What else the outside answers *)

Inductive parse_result : Type :=
| Parsed (c : config)
| ParseRaise (e : exn).

(** The platform name, the grammar of [configparser] and the device calls
    other than the install. *)
Record Host : Type := mkHost {
  sys_platform : string;
  config_parse : data -> parse_result;
  requests_post : world -> string -> list (string * string) -> http_result;
  requests_put_params : world -> string -> list (string * string) -> http_result
}.

(** [time.time()] and [os.path.getmtime(path)], in seconds, as Python's
    floats. *)
Record Clock : Type := mkClock {
  time_time : world -> float;
  getmtime : world -> string -> float
}.

Definition dq : string := String (ascii_of_nat 34) "".

Definition help_lines : list string :=
  ["Usage: python tactility.py [action] [options]";
   "";
   "Actions:";
   "  build [platform]              Build the app. Optionally specify a platform.";
   "    Supported platforms are lower case. Example: esp32s3";
   "    Supported platforms are read from manifest.properties";
   "  clean                          Clean the build folders";
   "  clearcache                     Clear the SDK cache";
   "  updateself                     Update this tool";
   "  run [ip]                       Run the application";
   "  install [ip]                   Install the application";
   "  uninstall [ip]                 Uninstall the application";
   "  bir [ip] [platform]           Build, install then run. Optionally specify a platform.";
   "  brrr [ip] [platform]          Functionally the same as " ++ dq ++ "bir" ++ dq
     ++ ", but " ++ dq ++ "app goes brrr" ++ dq ++ " meme variant.";
   "";
   "Options:";
   "  --help                         Show this commandline info";
   "  --local-sdk                    Use SDK specified by environment variable TACTILITY_SDK_PATH with platform subfolders matching target platforms.";
   "  --skip-build                   Run everything except the idf.py/CMake commands";
   "  --verbose                      Show extra console output"].

Definition print_help : M unit := print_lines (map line help_lines).

(** Seconds; the script compares a difference of floats with the integer
    3600, which Python does exactly. *)
Definition ttbuild_sdk_json_validity : float := 3600%float.

(** *** Manifest *)

Definition validate_manifest (manifest : config) : M unit :=
  when (negb (Config.contains manifest "manifest"))
    (exit_with_error "Invalid manifest format: [manifest] not found") ;;
  section <- Config.getitem manifest "manifest" ;;
  when (negb (Config.proxy_contains manifest section "version"))
    (exit_with_error "Invalid manifest format: [manifest] version not found") ;;
  when (negb (Config.contains manifest "target"))
    (exit_with_error "Invalid manifest format: [target] not found") ;;
  section <- Config.getitem manifest "target" ;;
  when (negb (Config.proxy_contains manifest section "sdk"))
    (exit_with_error "Invalid manifest format: [target] sdk not found") ;;
  section <- Config.getitem manifest "target" ;;
  when (negb (Config.proxy_contains manifest section "platforms"))
    (exit_with_error "Invalid manifest format: [target] platforms not found") ;;
  when (negb (Config.contains manifest "app"))
    (exit_with_error "Invalid manifest format: [app] not found") ;;
  section <- Config.getitem manifest "app" ;;
  when (negb (Config.proxy_contains manifest section "id"))
    (exit_with_error "Invalid manifest format: [app] id not found") ;;
  section <- Config.getitem manifest "app" ;;
  when (negb (Config.proxy_contains manifest section "versionName"))
    (exit_with_error "Invalid manifest format: [app] versionName not found") ;;
  section <- Config.getitem manifest "app" ;;
  when (negb (Config.proxy_contains manifest section "versionCode"))
    (exit_with_error "Invalid manifest format: [app] versionCode not found") ;;
  section <- Config.getitem manifest "app" ;;
  when (negb (Config.proxy_contains manifest section "name"))
    (exit_with_error "Invalid manifest format: [app] name not found").

(** [manifest["target"]["platforms"].split(",")] *)
Definition manifest_platforms (manifest : config) : M (list string) :=
  platforms <- Config.lookup manifest "target" "platforms" ;;
  ret (Str.split "," platforms).

Definition is_valid_manifest_platform (manifest : config) (platform : string) : M bool :=
  manifest_platforms <- manifest_platforms manifest ;;
  ret (mem platform manifest_platforms).

Definition validate_manifest_platform (manifest : config) (platform : string) : M unit :=
  valid <- is_valid_manifest_platform manifest platform ;;
  when (negb valid)
    (exit_with_error ("Platform " ++ platform ++ " is not available in the manifest.")).

Definition get_manifest_target_platforms (manifest : config)
  (requested_platform : option string) : M (list string) :=
  match requested_platform with
  | None => manifest_platforms manifest
  | Some platform =>
      if platform =? "" then manifest_platforms manifest
      else
        validate_manifest_platform manifest platform ;;
        ret [platform]
  end.

(** *** SDK helpers *)

Definition read_sdk_json : M json :=
  json_load (Path.join ttbuild_path "tool.json").

(** The loop of [validate_local_sdks]; [os.path.join] refuses a base path
    that is [None]. *)
Fixpoint validate_local_sdks_loop (base_path : option string) (version : string)
  (platforms : list string) : M unit :=
  match platforms with
  | [] => ret tt
  | platform :: rest =>
      match base_path with
      | None => raise (TypeError "expected str, bytes or os.PathLike object, not NoneType")
      | Some base =>
          let sdk_parent_dir := Path.join base (version ++ "-" ++ platform) in
          let sdk_dir := Path.join sdk_parent_dir "TactilitySDK" in
          d <- OS.isdir sdk_dir ;;
          when (negb d)
            (exit_with_error ("Local SDK folder missing for " ++ platform ++ ": " ++ sdk_dir)) ;;
          validate_local_sdks_loop base_path version rest
      end
  end.

Definition validate_local_sdks (platforms : list string) (version : string) : M unit :=
  local <- get use_local_sdk ;;
  if negb local then ret tt
  else
    base_path <- get local_base_path ;;
    validate_local_sdks_loop base_path version platforms.

Fixpoint should_fetch_sdkconfig_files (platform_targets : list string) : M bool :=
  match platform_targets with
  | [] => ret false
  | platform :: rest =>
      let sdkconfig_filename := "sdkconfig.app." ++ platform in
      present <- OS.exists_ (Path.join ttbuild_path sdkconfig_filename) ;;
      if negb present then ret true
      else should_fetch_sdkconfig_files rest
  end.

Definition sdkconfig_url (platform : string) : string :=
  ttbuild_cdn ++ "/" ++ "sdkconfig.app." ++ platform.

Section Scripts.

Variable E : Env.
Variable H : Host.
Variable C : Clock.

Definition should_update_tool_json : M bool :=
  let json_filepath := Path.join ttbuild_path "tool.json" in
  present <- OS.exists_ json_filepath ;;
  if present then
    json_modification_time <- get (fun w => getmtime C w json_filepath) ;;
    now <- get (time_time C) ;;
    let minimum_seconds_difference := ttbuild_sdk_json_validity in
    ret (PrimFloat.ltb minimum_seconds_difference
           (PrimFloat.sub now json_modification_time))
  else ret true.

Definition update_tool_json : M bool :=
  let json_url := ttbuild_cdn ++ "/sdk/tool.json" in
  let json_filepath := Path.join ttbuild_path "tool.json" in
  download_file E json_url json_filepath.

Fixpoint fetch_sdkconfig_files (platform_targets : list string) : M unit :=
  match platform_targets with
  | [] => ret tt
  | platform :: rest =>
      let sdkconfig_filename := "sdkconfig.app." ++ platform in
      let target_path := Path.join ttbuild_path sdkconfig_filename in
      ok <- download_file E (ttbuild_cdn ++ "/" ++ sdkconfig_filename) target_path ;;
      when (negb ok)
        (exit_with_error ("Failed to download sdkconfig file for " ++ platform)) ;;
      fetch_sdkconfig_files rest
  end.

(** *** Validation *)

Definition validate_environment : M unit :=
  idf_path <- environ_get "IDF_PATH" ;;
  when (negb (is_some idf_path))
    (if sys_platform H =? "win32" then
       exit_with_error "Cannot find the Espressif IDF SDK. Ensure it is installed and that it is activated via %IDF_PATH%\export.ps1"
     else
       exit_with_error "Cannot find the Espressif IDF SDK. Ensure it is installed and that it is activated via $PATH_TO_IDF_SDK/export.sh") ;;
  present <- OS.exists_ "manifest.properties" ;;
  when (negb present) (exit_with_error "manifest.properties not found") ;;
  local <- get use_local_sdk ;;
  sdk_path <- environ_get "TACTILITY_SDK_PATH" ;;
  if negb local && is_some sdk_path then
    print_warning "TACTILITY_SDK_PATH is set, but will be ignored by this command." ;;
    print_warning "If you want to use it, use the '--local-sdk' parameter"
  else
    local <- get use_local_sdk ;;
    sdk_path <- environ_get "TACTILITY_SDK_PATH" ;;
    when (local && negb (is_some sdk_path))
      (exit_with_error
         "local build was requested, but TACTILITY_SDK_PATH environment variable is not set.").

(** *** Manifest file *)

(** [RawConfigParser().read(path)]: a file that cannot be opened is passed
    over, which leaves the parser empty. *)
Definition read_properties_file (path : string) : M config :=
  fun w =>
    match OS.stat w path with
    | Some (File d) =>
        match config_parse H d with
        | Parsed c => (Return c, w)
        | ParseRaise e => (Raise e, w)
        end
    | _ => (Return (mkConfig [] []), w)
    end.

Definition read_manifest : M config := read_properties_file "manifest.properties".

(** *** Actions *)

Definition setup_environment : M unit := OS.makedirs ttbuild_path.

Definition build_action (manifest : config) (platform_arg : option string)
  (skip_build : bool) : M bool :=
  validate_environment ;;
  platforms_to_build <- get_manifest_target_platforms manifest platform_arg ;;
  local <- get use_local_sdk ;;
  when local
    (base <- environ_get "TACTILITY_SDK_PATH" ;;
     modify (with_local_base_path base) ;;
     sdk <- Config.lookup manifest "target" "sdk" ;;
     validate_local_sdks platforms_to_build sdk) ;;
  fetch <- should_fetch_sdkconfig_files platforms_to_build ;;
  when fetch (fetch_sdkconfig_files platforms_to_build) ;;
  local <- get use_local_sdk ;;
  when (negb local)
    (sdk_json <- read_sdk_json ;;
     validate_self E sdk_json) ;;
  sdk_version <- Config.lookup manifest "target" "sdk" ;;
  local <- get use_local_sdk ;;
  when (negb local)
    (ok <- sdk_download_all E sdk_version platforms_to_build ;;
     when (negb ok) (exit_with_error "Failed to download one or more SDKs")) ;;
  ok <- build_all E sdk_version platforms_to_build skip_build ;;
  if negb ok then ret false
  else if negb skip_build then
    ok <- package_all platforms_to_build ;;
    if negb ok then ret false else ret true
  else ret true.

Definition clean_action : M unit :=
  present <- OS.exists_ "build" ;;
  if present then
    print_status_busy "Removing build/" ;;
    OS.rmtree "build" ;;
    print_status_success "Removed build/"
  else print "Nothing to clean".

Definition clear_cache_action : M unit :=
  present <- OS.exists_ ttbuild_path ;;
  if present then
    print_status_busy ("Removing " ++ ttbuild_path ++ "/") ;;
    OS.rmtree ttbuild_path ;;
    print_status_success ("Removed " ++ ttbuild_path ++ "/")
  else print "Nothing to clear".

(** Whether Python takes a JSON value for true. *)
Definition truthy (j : json) : bool :=
  match j with
  | JNull => false
  | JBool b => b
  | JNum z => negb (z =? 0)%Z
  | JStr s => negb (s =? "")
  | JArr items => match items with [] => false | _ => true end
  | JObj fields => match fields with [] => false | _ => true end
  end.

Definition type_name (j : json) : string :=
  match j with
  | JNull => "NoneType"
  | JBool _ => "bool"
  | JNum _ => "int"
  | JStr _ => "str"
  | JArr _ => "list"
  | JObj _ => "dict"
  end.

(** [download_file(url, filepath)] for a [url] read from a JSON document.
    A string is a URL.  [urlparse] decodes any other argument: a false
    value gives the empty bytes scheme, a true one has no [decode]. *)
Definition download_file_json (url : json) (filepath : string) : M bool :=
  match url with
  | JStr url => download_file E url filepath
  | _ =>
      v <- get verbose ;;
      when v (print ("Downloading from " ++ Json.str url ++ " to " ++ filepath)) ;;
      if truthy url then
        raise (OtherException ("'" ++ type_name url ++ "' object has no attribute 'decode'"))
      else
        print_error "Unsupported URL scheme: b''" ;;
        ret false
  end.

Definition update_self_action : M unit :=
  sdk_json <- read_sdk_json ;;
  tool_download_url <- Json.getitem sdk_json "toolDownloadUrl" ;;
  ok <- download_file_json tool_download_url "tactility.py" ;;
  if ok then print "Updated"
  else exit_with_error "Update failed".

(** [requests.post(url, params=params, timeout=http_timeout_seconds)] and
    [requests.put(url, params=params, timeout=http_timeout_seconds)]: the
    status code of the response.  Every call is recorded. *)
Definition do_request (method : string)
  (answer : world -> string -> list (string * string) -> http_result)
  (url : string) (params : list (string * string)) : M Z :=
  fun w =>
    let w' := with_requested (requested w ++ [(method, url)]) w in
    match answer w url params with
    | Response status_code => (Return status_code, w')
    | RequestRaise e => (Raise e, w')
    end.

Definition run_action (manifest : config) (ip : string) : M unit :=
  app_id <- Config.lookup manifest "app" "id" ;;
  print_status_busy "Running" ;;
  let url := get_url ip "/app/run" in
  let params := [("id", app_id)] in
  try_except
    (status_code <- do_request "POST" (requests_post H) url params ;;
     if negb (status_code =? 200)%Z then print_error "Run failed"
     else print_status_success "Running")
    is_RequestException
    (fun e => print_status_error ("Running request failed: " ++ exn_str e)).

Definition uninstall_action (manifest : config) (ip : string) : M unit :=
  app_id <- Config.lookup manifest "app" "id" ;;
  print_status_busy "Uninstalling" ;;
  let url := get_url ip "/app/uninstall" in
  let params := [("id", app_id)] in
  try_except
    (status_code <- do_request "PUT" (requests_put_params H) url params ;;
     if negb (status_code =? 200)%Z then
       print_status_error "Server responded that uninstall failed"
     else print_status_success "Uninstalled")
    is_RequestException
    (fun e => print_status_error ("Uninstall request failed: " ++ exn_str e)).

(** *** Main *)

(** [l.remove(x)]: the first occurrence goes. *)
Fixpoint list_remove (x : string) (l : list string) : list string :=
  match l with
  | [] => []
  | h :: t => if h =? x then t else h :: list_remove x t
  end.

(** [sys.argv[i]] *)
Definition argv_get (argv : list string) (i : nat) : M string :=
  match nth_error argv i with
  | Some a => ret a
  | None => raise (IndexError "list index out of range")
  end.

(** [if len(sys.argv) < n: print_help(); exit_with_error(...)] *)
Definition require_arguments (argv : list string) (n : nat) : M unit :=
  when (List.length argv <? n)%nat
    (print_help ;; exit_with_error "Commandline parameter missing").

(** The [platform] and [platforms_to_install] of the [install], [bir] and
    [brrr] actions. *)
Definition install_arguments (argv all_platform_targets : list string)
  : M (option string * list string) :=
  if (4 <=? List.length argv)%nat then
    platform <- argv_get argv 3 ;;
    ret (Some platform, [platform])
  else ret (None, all_platform_targets).

(** The script run as a program, [argv] being [sys.argv].  [sys.exit()]
    leaves with status 0. *)
Definition main (argv : list string) : M unit :=
  print ("Tactility Build System v" ++ ttbuild_version) ;;
  when (mem "--help" argv) (print_help ;; raise (SystemExit 0)) ;;
  when (List.length argv =? 1)%nat (print_help ;; raise (SystemExit 1)) ;;
  let flag := mem "--verbose" argv in
  when flag (modify (with_verbose true)) ;;
  let argv := if flag then list_remove "--verbose" argv else argv in
  let skip_build := mem "--skip-build" argv in
  let argv := if skip_build then list_remove "--skip-build" argv else argv in
  let flag := mem "--local-sdk" argv in
  when flag (modify (with_use_local_sdk true)) ;;
  let argv := if flag then list_remove "--local-sdk" argv else argv in
  action_arg <- argv_get argv 1 ;;
  setup_environment ;;
  present <- OS.isfile "manifest.properties" ;;
  when (negb present) (exit_with_error "manifest.properties not found") ;;
  manifest <- read_manifest ;;
  validate_manifest manifest ;;
  all_platform_targets <- manifest_platforms manifest ;;
  local <- get use_local_sdk ;;
  stale <- (if negb local then should_update_tool_json else ret false) ;;
  failed <- (if stale then ok <- update_tool_json ;; ret (negb ok) else ret false) ;;
  when failed (exit_with_error "Failed to retrieve SDK info") ;;
  if action_arg =? "build" then
    require_arguments argv 2 ;;
    platform <- (if (2 <? List.length argv)%nat
                 then p <- argv_get argv 2 ;; ret (Some p)
                 else ret None) ;;
    ok <- build_action manifest platform skip_build ;;
    when (negb ok) (raise (SystemExit 1))
  else if action_arg =? "clean" then clean_action
  else if action_arg =? "clearcache" then clear_cache_action
  else if action_arg =? "updateself" then update_self_action
  else if action_arg =? "run" then
    require_arguments argv 3 ;;
    ip <- argv_get argv 2 ;;
    run_action manifest ip
  else if action_arg =? "install" then
    require_arguments argv 3 ;;
    arguments <- install_arguments argv all_platform_targets ;;
    ip <- argv_get argv 2 ;;
    install_action E ip (snd arguments) ;;
    ret tt
  else if action_arg =? "uninstall" then
    require_arguments argv 3 ;;
    ip <- argv_get argv 2 ;;
    uninstall_action manifest ip
  else if (action_arg =? "bir") || (action_arg =? "brrr") then
    require_arguments argv 3 ;;
    arguments <- install_arguments argv all_platform_targets ;;
    ok <- build_action manifest (fst arguments) skip_build ;;
    if ok then
      ip <- argv_get argv 2 ;;
      ok <- install_action E ip (snd arguments) ;;
      if ok then
        ip <- argv_get argv 2 ;;
        run_action manifest ip
      else ret tt
    else ret tt
  else
    print_help ;;
    exit_with_error "Unknown commandline parameter".

End Scripts.

(** ** Notions the properties of these functions are stated with *)

(** [m] leaves the component [f] of the world as it found it, whether it
    returns or raises. *)
Definition keeps {X A} (f : world -> X) (m : M A) : Prop :=
  forall w, f (snd (m w)) = f w.

(** The checks of [validate_manifest] in the order it makes them: a
    section, or an option of a section. *)
Definition manifest_checks : list (string * option string) :=
  [("manifest", None); ("manifest", Some "version");
   ("target", None); ("target", Some "sdk"); ("target", Some "platforms");
   ("app", None); ("app", Some "id"); ("app", Some "versionName");
   ("app", Some "versionCode"); ("app", Some "name")].

Definition check_holds (manifest : config) (check : string * option string) : bool :=
  match check with
  | (section, None) => Config.contains manifest section
  | (section, Some option) => Config.has_option manifest section option
  end.

Definition check_text (check : string * option string) : string :=
  match check with
  | (section, None) => "[" ++ section ++ "]"
  | (section, Some option) => "[" ++ section ++ "] " ++ option
  end.

(** The options a manifest must have. *)
Definition required_options : list (string * string) :=
  [("manifest", "version"); ("target", "sdk"); ("target", "platforms");
   ("app", "id"); ("app", "versionName"); ("app", "versionCode"); ("app", "name")].

(** Two manifests to run the checks on. *)
Module Demo.

(** The manifest of an application for two platforms, as the parser holds
    it: option names in lower case. *)
Definition manifest : config :=
  mkConfig []
    [("manifest", [("version", "0.1")]);
     ("target", [("sdk", "0.6.0"); ("platforms", "esp32,esp32s3")]);
     ("app", [("id", "com.example.hello"); ("versionname", "1.0.0");
              ("versioncode", "1"); ("name", "Hello")])].

(** The same without the application name. *)
Definition manifest_nameless : config :=
  mkConfig []
    [("manifest", [("version", "0.1")]);
     ("target", [("sdk", "0.6.0"); ("platforms", "esp32,esp32s3")]);
     ("app", [("id", "com.example.hello"); ("versionname", "1.0.0");
              ("versioncode", "1")])].

End Demo.

(** The world after [exit_with_error(message)] printed its line. *)
Definition exited {A} (message : string) (w : world) : outcome A * world :=
  (Raise (SystemExit 1), printed [line (error_text message)] w).

(** The world in which [download_file] opens its connection. *)
Definition download_world (url filepath : string) (w : world) : world :=
  announced (verbose w) ("Downloading from " ++ url ++ " to " ++ filepath) w.

Definition sdkconfig_path (platform : string) : string :=
  Path.join ttbuild_path ("sdkconfig.app." ++ platform).

(** The directory of a local SDK, and whether a path names a directory. *)
Definition local_sdk_dir (base version platform : string) : string :=
  Path.join (Path.join base (version ++ "-" ++ platform)) "TactilitySDK".

Definition has_dir (w : world) (p : string) : bool :=
  match OS.stat w p with Some (Dir _) => true | _ => false end.

(** The path of the cached [tool.json]. *)
Definition tool_json_path : string := Path.join ttbuild_path "tool.json".

(** What the checks that come before a build leave as it is: the file
    system, the working directory, the [--local-sdk] flag and the list of
    connections opened. *)
Definition standing (w : world) : node * FS.path * bool * list string :=
  (fs w, cwd w, use_local_sdk w, fetched w).

(** The first line the script prints. *)
Definition banner : string := "Tactility Build System v" ++ ttbuild_version.

(** Where [tool.json] comes from. *)
Definition tool_json_url : string := ttbuild_cdn ++ "/sdk/tool.json".

(** The three options the script takes out of [sys.argv]. *)
Definition option_flags : list string := ["--verbose"; "--skip-build"; "--local-sdk"].

(** ** More concrete worlds *)

Module Site.

(** A developer machine on which the manifest parses to [Demo.manifest]
    and the device accepts every request. *)
Definition host : Host :=
  mkHost "linux" (fun _ => Parsed Demo.manifest)
         (fun _ _ _ => Response 200) (fun _ _ _ => Response 200).

(** A clock on which every file is 4000 seconds old. *)
Definition clock : Clock := mkClock (fun _ => 5000%float) (fun _ _ => 1000%float).


(** A machine with the SDKs of both platforms under [/opt/sdk] and the
    project under [/home/dev/app], set up for [--local-sdk]. *)
Definition root_local : node :=
  Dir [("opt", Dir [("sdk", Dir [("0.6.0-esp32", Dir [("TactilitySDK", Dir [])]);
                                 ("0.6.0-esp32s3", Dir [("TactilitySDK", Dir [])])])]);
       ("home", Dir [("dev", Dir [("app", Example.project_fresh)])])].

Definition world_local : world :=
  mkWorld root_local Example.home
          [("IDF_PATH", "/opt/idf"); ("TACTILITY_SDK_PATH", "/opt/sdk")]
          [] [] [] [] false true (Some "/opt/sdk").

(** A directory that holds nothing of a project. *)
Definition world_empty : world := Example.world_of (Dir []).

End Site.

(** * Properties *)

(** ** Running the monad step by step *)

Ltac unfold_m :=
  cbv beta iota delta
    [bind ret raise get modify when try_except exit_with_error
     print_error print_warning print_status_error print_status_success
     print_status_busy print write_stdout negb orb andb] in *.

Lemma bind_return {A B} (m : M A) (k : A -> M B) w a w' :
  m w = (Return a, w') -> bind m k w = k a w'.
Proof. intros H. unfold bind. now rewrite H. Qed.

Lemma bind_raise {A B} (m : M A) (k : A -> M B) w e w' :
  m w = (Raise e, w') -> bind m k w = (Raise e, w').
Proof. intros H. unfold bind. now rewrite H. Qed.

Lemma bind_ret {A B} (a : A) (k : A -> M B) w : bind (ret a) k w = k a w.
Proof. reflexivity. Qed.

Lemma bind_get {A B} (f : world -> A) (k : A -> M B) w : bind (get f) k w = k (f w) w.
Proof. reflexivity. Qed.

Lemma bind_write {B} (s : string) (k : unit -> M B) w :
  bind (write_stdout s) k w = k tt (printed [s] w).
Proof. reflexivity. Qed.

Lemma bind_print {B} (s : string) (k : unit -> M B) w :
  bind (print s) k w = k tt (printed [line s] w).
Proof. reflexivity. Qed.

Lemma bind_when_print {B} (flag : bool) (s : string) (k : unit -> M B) w :
  bind (when flag (print s)) k w = k tt (announced flag s w).
Proof. destruct flag; reflexivity. Qed.

Lemma printed_nil w : printed [] w = w.
Proof. destruct w. unfold printed, with_stdout. simpl. now rewrite app_nil_r. Qed.

Lemma printed_printed l1 l2 w : printed l2 (printed l1 w) = printed (l1 ++ l2) w.
Proof. unfold printed, with_stdout. simpl. now rewrite app_assoc. Qed.

Lemma bind_print_lines {B} (lines : list string) (k : unit -> M B) w :
  bind (print_lines lines) k w = k tt (printed lines w).
Proof.
  revert w. induction lines as [|l lines IH]; intros w.
  - cbn [print_lines]. rewrite bind_ret, printed_nil. reflexivity.
  - change (bind (print_lines (l :: lines)) k w)
      with (bind (print_lines lines) k (printed [l] w)).
    rewrite IH, printed_printed. reflexivity.
Qed.

(** ** download_file *)

Section DownloadFile.

Variable E : Env.


End DownloadFile.


(** ** validate_self *)

Lemma is_str_false (s : string) (j : json) : j <> JStr s -> Json.is_str s j = false.
Proof.
  destruct j; simpl; try reflexivity.
  intros H. apply String.eqb_neq. congruence.
Qed.

Section ValidateSelf.

Variable E : Env.

(** C8. On a tool-metadata object [validate_self] ends the process
    ([sys.exit(1)] after an error line) when one of [toolVersion],
    [toolCompatibility], [toolDownloadUrl] is missing, and when the
    [toolCompatibility] pattern does not match the local version; when the
    pattern matches, a [toolVersion] that differs from the local version
    only prints the two warning lines and validation returns. *)
Theorem validate_self_spec (fields : list (string * json)) (w : world) :
  ((Json.dict_get "toolVersion" fields = None
    \/ Json.dict_get "toolCompatibility" fields = None
    \/ Json.dict_get "toolDownloadUrl" fields = None) ->
   exists key,
     In key ["toolVersion"; "toolCompatibility"; "toolDownloadUrl"]
     /\ Json.dict_get key fields = None
     /\ validate_self E (JObj fields) w
        = (Raise (SystemExit 1),
           with_stdout (stdout w ++ [line (missing_key_text key)]) w))
  /\ (forall tool_version pattern download_url,
        Json.dict_get "toolVersion" fields = Some tool_version ->
        Json.dict_get "toolCompatibility" fields = Some (JStr pattern) ->
        Json.dict_get "toolDownloadUrl" fields = Some download_url ->
        re_search E pattern ttbuild_version = NoMatch ->
        exists warnings,
          validate_self E (JObj fields) w
          = (Raise (SystemExit 1),
             with_stdout
               (stdout w ++ warnings
                ++ [line (error_text "The tool is not compatible anymore.");
                    line (error_text "Run 'tactility.py updateself' to update.")]) w))
  /\ (forall tool_version pattern download_url,
        Json.dict_get "toolVersion" fields = Some tool_version ->
        Json.dict_get "toolCompatibility" fields = Some (JStr pattern) ->
        Json.dict_get "toolDownloadUrl" fields = Some download_url ->
        re_search E pattern ttbuild_version = Match ->
        tool_version <> JStr ttbuild_version ->
        validate_self E (JObj fields) w
        = (Return tt,
           with_stdout
             (stdout w
              ++ [line (warning_text ("New version available: " ++ Json.str tool_version
                                      ++ " (currently using " ++ ttbuild_version ++ ")"));
                  line (warning_text "Run 'tactility.py updateself' to update.")]) w)).
Proof.
  split; [| split].
  - intros Hmissing.
    destruct (Json.dict_get "toolVersion" fields) as [tv|] eqn:Hv.
    + destruct (Json.dict_get "toolCompatibility" fields) as [tc|] eqn:Hc.
      * destruct Hmissing as [H | [H | H]]; try discriminate.
        exists "toolDownloadUrl". split; [simpl; tauto | split; [exact H |]].
        unfold validate_self, Json.contains. unfold_m.
        rewrite Hv, Hc, H. reflexivity.
      * exists "toolCompatibility". split; [simpl; tauto | split; [exact Hc |]].
        unfold validate_self, Json.contains. unfold_m.
        rewrite Hv, Hc. reflexivity.
    + exists "toolVersion". split; [simpl; tauto | split; [exact Hv |]].
      unfold validate_self, Json.contains. unfold_m.
      rewrite Hv. reflexivity.
  - intros tv pat url Hv Hc Hu Hre.
    unfold validate_self, Json.contains, Json.getitem, re_search_is_none. unfold_m.
    rewrite Hv, Hc, Hu, Hre.
    destruct (Json.is_str ttbuild_version tv); unfold_m; cbn [stdout with_stdout].
    + exists []. rewrite <- !app_assoc. reflexivity.
    + eexists [_; _]. rewrite <- !app_assoc. reflexivity.
  - intros tv pat url Hv Hc Hu Hre Hne.
    unfold validate_self, Json.contains, Json.getitem, re_search_is_none. unfold_m.
    rewrite Hv, Hc, Hu, Hre, (is_str_false _ _ Hne). unfold_m.
    cbn [stdout with_stdout]. rewrite <- !app_assoc. reflexivity.
Qed.

End ValidateSelf.

(** The witness: metadata without a download URL, metadata whose pattern
    [9] rejects version 3.4.0, and metadata that announces 3.5.0 with a
    pattern that accepts 3.4.0. *)
Lemma validate_self_spec_witness :
  let w := Example.world_of Example.project_fresh in
  (exists key,
      validate_self Example.env_default
        (JObj [("toolVersion", JStr "3.4.0"); ("toolCompatibility", JStr "3")]) w
      = (Raise (SystemExit 1), with_stdout (stdout w ++ [line (missing_key_text key)]) w))
  /\ (exists warnings,
         validate_self Example.env_default
           (JObj [("toolVersion", JStr "9.0.0"); ("toolCompatibility", JStr "9");
                  ("toolDownloadUrl", JStr "https://cdn.tactilityproject.org/tactility.py")]) w
         = (Raise (SystemExit 1),
            with_stdout
              (stdout w ++ warnings
               ++ [line (error_text "The tool is not compatible anymore.");
                   line (error_text "Run 'tactility.py updateself' to update.")]) w))
  /\ validate_self Example.env_default
       (JObj [("toolVersion", JStr "3.5.0"); ("toolCompatibility", JStr "3");
              ("toolDownloadUrl", JStr "https://cdn.tactilityproject.org/tactility.py")]) w
     = (Return tt,
        with_stdout
          (stdout w
           ++ [line (warning_text ("New version available: " ++ "3.5.0"
                                   ++ " (currently using " ++ ttbuild_version ++ ")"));
               line (warning_text "Run 'tactility.py updateself' to update.")]) w).
Proof.
  intros w. split; [| split].
  - destruct (validate_self_spec Example.env_default
                [("toolVersion", JStr "3.4.0"); ("toolCompatibility", JStr "3")] w)
      as [Hmissing _].
    destruct Hmissing as [key [_ [_ Hrun]]].
    + right; right. reflexivity.
    + exists key. exact Hrun.
  - destruct (validate_self_spec Example.env_default
                [("toolVersion", JStr "9.0.0"); ("toolCompatibility", JStr "9");
                 ("toolDownloadUrl", JStr "https://cdn.tactilityproject.org/tactility.py")] w)
      as [_ [Hnomatch _]].
    apply (Hnomatch (JStr "9.0.0") "9" (JStr "https://cdn.tactilityproject.org/tactility.py"));
      reflexivity.
  - destruct (validate_self_spec Example.env_default
                [("toolVersion", JStr "3.5.0"); ("toolCompatibility", JStr "3");
                 ("toolDownloadUrl", JStr "https://cdn.tactilityproject.org/tactility.py")] w)
      as [_ [_ Hwarn]].
    apply (Hwarn (JStr "3.5.0") "3" (JStr "https://cdn.tactilityproject.org/tactility.py"));
      try reflexivity.
    discriminate.
Defined.

(** ** The file-system tree *)

Lemma assoc_drop_entry {A} k (es : list (string * A)) :
  FS.assoc k (FS.drop_entry k es) = None.
Proof.
  induction es as [|[k' v] es IH]; [reflexivity |].
  unfold FS.drop_entry in *. cbn [filter fst].
  destruct (k' =? k) eqn:Hk; cbn [negb]; [exact IH |].
  cbn [FS.assoc]. now rewrite Hk.
Qed.

Lemma assoc_set_entry_same {A} k (v : A) es : FS.assoc k (FS.set_entry k v es) = Some v.
Proof.
  induction es as [|[k' v'] es IH]; cbn [FS.set_entry FS.assoc].
  - now rewrite String.eqb_refl.
  - destruct (k' =? k) eqn:Hk; cbn [FS.assoc].
    + now rewrite String.eqb_refl.
    + now rewrite Hk.
Qed.

Lemma alter_last f c es :
  FS.alter f [c] (Dir es)
  = match f (FS.assoc c es) with
    | Some (Some n') => Some (Dir (FS.set_entry c n' es))
    | Some None => Some (Dir (FS.drop_entry c es))
    | None => None
    end.
Proof. reflexivity. Qed.

Lemma alter_deeper f c c2 q es :
  FS.alter f (c :: c2 :: q) (Dir es)
  = match FS.assoc c es with
    | Some child =>
        match FS.alter f (c2 :: q) child with
        | Some child' => Some (Dir (FS.set_entry c child' es))
        | None => None
        end
    | None => None
    end.
Proof. reflexivity. Qed.

(** An alteration that only ever removes leaves nothing at its path. *)
Lemma alter_deletes f q :
  (forall cur r, f cur = Some r -> r = None) ->
  forall n n', FS.alter f q n = Some n' -> FS.lookup n' q = None.
Proof.
  intros Hf. induction q as [|c q IH]; intros n n' H.
  - destruct n; discriminate.
  - destruct n as [d|es]; [destruct q; discriminate |].
    destruct q as [|c2 q].
    + rewrite alter_last in H.
      destruct (f (FS.assoc c es)) as [[r|]|] eqn:Hfc; try discriminate.
      * apply Hf in Hfc. discriminate.
      * injection H as <-. cbn [FS.lookup]. now rewrite assoc_drop_entry.
    + rewrite alter_deeper in H.
      destruct (FS.assoc c es) as [child|]; try discriminate.
      destruct (FS.alter f (c2 :: q) child) as [child'|] eqn:Hc; try discriminate.
      injection H as <-. cbn [FS.lookup]. rewrite assoc_set_entry_same.
      exact (IH _ _ Hc).
Qed.

(** ** What the [os] operations leave alone *)


Lemma bind_modify {B} (f : world -> world) (k : unit -> M B) w :
  bind (modify f) k w = k tt (f w).
Proof. reflexivity. Qed.






(** ** Building *)



Section Building.

Variable E : Env.





Lemma build_all_app v before rest skip w w1 :
  build_all E v before skip w = (Return true, w1) ->
  build_all E v (before ++ rest) skip w = build_all E v rest skip w1.
Proof.
  revert w. induction before as [|p before IH]; intros w H.
  - now injection H as <-.
  - cbn [build_all app] in *. unfold bind in *.
    destruct (build_platform E v p skip w) as [[[|]|e] w0]; try discriminate.
    cbn [negb] in *. now apply IH.
Qed.

(** C4. [build_all] goes through the platforms in the order of the list,
    and the first platform whose build fails ends it: the result is
    [False] and the world is the one that build left, so nothing was done
    for a later platform (no command spawned, no file touched, no line
    printed). *)
Theorem build_all_fail_fast v before failing after skip w w1 w2 :
  build_all E v before skip w = (Return true, w1) ->
  build_platform E v failing skip w1 = (Return false, w2) ->
  build_all E v (before ++ failing :: after) skip w = (Return false, w2).
Proof.
  intros Hbefore Hfail.
  rewrite (build_all_app _ _ _ _ _ _ Hbefore).
  cbn [build_all]. now rewrite (bind_return _ _ _ _ _ Hfail).
Qed.

End Building.



(** The witness of C4: three platforms, of which the second does not
    build; only two commands were ever spawned. *)
Lemma build_all_fail_fast_witness :
  let E := Example.env Example.cdn_down (Example.idf_except "esp32s3")
             (Example.device_answers 200) in
  let w := Example.world_of Example.project_fresh in
  exists w2,
    build_all E "0.6.0" ["esp32"; "esp32s3"; "esp32c6"] false w = (Return false, w2)
    /\ spawned w2 = [first_build_command "esp32"; first_build_command "esp32s3"].
Proof.
  intros E w.
  exists (snd (build_all E "0.6.0" ["esp32"; "esp32s3"] false w)).
  split.
  - apply (build_all_fail_fast E "0.6.0" ["esp32"] "esp32s3" ["esp32c6"] false w
             (snd (build_all E "0.6.0" ["esp32"] false w))).
    + vm_compute; reflexivity.
    + vm_compute; reflexivity.
  - vm_compute; reflexivity.
Defined.


(** ** safe_extract_zip *)

Lemma prefix_cons a s1 b s2 :
  String.prefix (String a s1) (String b s2) = true <-> a = b /\ String.prefix s1 s2 = true.
Proof.
  cbn [String.prefix]. destruct (ascii_dec a b) as [->|Hne]; split.
  - now split.
  - now intros [_ H].
  - discriminate.
  - intros [H _]. contradiction.
Qed.

Lemma append_assoc (a b c : string) : ((a ++ b) ++ c = a ++ (b ++ c))%string.
Proof. induction a as [|x a IH]; cbn; [reflexivity | now rewrite IH]. Qed.

(** Two slash-free components followed by a separator (or by nothing, for
    the second) agree as soon as one spelling is a prefix of the other. *)
Lemma component_prefix c : forall c' R R',
  Str.has_char Path.sep_char c = false ->
  Str.has_char Path.sep_char c' = false ->
  (exists R0, R = String Path.sep_char R0) ->
  (R' = "" \/ exists R0', R' = String Path.sep_char R0') ->
  String.prefix (c ++ R) (c' ++ R') = true ->
  c = c' /\ String.prefix R R' = true.
Proof.
  induction c as [|a c IH]; intros c' R R' Hc Hc' [R0 ->] HR' H.
  - destruct c' as [|a' c']; [now split |].
    cbn [append] in H. apply prefix_cons in H as [<- _].
    cbn [Str.has_char] in Hc'. now rewrite Ascii.eqb_refl in Hc'.
  - cbn [Str.has_char] in Hc. apply orb_false_elim in Hc as [Ha Hc].
    destruct c' as [|a' c'].
    + cbn [append] in H. destruct HR' as [-> | [R0' ->]]; [discriminate |].
      apply prefix_cons in H as [-> _]. now rewrite Ascii.eqb_refl in Ha.
    + cbn [append] in H. apply prefix_cons in H as [<- H].
      cbn [Str.has_char] in Hc'. apply orb_false_elim in Hc' as [_ Hc'].
      destruct (IH c' _ R' Hc Hc' (ex_intro _ R0 eq_refl) HR' H) as [-> HRR].
      now split.
Qed.

Lemma render_from_shape cs :
  Path.render_from cs = "" \/ exists R0, Path.render_from cs = String Path.sep_char R0.
Proof. destruct cs as [|c cs]; [now left | right; eexists; reflexivity]. Qed.

Lemma render_from_descendant t : forall d,
  wellformed t -> wellformed d ->
  String.prefix (Path.render_from t ++ Path.sep) (Path.render_from d) = true ->
  strict_descendant d t.
Proof.
  induction t as [|c cs IH]; intros d Ht Hd H.
  - destruct d as [|c' ds]; [discriminate |].
    exists (c' :: ds). split; [discriminate | reflexivity].
  - destruct d as [|c' ds]; [discriminate |].
    cbn [Path.render_from] in H. unfold Path.sep in H at 1 3. cbn [append] in H.
    apply prefix_cons in H as [_ H].
    rewrite append_assoc in H.
    inversion Ht as [|? ? [_ Hc] Hcs]; subst. inversion Hd as [|? ? [_ Hc'] Hds]; subst.
    apply component_prefix in H as [<- H]; try assumption.
    + destruct (IH ds Hcs Hds H) as [rest [Hrest ->]].
      exists rest. split; [assumption | reflexivity].
    + destruct cs; eexists; reflexivity.
    + apply render_from_shape.
Qed.

Lemma startswith_descendant d t :
  wellformed d -> wellformed t ->
  Str.startswith (Path.render d) (Path.render t ++ Path.sep) = true ->
  strict_descendant d t.
Proof.
  unfold Str.startswith. intros Hd Ht H.
  destruct t as [|c cs].
  - exfalso. destruct d as [|c' ds]; [discriminate |].
    change (Path.render [] ++ Path.sep) with (String Path.sep_char (String Path.sep_char "")) in H.
    change (Path.render (c' :: ds)) with (String Path.sep_char (c' ++ Path.render_from ds)) in H.
    apply prefix_cons in H as [_ H].
    inversion Hd as [|? ? [Hne Hc'] _]; subst.
    destruct c' as [|a c']; [contradiction |].
    cbn [append] in H. apply prefix_cons in H as [<- _].
    cbn [Str.has_char] in Hc'. now rewrite Ascii.eqb_refl in Hc'.
  - destruct d as [|c' ds].
    + exfalso.
      change (Path.render []) with (String Path.sep_char "") in H.
      change (Path.render (c :: cs) ++ Path.sep)
        with (String Path.sep_char ((c ++ Path.render_from cs) ++ Path.sep)) in H.
      apply prefix_cons in H as [_ H].
      inversion Ht as [|? ? [Hne _] _]; subst.
      destruct c; [contradiction | discriminate].
    + now apply render_from_descendant.
Qed.

Lemma split_no_sep sep s : Forall (fun c => Str.has_char sep c = false) (Str.split sep s).
Proof.
  induction s as [|a s IH]; cbn [Str.split].
  - constructor; [reflexivity | constructor].
  - destruct (Ascii.eqb a sep) eqn:Ha.
    + constructor; [reflexivity | exact IH].
    + destruct (Str.split sep s) as [|h t]; inversion IH; subst;
        constructor; try assumption; cbn [Str.has_char]; rewrite ?Ha; auto.
Qed.

Lemma wellformed_removelast p : wellformed p -> wellformed (removelast p).
Proof.
  unfold wellformed. induction 1 as [|c [|c2 p] Hc Hp IH]; cbn [removelast].
  - constructor.
  - constructor.
  - constructor; assumption.
Qed.

Lemma wellformed_norm comps : forall stack,
  wellformed stack ->
  Forall (fun c => Str.has_char Path.sep_char c = false) comps ->
  wellformed (Path.norm stack comps).
Proof.
  induction comps as [|c cs IH]; intros stack Hs Hc; cbn [Path.norm]; [exact Hs |].
  inversion Hc as [|? ? Hc1 Hcs]; subst.
  destruct (c =? "") eqn:He; cbn [orb]; [now apply IH |].
  destruct (c =? "."); [now apply IH |].
  destruct (c =? "..").
  - apply IH; [now apply wellformed_removelast | assumption].
  - apply IH; [| assumption].
    apply Forall_app. split; [exact Hs |].
    constructor; [| constructor]. split; [| assumption].
    now apply String.eqb_neq.
Qed.

Lemma wellformed_resolve cwd p : wellformed cwd -> wellformed (Path.resolve cwd p).
Proof.
  intros H. unfold Path.resolve.
  destruct (Str.startswith p Path.sep);
    apply wellformed_norm; try assumption; try constructor; apply split_no_sep.
Qed.

Lemma check_members_rejects t members w :
  wellformed (cwd w) -> wellformed t ->
  (exists member,
      In member members
      /\ ~ strict_descendant
             (Path.resolve (cwd w) (Path.join (Path.render t) (fst member))) t) ->
  exists filename,
    In filename (map fst members)
    /\ check_members (Path.render t) members w
       = (Raise (ValueError ("Invalid zip entry: " ++ filename)), w).
Proof.
  intros Hcwd Ht. induction members as [|[filename payload] rest IH]; intros [m [Hin Hbad]].
  - destruct Hin.
  - cbn [check_members]. rewrite bind_get.
    destruct (Str.startswith _ _) eqn:Htest; cbn [negb].
    + destruct Hin as [<- | Hin].
      * exfalso. apply Hbad. cbn [fst].
        apply startswith_descendant; try assumption.
        now apply wellformed_resolve.
      * destruct IH as [f [Hf Hrun]]; [now exists m |].
        exists f. split; [now right | exact Hrun].
    + exists filename. split; [now left | reflexivity].
Qed.

(** C2. When some member of the archive resolves to a path that is not a
    strict descendant of the canonical target directory, [safe_extract_zip]
    raises [ValueError] for a member and leaves the world exactly as it
    was: the members are all checked before [extractall] is reached, so
    nothing is written, inside or outside the target directory. *)
Theorem safe_extract_zip_rejects_escape zip_ref target_dir w :
  wellformed (cwd w) ->
  (exists member,
      In member zip_ref
      /\ ~ strict_descendant
             (Path.resolve (cwd w)
                (Path.join (Path.realpath (cwd w) target_dir) (fst member)))
             (Path.resolve (cwd w) target_dir)) ->
  exists filename,
    In filename (map fst zip_ref)
    /\ safe_extract_zip zip_ref target_dir w
       = (Raise (ValueError ("Invalid zip entry: " ++ filename)), w).
Proof.
  intros Hcwd Hbad.
  destruct (check_members_rejects (Path.resolve (cwd w) target_dir) zip_ref w Hcwd
              (wellformed_resolve _ _ Hcwd) Hbad) as [filename [Hin Hrun]].
  exists filename. split; [exact Hin |].
  unfold safe_extract_zip. rewrite bind_get.
  unfold Path.realpath at 1 2.
  now rewrite (bind_raise _ _ _ _ _ Hrun).
Qed.

(** The witness: an SDK archive with a member [../evil]. *)
Lemma safe_extract_zip_rejects_escape_witness :
  let w := Example.world_of Example.project_fresh in
  exists filename,
    safe_extract_zip [("include/tt.h", Bytes "x"); ("../evil", Bytes "x")]
      ".tactility/0.6.0-esp32/TactilitySDK" w
    = (Raise (ValueError ("Invalid zip entry: " ++ filename)), w).
Proof.
  intros w.
  destruct (safe_extract_zip_rejects_escape
              [("include/tt.h", Bytes "x"); ("../evil", Bytes "x")]
              ".tactility/0.6.0-esp32/TactilitySDK" w)
    as [filename [_ Hrun]].
  - repeat constructor; discriminate.
  - exists ("../evil", Bytes "x"). split; [right; left; reflexivity |].
    intros [rest [_ Heq]]. vm_compute in Heq. inversion Heq.
  - exists filename. exact Hrun.
Defined.

(** ** sdk_download_all *)

Section SdkDownload.

Variable E : Env.

End SdkDownload.



(** ** install_action *)

Section Install.

Variable E : Env.

Lemma install_action_start ip ps w package_path file :
  install_check ps (install_world w) = (Return true, install_world w) ->
  package_name ps (install_world w) = (Return package_path, install_world w) ->
  OS.read_file package_path (install_world w) = (Return file, install_world w) ->
  install_action E ip ps w
  = try_except
      (status_code <- do_put E (install_url ip) file ;;
       if negb (status_code =? 200)%Z then
         print_status_error "Install failed" ;; ret false
       else
         print_status_success "Installing" ;; ret true)
      is_OSError
      (fun e =>
         if is_RequestException e then
           print_status_error ("Install request failed: " ++ exn_str e) ;; ret false
         else
           print_status_error ("Install file error: " ++ exn_str e) ;; ret false)
      (install_world w).
Proof.
  intros Hcheck Hname Hread.
  unfold install_action, print_status_busy. rewrite bind_write.
  fold (install_world w).
  rewrite (bind_return _ _ _ _ _ Hcheck). cbv iota beta delta [negb].
  rewrite (bind_return _ _ _ _ _ Hname).
  unfold try_except. rewrite (bind_return _ _ _ _ _ Hread). reflexivity.
Qed.

(** C9. Once [install_action] has found the artifacts and opened the
    package, the answer of the device decides: a status code other than
    200 is reported as [Install failed] and gives [False], 200 is reported
    as success and gives [True], and an exception of [requests] is caught
    and reported as [Install request failed] with its cause, a line that is
    never the one of a status code; [False] is returned, nothing is
    raised. *)
Theorem install_action_status ip ps w package_path file :
  install_check ps (install_world w) = (Return true, install_world w) ->
  package_name ps (install_world w) = (Return package_path, install_world w) ->
  OS.read_file package_path (install_world w) = (Return file, install_world w) ->
  let sent := after_request "PUT" (install_url ip) (install_world w) in
  (forall status_code,
      requests_put E (install_world w) (install_url ip) file = Response status_code ->
      status_code <> 200%Z ->
      install_action E ip ps w
      = (Return false, printed [line (status_error_text "Install failed")] sent))
  /\ (requests_put E (install_world w) (install_url ip) file = Response 200 ->
      install_action E ip ps w
      = (Return true, printed [line (status_success_text "Installing")] sent))
  /\ (forall cause,
         requests_put E (install_world w) (install_url ip) file
         = RequestRaise (RequestException cause) ->
         install_action E ip ps w
         = (Return false,
            printed [line (status_error_text ("Install request failed: " ++ cause))] sent)
         /\ status_error_text ("Install request failed: " ++ cause)
            <> status_error_text "Install failed").
Proof.
  intros Hcheck Hname Hread sent.
  rewrite (install_action_start ip ps w package_path file Hcheck Hname Hread).
  unfold try_except, bind, do_put. fold sent.
  split; [| split].
  - intros code -> Hcode. apply Z.eqb_neq in Hcode. rewrite Hcode. reflexivity.
  - intros ->. reflexivity.
  - intros cause ->. split; [reflexivity |].
    unfold status_error_text. intros H. cbn in H. discriminate.
Qed.
End Install.

(** The witness of C9: the packaged project, and a device that answers
    500, one that answers 200, one that does not answer. *)
Lemma install_action_status_witness :
  let w := snd (package_all ["esp32"; "esp32s3"] (Example.world_of Example.project_built)) in
  let ps := ["esp32"; "esp32s3"] in
  fst (install_action (Example.env Example.cdn_down (Example.idf_idle 0)
                         (Example.device_answers 500)) "192.168.1.5" ps w) = Return false
  /\ fst (install_action (Example.env Example.cdn_down (Example.idf_idle 0)
                            (Example.device_answers 200)) "192.168.1.5" ps w) = Return true
  /\ install_action (Example.env Example.cdn_down (Example.idf_idle 0) Example.device_silent)
       "192.168.1.5" ps w
     = (Return false,
        printed [line (status_error_text
                         ("Install request failed: " ++ "Read timed out. (read timeout=10)"))]
          (after_request "PUT" (install_url "192.168.1.5") (install_world w))).
Proof.
  intros w ps.
  pose (file := TarArchive
                  [("", None); ("elf", None); ("elf/esp32.elf", Some Example.elf);
                   ("elf/esp32s3.elf", Some Example.elf);
                   ("manifest.properties", Some Example.manifest)]).
  split; [| split].
  - destruct (install_action_status
                (Example.env Example.cdn_down (Example.idf_idle 0) (Example.device_answers 500))
                "192.168.1.5" ps w "build/Hello.app" file) as [Hfail _];
      [vm_compute; reflexivity | vm_compute; reflexivity | vm_compute; reflexivity |].
    rewrite (Hfail 500%Z); [reflexivity | reflexivity | discriminate].
  - destruct (install_action_status
                (Example.env Example.cdn_down (Example.idf_idle 0) (Example.device_answers 200))
                "192.168.1.5" ps w "build/Hello.app" file) as [_ [Hok _]];
      [vm_compute; reflexivity | vm_compute; reflexivity | vm_compute; reflexivity |].
    rewrite Hok; reflexivity.
  - destruct (install_action_status
                (Example.env Example.cdn_down (Example.idf_idle 0) Example.device_silent)
                "192.168.1.5" ps w "build/Hello.app" file) as [_ [_ Hraise]];
      [vm_compute; reflexivity | vm_compute; reflexivity | vm_compute; reflexivity |].
    destruct (Hraise "Read timed out. (read timeout=10)") as [Hrun _]; [reflexivity |].
    exact Hrun.
Defined.

(** ** Frames of the file-system operations *)

Section Frames.

Local Open Scope list_scope.

Lemma assoc_set_entry_other {A} k k' (v : A) es :
  k <> k' -> FS.assoc k' (FS.set_entry k v es) = FS.assoc k' es.
Proof.
  intros Hne. induction es as [|[k0 v0] es IH]; cbn [FS.set_entry FS.assoc].
  - apply String.eqb_neq in Hne. now rewrite Hne.
  - destruct (k0 =? k) eqn:Hk.
    + apply String.eqb_eq in Hk as ->. cbn [FS.assoc].
      apply String.eqb_neq in Hne. rewrite Hne.
      clear IH. induction es as [|[k1 v1] es IH]; [reflexivity |].
      unfold FS.drop_entry in *. cbn [filter fst FS.assoc].
      destruct (k1 =? k) eqn:Hk1; cbn [negb].
      * apply String.eqb_eq in Hk1 as ->. now rewrite Hne.
      * cbn [FS.assoc]. now rewrite IH.
    + cbn [FS.assoc]. now rewrite IH.
Qed.

Lemma assoc_drop_entry_other {A} k k' (es : list (string * A)) :
  k <> k' -> FS.assoc k' (FS.drop_entry k es) = FS.assoc k' es.
Proof.
  intros Hne. apply String.eqb_neq in Hne.
  induction es as [|[k1 v1] es IH]; [reflexivity |].
  unfold FS.drop_entry in *. cbn [filter fst FS.assoc].
  destruct (k1 =? k) eqn:Hk1; cbn [negb].
  - apply String.eqb_eq in Hk1 as ->. now rewrite Hne.
  - cbn [FS.assoc]. now rewrite IH.
Qed.

Lemma lookup_cons c q es :
  FS.lookup (Dir es) (c :: q)
  = match FS.assoc c es with Some n' => FS.lookup n' q | None => None end.
Proof. reflexivity. Qed.

(** [alter] leaves alone what lies on another branch. *)
Lemma alter_frame f pre : forall a b p' q' n n',
  a <> b ->
  FS.alter f (pre ++ a :: p') n = Some n' ->
  FS.lookup n' (pre ++ b :: q') = FS.lookup n (pre ++ b :: q').
Proof.
  induction pre as [|c pre IH]; intros a b p' q' n n' Hne H.
  - cbn [app] in *. destruct n as [d|es]; [destruct p'; discriminate |].
    rewrite !lookup_cons.
    destruct p' as [|a2 p'].
    + rewrite alter_last in H.
      destruct (f (FS.assoc a es)) as [[x|]|]; try discriminate; injection H as <-;
        rewrite lookup_cons.
      * now rewrite assoc_set_entry_other.
      * now rewrite assoc_drop_entry_other.
    + rewrite alter_deeper in H.
      destruct (FS.assoc a es) as [child|]; try discriminate.
      destruct (FS.alter f (a2 :: p') child) as [child'|]; try discriminate.
      injection H as <-. rewrite lookup_cons. now rewrite assoc_set_entry_other.
  - cbn [app] in *. destruct n as [d|es]; [destruct (pre ++ a :: p'); discriminate |].
    destruct (pre ++ a :: p') as [|x rest] eqn:Hrest; [now destruct pre |].
    rewrite alter_deeper in H.
    destruct (FS.assoc c es) as [child|] eqn:Hc; try discriminate.
    destruct (FS.alter f (x :: rest) child) as [child'|] eqn:Hch; try discriminate.
    injection H as <-. rewrite !lookup_cons, assoc_set_entry_same, Hc.
    rewrite <- Hrest in Hch. exact (IH _ _ _ _ _ _ Hne Hch).
Qed.

Lemma lookup_fresh_dirs_other pre : forall a b p' q',
  a <> b -> FS.lookup (FS.fresh_dirs (pre ++ a :: p')) (pre ++ b :: q') = None.
Proof.
  induction pre as [|c pre IH]; intros a b p' q' Hne; cbn [app FS.fresh_dirs].
  - rewrite lookup_cons. cbn [FS.assoc]. apply String.eqb_neq in Hne. now rewrite Hne.
  - rewrite lookup_cons. cbn [FS.assoc]. rewrite String.eqb_refl. now apply IH.
Qed.

Lemma makedirs_cons c p es :
  FS.makedirs (c :: p) (Dir es)
  = match FS.assoc c es with
    | Some child =>
        match FS.makedirs p child with
        | Some child' => Some (Dir (FS.set_entry c child' es))
        | None => None
        end
    | None => Some (Dir (FS.set_entry c (FS.fresh_dirs p) es))
    end.
Proof. reflexivity. Qed.

Lemma makedirs_frame pre : forall a b p' q' n n',
  a <> b ->
  FS.makedirs (pre ++ a :: p') n = Some n' ->
  FS.lookup n' (pre ++ b :: q') = FS.lookup n (pre ++ b :: q').
Proof.
  induction pre as [|c pre IH]; intros a b p' q' n n' Hne H.
  - cbn [app] in *. destruct n as [d|es]; [discriminate |].
    rewrite makedirs_cons in H. rewrite !lookup_cons.
    destruct (FS.assoc a es) as [child|].
    + destruct (FS.makedirs p' child) as [child'|]; try discriminate.
      injection H as <-. rewrite lookup_cons. now rewrite assoc_set_entry_other.
    + injection H as <-. rewrite lookup_cons. now rewrite assoc_set_entry_other.
  - cbn [app] in *. destruct n as [d|es]; [discriminate |].
    rewrite makedirs_cons in H. rewrite !lookup_cons.
    destruct (FS.assoc c es) as [child|] eqn:Hc.
    + destruct (FS.makedirs (pre ++ a :: p') child) as [child'|] eqn:Hch; try discriminate.
      injection H as <-. rewrite lookup_cons, assoc_set_entry_same.
      exact (IH _ _ _ _ _ _ Hne Hch).
    + injection H as <-. rewrite lookup_cons, assoc_set_entry_same.
      now apply lookup_fresh_dirs_other.
Qed.

Lemma lookup_fresh_dirs p : FS.lookup (FS.fresh_dirs p) p = Some (Dir []).
Proof.
  induction p as [|c p IH]; [reflexivity |].
  cbn [FS.fresh_dirs]. rewrite lookup_cons. cbn [FS.assoc]. now rewrite String.eqb_refl.
Qed.



Lemma makedirs_file p : forall n d, FS.lookup n p = Some (File d) -> FS.makedirs p n = None.
Proof.
  induction p as [|c p IH]; intros n d Hl.
  - cbn in Hl. injection Hl as ->. reflexivity.
  - destruct n as [d0|es]; [reflexivity |].
    rewrite makedirs_cons. rewrite lookup_cons in Hl.
    destruct (FS.assoc c es) as [child|]; [| discriminate].
    now rewrite (IH _ _ Hl).
Qed.



(** ** Path strings *)

Lemma has_char_app c a b :
  Str.has_char c (a ++ b)%string = Str.has_char c a || Str.has_char c b.
Proof. induction a as [|x a IH]; cbn; [reflexivity | now rewrite IH, orb_assoc]. Qed.

Lemma split_plain sep s : Str.has_char sep s = false -> Str.split sep s = [s].
Proof.
  induction s as [|a s IH]; [reflexivity |].
  cbn [Str.has_char Str.split]. intros H. apply orb_false_elim in H as [Ha Hs].
  now rewrite Ha, (IH Hs).
Qed.

Lemma split_app sep a b :
  Str.has_char sep a = false ->
  Str.split sep (a ++ String sep b)%string = a :: Str.split sep b.
Proof.
  induction a as [|x a IH]; cbn [append Str.has_char Str.split].
  - intros _. now rewrite Ascii.eqb_refl.
  - intros H. apply orb_false_elim in H as [Hx Ha]. now rewrite Hx, (IH Ha).
Qed.

Lemma plain_not_absolute s : Str.has_char Path.sep_char s = false -> Str.startswith s Path.sep = false.
Proof.
  destruct s as [|a s]; [reflexivity |].
  cbn [Str.has_char]. intros H. apply orb_false_elim in H as [Ha _].
  unfold Str.startswith, Path.sep. cbn [String.prefix].
  destruct (ascii_dec _ a) as [<-|]; [| reflexivity].
  discriminate.
Qed.

Lemma long_component s :
  3 <= String.length s ->
  ((s =? "") || (s =? "."))%string = false /\ (s =? "..")%string = false.
Proof.
  destruct s as [|a [|b [|c s]]]; cbn [String.length]; try lia.
  intros _. split.
  - cbn. destruct (Ascii.eqb a "."); reflexivity.
  - cbn. destruct (Ascii.eqb a "."); [| reflexivity]. destruct (Ascii.eqb b "."); reflexivity.
Qed.

Lemma length_append a b : String.length (a ++ b)%string = String.length a + String.length b.
Proof. induction a as [|x a IH]; cbn; [reflexivity | now rewrite IH]. Qed.

Lemma norm_plain stack c cs :
  3 <= String.length c -> Path.norm stack (c :: cs) = Path.norm (stack ++ [c]) cs.
Proof.
  intros H. destruct (long_component c H) as [H1 H2]. cbn [Path.norm]. now rewrite H1, H2.
Qed.



Lemma lookup_app pre : forall n suf,
  FS.lookup n (pre ++ suf)
  = match FS.lookup n pre with Some sub => FS.lookup sub suf | None => None end.
Proof.
  induction pre as [|c pre IH]; intros n suf; [reflexivity |].
  cbn [app]. destruct n as [d|es]; [reflexivity |].
  rewrite !lookup_cons. destruct (FS.assoc c es); [apply IH | reflexivity].
Qed.

(** What an alteration that always installs [x] leaves at its path. *)
Lemma alter_sets f x p : forall n n',
  (forall cur r, f cur = Some r -> r = Some x) ->
  FS.alter f p n = Some n' -> FS.lookup n' p = Some x.
Proof.
  induction p as [|c p IH]; intros n n' Hf H.
  - destruct n; discriminate.
  - destruct n as [d|es]; [destruct p; discriminate |].
    destruct p as [|c2 p].
    + rewrite alter_last in H.
      destruct (f (FS.assoc c es)) as [[r|]|] eqn:Hfc; try discriminate.
      * apply Hf in Hfc. injection Hfc as ->. injection H as <-.
        rewrite lookup_cons. now rewrite assoc_set_entry_same.
      * apply Hf in Hfc. discriminate.
    + rewrite alter_deeper in H.
      destruct (FS.assoc c es) as [child|]; try discriminate.
      destruct (FS.alter f (c2 :: p) child) as [child'|] eqn:Hc; try discriminate.
      injection H as <-. rewrite lookup_cons, assoc_set_entry_same.
      exact (IH _ _ Hf Hc).
Qed.



Lemma has_char_substring c s : forall n m,
  Str.has_char c s = false -> Str.has_char c (substring n m s) = false.
Proof.
  induction s as [|a s IH]; intros n m H; [destruct n, m; reflexivity |].
  cbn [Str.has_char] in H. apply orb_false_elim in H as [Ha Hs].
  destruct n as [|n]; destruct m as [|m]; cbn [substring Str.has_char]; auto.
  now rewrite Ha, (IH 0 m Hs).
Qed.






(** ** The staging directory *)
























(** ** The members of the archive *)











End Frames.

(** ** package_all *)










(** ** What a function leaves alone *)

Create HintDb keeps.

Section Keeps.

Context {X : Type} (f : world -> X).
Variable E : Env.
Variable H : Host.
Variable C : Clock.

Lemma keeps_ret {A} (a : A) : keeps f (ret a).
Proof. intros w. reflexivity. Qed.

Lemma keeps_raise {A} (e : exn) : keeps f (@raise A e).
Proof. intros w. reflexivity. Qed.

Lemma keeps_get {A} (g : world -> A) : keeps f (get g).
Proof. intros w. reflexivity. Qed.

Lemma keeps_bind {A B} (m : M A) (k : A -> M B) :
  keeps f m -> (forall a, keeps f (k a)) -> keeps f (bind m k).
Proof.
  intros Hm Hk w. unfold bind. specialize (Hm w).
  destruct (m w) as [[a|e] w1]; cbn [snd] in *.
  - now rewrite Hk.
  - exact Hm.
Qed.

Lemma keeps_try {A} (m : M A) class (h : exn -> M A) :
  keeps f m -> (forall e, keeps f (h e)) -> keeps f (try_except m class h).
Proof.
  intros Hm Hh w. unfold try_except. specialize (Hm w).
  destruct (m w) as [[a|e] w1]; cbn [snd] in *; [exact Hm |].
  destruct (class e); [now rewrite Hh | exact Hm].
Qed.

Lemma keeps_when b (m : M unit) : keeps f m -> keeps f (when b m).
Proof. destruct b; [trivial | intros _ w; reflexivity]. Qed.

Lemma keeps_modify (g : world -> world) : (forall w, f (g w) = f w) -> keeps f (modify g).
Proof. intros Hg w. apply Hg. Qed.

Lemma keeps_read_file p : keeps f (OS.read_file p).
Proof. intros w. unfold OS.read_file. now destruct (OS.stat w p) as [[d|es]|]. Qed.

Lemma keeps_listdir p : keeps f (OS.listdir p).
Proof. intros w. unfold OS.listdir. now destruct (OS.stat w p) as [[d|es]|]. Qed.

Hypothesis past_stdout : forall o w, f (with_stdout o w) = f w.
Hypothesis past_fs : forall n w, f (with_fs n w) = f w.
Hypothesis past_environ : forall e w, f (with_environ e w) = f w.
Hypothesis past_fetched : forall l w, f (with_fetched l w) = f w.
Hypothesis past_spawned : forall l w, f (with_spawned l w) = f w.
Hypothesis past_requested : forall l w, f (with_requested l w) = f w.
Hypothesis past_verbose : forall b w, f (with_verbose b w) = f w.
Hypothesis past_use_local_sdk : forall b w, f (with_use_local_sdk b w) = f w.
Hypothesis past_local_base_path : forall p w, f (with_local_base_path p w) = f w.

Lemma keeps_write_stdout s : keeps f (write_stdout s).
Proof. intros w. apply past_stdout. Qed.

Lemma keeps_update op text p : keeps f (OS.update op text p).
Proof.
  intros w. unfold OS.update. destruct (p =? ""); [reflexivity |].
  destruct (op _ _); [apply past_fs | reflexivity].
Qed.

Lemma keeps_setenv k v : keeps f (OS.setenv k v).
Proof. intros w. apply past_environ. Qed.


#[local] Hint Resolve keeps_ret keeps_raise keeps_get keeps_read_file keeps_listdir
  keeps_write_stdout keeps_update keeps_setenv : keeps.

Ltac keeps_step :=
  lazymatch goal with
  | |- keeps _ (bind _ _) => apply keeps_bind; [| intros]
  | |- keeps _ (try_except _ _ _) => apply keeps_try; [| intros]
  | |- keeps _ (when _ _) => apply keeps_when
  | |- keeps _ (match ?x with _ => _ end) => destruct x
  | |- forall _, _ => intros
  end.

Ltac keeps_tac :=
  repeat first [ solve [auto with keeps] | progress cbv beta iota | keeps_step ].

Lemma keeps_print s : keeps f (print s).
Proof. apply keeps_write_stdout. Qed.

Lemma keeps_print_error s : keeps f (print_error s).
Proof. apply keeps_write_stdout. Qed.

Lemma keeps_print_warning s : keeps f (print_warning s).
Proof. apply keeps_write_stdout. Qed.

Lemma keeps_print_status_busy s : keeps f (print_status_busy s).
Proof. apply keeps_write_stdout. Qed.

Lemma keeps_print_status_success s : keeps f (print_status_success s).
Proof. apply keeps_write_stdout. Qed.

Lemma keeps_print_status_error s : keeps f (print_status_error s).
Proof. apply keeps_write_stdout. Qed.

#[local] Hint Resolve keeps_print keeps_print_error keeps_print_warning
  keeps_print_status_busy keeps_print_status_success keeps_print_status_error : keeps.

Lemma keeps_exit_with_error {A} s : keeps f (@exit_with_error A s).
Proof. unfold exit_with_error. keeps_tac. Qed.

Lemma keeps_print_lines lines : keeps f (print_lines lines).
Proof. induction lines; cbn [print_lines]; keeps_tac. Qed.

Lemma keeps_exists p : keeps f (OS.exists_ p).
Proof. apply keeps_get. Qed.

Lemma keeps_isdir p : keeps f (OS.isdir p).
Proof. apply keeps_get. Qed.

Lemma keeps_isfile p : keeps f (OS.isfile p).
Proof. apply keeps_get. Qed.

Lemma keeps_makedirs p : keeps f (OS.makedirs p).
Proof. apply keeps_update. Qed.

Lemma keeps_remove p : keeps f (OS.remove p).
Proof. apply keeps_update. Qed.

Lemma keeps_rmtree p : keeps f (OS.rmtree p).
Proof. apply keeps_update. Qed.

Lemma keeps_write_file p d : keeps f (OS.write_file p d).
Proof. apply keeps_update. Qed.

#[local] Hint Resolve keeps_exit_with_error keeps_print_lines keeps_exists keeps_isdir
  keeps_isfile keeps_makedirs keeps_remove keeps_rmtree keeps_write_file : keeps.

Lemma keeps_copy src dst : keeps f (OS.copy src dst).
Proof. unfold OS.copy. keeps_tac. Qed.

Lemma keeps_copytree src dst : keeps f (OS.copytree src dst).
Proof.
  intros w. unfold OS.copytree.
  destruct (OS.stat w src) as [[d|es]|]; try reflexivity.
  pose proof (keeps_makedirs dst w) as Hm.
  destruct (OS.makedirs dst w) as [[[]|e] w1]; cbn [snd] in Hm; [| exact Hm].
  destruct (FS.merge _ _) as [des' ok].
  destruct (FS.put _ _ _); [| exact Hm].
  destruct ok; cbn [snd]; now rewrite past_fs.
Qed.

Lemma keeps_do_urlopen url : keeps f (do_urlopen E url).
Proof. intros w. unfold do_urlopen. destruct (urlopen E w url); apply past_fetched. Qed.

Lemma keeps_run_process command : keeps f (run_process E command).
Proof.
  intros w. unfold run_process. destruct (popen E w command); cbn [snd].
  - now rewrite past_fs, past_spawned.
  - apply past_spawned.
Qed.

Lemma keeps_do_put url file : keeps f (do_put E url file).
Proof. intros w. unfold do_put. destruct (requests_put E w url file); apply past_requested. Qed.

Lemma keeps_do_request method answer url params :
  keeps f (do_request method answer url params).
Proof. intros w. unfold do_request. destruct (answer w url params); apply past_requested. Qed.

#[local] Hint Resolve keeps_copy keeps_copytree keeps_do_urlopen keeps_run_process
  keeps_do_put keeps_do_request : keeps.

Lemma keeps_download_file url filepath : keeps f (download_file E url filepath).
Proof. unfold download_file. keeps_tac. Qed.

Lemma keeps_json_contains key j : keeps f (Json.contains key j).
Proof. unfold Json.contains. keeps_tac. Qed.

Lemma keeps_json_getitem j key : keeps f (Json.getitem j key).
Proof. unfold Json.getitem. keeps_tac. Qed.

Lemma keeps_re_search_is_none pattern s : keeps f (re_search_is_none E pattern s).
Proof. unfold re_search_is_none. keeps_tac. Qed.

#[local] Hint Resolve keeps_download_file keeps_json_contains keeps_json_getitem
  keeps_re_search_is_none : keeps.

Lemma keeps_validate_self sdk_json : keeps f (validate_self E sdk_json).
Proof. unfold validate_self. keeps_tac. Qed.

Lemma keeps_get_sdk_dir v p : keeps f (get_sdk_dir v p).
Proof. unfold get_sdk_dir. keeps_tac. Qed.

#[local] Hint Resolve keeps_validate_self keeps_get_sdk_dir : keeps.

Lemma keeps_sdk_exists v p : keeps f (sdk_exists v p).
Proof. unfold sdk_exists. keeps_tac. Qed.

Lemma keeps_extract_member targetpath member : keeps f (extract_member targetpath member).
Proof. unfold extract_member. keeps_tac. Qed.

#[local] Hint Resolve keeps_sdk_exists keeps_extract_member : keeps.

Lemma keeps_extractall targetpath members : keeps f (extractall targetpath members).
Proof. induction members; cbn [extractall]; keeps_tac. Qed.

Lemma keeps_check_members target_dir members : keeps f (check_members target_dir members).
Proof. induction members as [|[filename payload] rest IH]; cbn [check_members]; keeps_tac. Qed.

#[local] Hint Resolve keeps_extractall keeps_check_members : keeps.

Lemma keeps_safe_extract_zip zip_ref target_dir : keeps f (safe_extract_zip zip_ref target_dir).
Proof. unfold safe_extract_zip. keeps_tac. Qed.

Lemma keeps_json_load path : keeps f (json_load path).
Proof. unfold json_load. keeps_tac. Qed.

Lemma keeps_zip_open path : keeps f (zip_open path).
Proof. unfold zip_open. keeps_tac. Qed.

#[local] Hint Resolve keeps_safe_extract_zip keeps_json_load keeps_zip_open : keeps.

Lemma keeps_sdk_download v p : keeps f (sdk_download E v p).
Proof. unfold sdk_download. keeps_tac. Qed.

#[local] Hint Resolve keeps_sdk_download : keeps.

Lemma keeps_sdk_download_all v ps : keeps f (sdk_download_all E v ps).
Proof. induction ps; cbn [sdk_download_all]; keeps_tac. Qed.

Lemma keeps_find_elf_file p : keeps f (find_elf_file p).
Proof. unfold find_elf_file. keeps_tac. Qed.

#[local] Hint Resolve keeps_sdk_download_all keeps_find_elf_file : keeps.

Lemma keeps_build_first v p skip : keeps f (build_first E v p skip).
Proof. unfold build_first. keeps_tac. Qed.

Lemma keeps_build_consecutively v p skip : keeps f (build_consecutively E v p skip).
Proof. unfold build_consecutively. keeps_tac. Qed.

Lemma keeps_build_first_skipped v p : keeps f (build_first E v p true).
Proof. unfold build_first. keeps_tac. Qed.

Lemma keeps_build_consecutively_skipped v p : keeps f (build_consecutively E v p true).
Proof. unfold build_consecutively. keeps_tac. Qed.


#[local] Hint Resolve keeps_build_first keeps_build_consecutively : keeps.

Lemma keeps_build_platform v p skip : keeps f (build_platform E v p skip).
Proof. unfold build_platform. keeps_tac. Qed.

Lemma keeps_build_platform_skipped v p : keeps f (build_platform E v p true).
Proof.
  unfold build_platform. apply keeps_bind; [apply keeps_find_elf_file |].
  intros [elf|]; [apply keeps_build_consecutively_skipped | apply keeps_build_first_skipped].
Qed.

Lemma keeps_build_all v ps skip : keeps f (build_all E v ps skip).
Proof.
  induction ps; cbn [build_all]; [apply keeps_ret |].
  apply keeps_bind; [apply keeps_build_platform |]. keeps_tac.
Qed.

Lemma keeps_build_all_skipped v ps : keeps f (build_all E v ps true).
Proof.
  induction ps; cbn [build_all]; [apply keeps_ret |].
  apply keeps_bind; [apply keeps_build_platform_skipped |]. keeps_tac.
Qed.

Lemma keeps_package_intermediate_manifest target_path :
  keeps f (package_intermediate_manifest target_path).
Proof. unfold package_intermediate_manifest. keeps_tac. Qed.

Lemma keeps_package_binaries_loop elf_dir ps : keeps f (package_binaries_loop elf_dir ps).
Proof. induction ps; cbn [package_binaries_loop]; keeps_tac. Qed.

#[local] Hint Resolve keeps_package_intermediate_manifest keeps_package_binaries_loop : keeps.

Lemma keeps_package_intermediate_binaries target_path ps :
  keeps f (package_intermediate_binaries target_path ps).
Proof. unfold package_intermediate_binaries. keeps_tac. Qed.

Lemma keeps_package_intermediate_assets target_path :
  keeps f (package_intermediate_assets target_path).
Proof. unfold package_intermediate_assets. keeps_tac. Qed.

#[local] Hint Resolve keeps_package_intermediate_binaries keeps_package_intermediate_assets
  : keeps.

Lemma keeps_package_intermediate ps : keeps f (package_intermediate ps).
Proof. unfold package_intermediate. keeps_tac. Qed.

Lemma keeps_package_name ps : keeps f (package_name ps).
Proof. unfold package_name. keeps_tac. Qed.

Lemma keeps_tar_create tar_path directory : keeps f (tar_create tar_path directory).
Proof. unfold tar_create. keeps_tac. Qed.

#[local] Hint Resolve keeps_package_intermediate keeps_package_name keeps_tar_create : keeps.

Lemma keeps_package_all ps : keeps f (package_all ps).
Proof. unfold package_all. keeps_tac. Qed.

Lemma keeps_install_check ps : keeps f (install_check ps).
Proof. induction ps; cbn [install_check]; keeps_tac. Qed.

#[local] Hint Resolve keeps_package_all keeps_install_check : keeps.

Lemma keeps_install_action ip ps : keeps f (install_action E ip ps).
Proof. unfold install_action. keeps_tac. Qed.

Lemma keeps_config_getitem c key : keeps f (Config.getitem c key).
Proof. unfold Config.getitem. keeps_tac. Qed.

Lemma keeps_config_get_option c section option : keeps f (Config.get_option c section option).
Proof. unfold Config.get_option. keeps_tac. Qed.

#[local] Hint Resolve keeps_install_action keeps_config_getitem keeps_config_get_option : keeps.

Lemma keeps_config_proxy_getitem c name key : keeps f (Config.proxy_getitem c name key).
Proof. unfold Config.proxy_getitem. keeps_tac. Qed.

#[local] Hint Resolve keeps_config_proxy_getitem : keeps.

Lemma keeps_config_lookup c section key : keeps f (Config.lookup c section key).
Proof. unfold Config.lookup. keeps_tac. Qed.

#[local] Hint Resolve keeps_config_lookup : keeps.

Lemma keeps_validate_manifest manifest : keeps f (validate_manifest manifest).
Proof. unfold validate_manifest. keeps_tac. Qed.

Lemma keeps_manifest_platforms manifest : keeps f (manifest_platforms manifest).
Proof. unfold manifest_platforms. keeps_tac. Qed.

#[local] Hint Resolve keeps_validate_manifest keeps_manifest_platforms : keeps.

Lemma keeps_get_manifest_target_platforms manifest requested :
  keeps f (get_manifest_target_platforms manifest requested).
Proof.
  unfold get_manifest_target_platforms, validate_manifest_platform,
    is_valid_manifest_platform.
  keeps_tac.
Qed.

Lemma keeps_read_sdk_json : keeps f read_sdk_json.
Proof. unfold read_sdk_json. apply keeps_json_load. Qed.

Lemma keeps_validate_local_sdks_loop base v ps : keeps f (validate_local_sdks_loop base v ps).
Proof. induction ps; cbn [validate_local_sdks_loop]; keeps_tac. Qed.

#[local] Hint Resolve keeps_get_manifest_target_platforms keeps_read_sdk_json
  keeps_validate_local_sdks_loop : keeps.

Lemma keeps_validate_local_sdks ps v : keeps f (validate_local_sdks ps v).
Proof. unfold validate_local_sdks. keeps_tac. Qed.

Lemma keeps_should_fetch_sdkconfig_files ps : keeps f (should_fetch_sdkconfig_files ps).
Proof. induction ps; cbn [should_fetch_sdkconfig_files]; keeps_tac. Qed.

Lemma keeps_fetch_sdkconfig_files ps : keeps f (fetch_sdkconfig_files E ps).
Proof. induction ps; cbn [fetch_sdkconfig_files]; keeps_tac. Qed.

Lemma keeps_should_update_tool_json : keeps f (should_update_tool_json C).
Proof. unfold should_update_tool_json. keeps_tac. Qed.

Lemma keeps_update_tool_json : keeps f (update_tool_json E).
Proof. unfold update_tool_json. apply keeps_download_file. Qed.

Lemma keeps_environ_get k : keeps f (environ_get k).
Proof. apply keeps_get. Qed.

#[local] Hint Resolve keeps_validate_local_sdks keeps_should_fetch_sdkconfig_files
  keeps_fetch_sdkconfig_files keeps_should_update_tool_json keeps_update_tool_json
  keeps_environ_get : keeps.

Lemma keeps_validate_environment : keeps f (validate_environment H).
Proof. unfold validate_environment. keeps_tac. Qed.

Lemma keeps_read_properties_file path : keeps f (read_properties_file H path).
Proof.
  intros w. unfold read_properties_file.
  destruct (OS.stat w path) as [[d|es]|]; try reflexivity.
  now destruct (config_parse H d).
Qed.

Lemma keeps_setup_environment : keeps f setup_environment.
Proof. unfold setup_environment. apply keeps_makedirs. Qed.

Lemma keeps_set_local_base_path p : keeps f (modify (with_local_base_path p)).
Proof. apply keeps_modify. intros w. apply past_local_base_path. Qed.

#[local] Hint Resolve keeps_validate_environment keeps_read_properties_file
  keeps_setup_environment keeps_set_local_base_path keeps_build_all : keeps.

Lemma keeps_build_action manifest platform_arg skip :
  keeps f (build_action E H manifest platform_arg skip).
Proof. unfold build_action. keeps_tac. Qed.

Lemma keeps_build_action_skipped manifest platform_arg :
  keeps f (build_action E H manifest platform_arg true).
Proof.
  unfold build_action.
  repeat first [ apply keeps_build_all_skipped | solve [auto with keeps]
               | progress cbv beta iota | keeps_step ].
Qed.

Lemma keeps_clean_action : keeps f clean_action.
Proof. unfold clean_action. keeps_tac. Qed.

Lemma keeps_clear_cache_action : keeps f clear_cache_action.
Proof. unfold clear_cache_action. keeps_tac. Qed.

Lemma keeps_download_file_json url filepath : keeps f (download_file_json E url filepath).
Proof. unfold download_file_json. keeps_tac. Qed.

#[local] Hint Resolve keeps_download_file_json : keeps.

Lemma keeps_update_self_action : keeps f (update_self_action E).
Proof. unfold update_self_action. keeps_tac. Qed.

Lemma keeps_run_action manifest ip : keeps f (run_action H manifest ip).
Proof. unfold run_action. keeps_tac. Qed.

Lemma keeps_uninstall_action manifest ip : keeps f (uninstall_action H manifest ip).
Proof. unfold uninstall_action. keeps_tac. Qed.

End Keeps.

(** ** The manifest *)

Lemma bind_when_exit {B} (message : string) (k : unit -> M B) w :
  bind (when true (exit_with_error message)) k w
  = (Raise (SystemExit 1), printed [line (error_text message)] w).
Proof. reflexivity. Qed.

Lemma bind_when_false {B} (m : M unit) (k : unit -> M B) w :
  bind (when false m) k w = k tt w.
Proof. reflexivity. Qed.

Lemma bind_assoc {A B C} (m : M A) (k : A -> M B) (k' : B -> M C) w :
  bind (bind m k) k' w = bind m (fun a => bind (k a) k') w.
Proof. unfold bind. now destruct (m w) as [[a|e] w1]. Qed.

Lemma getitem_contains c key w :
  Config.contains c key = true -> Config.getitem c key w = (Return key, w).
Proof.
  unfold Config.contains, Config.getitem. intros Hc.
  destruct (key =? Config.default_section), (Config.has_section c key);
    try discriminate; reflexivity.
Qed.

Lemma has_option_contains c section option :
  Config.has_option c section option = true ->
  (section =? "") = false ->
  Config.contains c section = true.
Proof.
  unfold Config.has_option, Config.contains, Config.has_section. intros Ho Hne.
  rewrite Hne in Ho. cbn [orb] in Ho.
  destruct (section =? Config.default_section); [reflexivity |].
  destruct (FS.assoc section (sections c)); [reflexivity | discriminate].
Qed.

Lemma validate_manifest_eq manifest w :
  validate_manifest manifest w
  = match find (fun check => negb (check_holds manifest check)) manifest_checks with
    | None => (Return tt, w)
    | Some check =>
        exited ("Invalid manifest format: " ++ check_text check ++ " not found") w
    end.
Proof.
  unfold validate_manifest, Config.proxy_contains, manifest_checks.
  cbv beta iota delta [find check_holds].
  destruct (Config.contains manifest "manifest") eqn:H1; cbv beta iota delta [negb];
    [| reflexivity].
  rewrite bind_when_false, (bind_return _ _ _ _ _ (getitem_contains _ _ w H1)).
  destruct (Config.has_option manifest "manifest" "version"); cbv beta iota delta [negb];
    [| reflexivity].
  rewrite bind_when_false.
  destruct (Config.contains manifest "target") eqn:H2; cbv beta iota delta [negb];
    [| reflexivity].
  rewrite bind_when_false, (bind_return _ _ _ _ _ (getitem_contains _ _ w H2)).
  destruct (Config.has_option manifest "target" "sdk"); cbv beta iota delta [negb];
    [| reflexivity].
  rewrite bind_when_false, (bind_return _ _ _ _ _ (getitem_contains _ _ w H2)).
  destruct (Config.has_option manifest "target" "platforms"); cbv beta iota delta [negb];
    [| reflexivity].
  rewrite bind_when_false.
  destruct (Config.contains manifest "app") eqn:H3; cbv beta iota delta [negb];
    [| reflexivity].
  rewrite bind_when_false, (bind_return _ _ _ _ _ (getitem_contains _ _ w H3)).
  destruct (Config.has_option manifest "app" "id"); cbv beta iota delta [negb];
    [| reflexivity].
  rewrite bind_when_false, (bind_return _ _ _ _ _ (getitem_contains _ _ w H3)).
  destruct (Config.has_option manifest "app" "versionName"); cbv beta iota delta [negb];
    [| reflexivity].
  rewrite bind_when_false, (bind_return _ _ _ _ _ (getitem_contains _ _ w H3)).
  destruct (Config.has_option manifest "app" "versionCode"); cbv beta iota delta [negb];
    [| reflexivity].
  rewrite bind_when_false, (bind_return _ _ _ _ _ (getitem_contains _ _ w H3)).
  destruct (Config.has_option manifest "app" "name"); cbv beta iota delta [negb];
    reflexivity.
Qed.

(** X1. [validate_manifest] makes its ten checks in order and stops at the
    first that fails: it exits with status 1 after one error line naming
    what is missing, having changed nothing else; when every check holds it
    returns and the world is what it was.  It returns exactly for the
    manifests that have the seven required options ([versionName] and
    [versionCode] in any letter case, as the parser folds option names). *)
Theorem validate_manifest_spec manifest w :
  validate_manifest manifest w
  = match find (fun check => negb (check_holds manifest check)) manifest_checks with
    | None => (Return tt, w)
    | Some check =>
        exited ("Invalid manifest format: " ++ check_text check ++ " not found") w
    end
  /\ (fst (validate_manifest manifest w) = Return tt
      <-> Forall (fun so => Config.has_option manifest (fst so) (snd so) = true)
            required_options).
Proof.
  split; [apply validate_manifest_eq |].
  rewrite validate_manifest_eq. split.
  - intros Hr.
    destruct (find _ manifest_checks) as [check|] eqn:Hf; [discriminate |].
    pose proof (find_none _ _ Hf) as Hall.
    assert (Hopt : forall s o, In (s, Some o) manifest_checks ->
                               Config.has_option manifest s o = true).
    { intros s o Hin. apply Hall in Hin. cbn [check_holds] in Hin.
      now destruct (Config.has_option manifest s o). }
    unfold required_options.
    repeat constructor; apply Hopt; unfold manifest_checks; cbn [In]; tauto.
  - intros Hall. unfold required_options in Hall.
    repeat match goal with H : Forall _ (_ :: _) |- _ => inversion H; subst; clear H end.
    cbn [fst snd] in *.
    assert (Hc1 : Config.contains manifest "manifest" = true)
      by (eapply has_option_contains; [eassumption | reflexivity]).
    assert (Hc2 : Config.contains manifest "target" = true)
      by (eapply has_option_contains; [eassumption | reflexivity]).
    assert (Hc3 : Config.contains manifest "app" = true)
      by (eapply has_option_contains; [eassumption | reflexivity]).
    unfold manifest_checks. cbv beta iota delta [find check_holds].
    repeat match goal with H : _ = true |- _ => rewrite H; clear H end.
    reflexivity.
Qed.

Lemma lookup_const c section key :
  exists r, forall w, Config.lookup c section key w = (r, w).
Proof.
  unfold Config.lookup, Config.getitem, Config.proxy_getitem, Config.get_option.
  destruct (negb (section =? Config.default_section) && negb (Config.has_section c section));
    [eexists; intros w; reflexivity |].
  cbv beta iota delta [bind ret].
  destruct (negb (Config.has_option c section key));
    [eexists; intros w; reflexivity |].
  destruct (negb (is_some (FS.assoc section (sections c)))
            && negb (section =? Config.default_section));
    [eexists; intros w; reflexivity |].
  destruct (match FS.assoc section (sections c) with
            | Some options => FS.assoc (Config.optionxform key) options
            | None => None
            end) as [v|]; [eexists; intros w; reflexivity |].
  destruct (FS.assoc (Config.optionxform key) (defaults c)) as [v|];
    eexists; intros w; reflexivity.
Qed.

Lemma lookup_pure c section key w r w' :
  Config.lookup c section key w = (r, w') ->
  w' = w /\ forall w2, Config.lookup c section key w2 = (r, w2).
Proof.
  destruct (lookup_const c section key) as [r0 Hc]. rewrite Hc.
  intros [= <- <-]. split; [reflexivity | exact Hc].
Qed.

Lemma lookup_has_option c section key :
  Config.has_option c section key = true ->
  (section =? "") = false ->
  exists value, forall w, Config.lookup c section key w = (Return value, w).
Proof.
  intros Ho Hne.
  pose proof (has_option_contains _ _ _ Ho Hne) as Hc.
  assert (Hv : exists value, forall w,
             Config.get_option c section key w = (Return value, w)).
  { unfold Config.get_option. unfold Config.has_option in Ho. rewrite Hne in Ho.
    cbn [orb] in Ho.
    destruct (section =? Config.default_section) eqn:Hd.
    - rewrite andb_false_r.
      destruct (match FS.assoc section (sections c) with
                | Some options => FS.assoc (Config.optionxform key) options
                | None => None
                end) as [v|]; [now exists v |].
      destruct (FS.assoc (Config.optionxform key) (defaults c)) as [v|];
        [now exists v | discriminate].
    - destruct (FS.assoc section (sections c)) as [options|]; [| discriminate].
      cbn [is_some negb andb].
      destruct (FS.assoc (Config.optionxform key) options) as [v|]; [now exists v |].
      destruct (FS.assoc (Config.optionxform key) (defaults c)) as [v|];
        [now exists v | discriminate]. }
  destruct Hv as [value Hv]. exists value. intros w.
  unfold Config.lookup. rewrite (bind_return _ _ _ _ _ (getitem_contains _ _ w Hc)).
  unfold Config.proxy_getitem. rewrite Ho. cbn [negb]. apply Hv.
Qed.

(** X2. A manifest that passed [validate_manifest] answers the lookups the
    actions make: [manifest["target"]["platforms"]],
    [manifest["target"]["sdk"]] and [manifest["app"]["id"]] return a value
    and raise no [KeyError], in any world. *)
Theorem validated_manifest_lookups manifest w w' :
  validate_manifest manifest w = (Return tt, w') ->
  exists platforms sdk app_id,
    forall w2,
      Config.lookup manifest "target" "platforms" w2 = (Return platforms, w2)
      /\ Config.lookup manifest "target" "sdk" w2 = (Return sdk, w2)
      /\ Config.lookup manifest "app" "id" w2 = (Return app_id, w2).
Proof.
  rewrite validate_manifest_eq. intros Hr.
  destruct (find _ manifest_checks) as [check|] eqn:Hf; [discriminate |].
  pose proof (find_none _ _ Hf) as Hall.
  assert (Hopt : forall s o, In (s, Some o) manifest_checks ->
                             Config.has_option manifest s o = true).
  { intros s o Hin. apply Hall in Hin. cbn [check_holds] in Hin.
    now destruct (Config.has_option manifest s o). }
  destruct (lookup_has_option manifest "target" "platforms") as [platforms Hp];
    [apply Hopt; unfold manifest_checks; cbn [In]; tauto | reflexivity |].
  destruct (lookup_has_option manifest "target" "sdk") as [sdk Hs];
    [apply Hopt; unfold manifest_checks; cbn [In]; tauto | reflexivity |].
  destruct (lookup_has_option manifest "app" "id") as [app_id Hi];
    [apply Hopt; unfold manifest_checks; cbn [In]; tauto | reflexivity |].
  exists platforms, sdk, app_id. intros w2. auto.
Qed.

Lemma validated_manifest_lookups_witness :
  exists platforms sdk app_id,
    forall w2,
      Config.lookup Demo.manifest "target" "platforms" w2 = (Return platforms, w2)
      /\ Config.lookup Demo.manifest "target" "sdk" w2 = (Return sdk, w2)
      /\ Config.lookup Demo.manifest "app" "id" w2 = (Return app_id, w2).
Proof.
  apply (validated_manifest_lookups Demo.manifest
           (Example.world_of Example.project_fresh) (Example.world_of Example.project_fresh)).
  vm_compute. reflexivity.
Defined.

Lemma split_nonempty sep s : Str.split sep s <> [].
Proof.
  destruct s as [|c s]; cbn [Str.split]; [discriminate |].
  destruct (Ascii.eqb c sep); [discriminate |].
  destruct (Str.split sep s); discriminate.
Qed.

Lemma join_split sep s : Str.join (String sep "") (Str.split sep s) = s.
Proof.
  unfold Str.join. induction s as [|c s IH]; [reflexivity |].
  cbn [Str.split]. destruct (Ascii.eqb c sep) eqn:Hc.
  - apply Ascii.eqb_eq in Hc. subst c.
    pose proof (split_nonempty sep s) as Hne.
    destruct (Str.split sep s) as [|h t]; [contradiction |].
    change (String.concat (String sep "") ("" :: h :: t))
      with (String sep (String.concat (String sep "") (h :: t))).
    now rewrite IH.
  - pose proof (split_nonempty sep s) as Hne.
    destruct (Str.split sep s) as [|h t]; [contradiction |].
    destruct t as [|h2 t].
    + cbn [String.concat] in *. now rewrite IH.
    + change (String.concat (String sep "") (String c h :: h2 :: t))
        with (String c (String.concat (String sep "") (h :: h2 :: t))).
      now rewrite IH.
Qed.

Lemma manifest_platforms_inv manifest w ps w' :
  manifest_platforms manifest w = (Return ps, w') ->
  w' = w /\ exists value,
    (forall w2, Config.lookup manifest "target" "platforms" w2 = (Return value, w2))
    /\ ps = Str.split "," value.
Proof.
  unfold manifest_platforms. intros Hm.
  destruct (Config.lookup manifest "target" "platforms" w) as [[value|e] w1] eqn:Hl.
  - rewrite (bind_return _ _ _ _ _ Hl) in Hm. apply lookup_pure in Hl as [-> Hl].
    cbv [ret] in Hm. injection Hm as <- <-. split; [reflexivity |]. now exists value.
  - rewrite (bind_raise _ _ _ _ _ Hl) in Hm. discriminate.
Qed.

(** X3. The platform list of a manifest is its [platforms] value cut at the
    commas, with nothing trimmed and nothing dropped: it is never empty, no
    item contains a comma, and the items joined with commas give the value
    back.  Reading it leaves the world as it was. *)
Theorem manifest_platforms_pieces manifest w ps w' :
  manifest_platforms manifest w = (Return ps, w') ->
  w' = w
  /\ ps <> []
  /\ Forall (fun p => Str.has_char "," p = false) ps
  /\ Config.lookup manifest "target" "platforms" w = (Return (Str.join "," ps), w).
Proof.
  intros Hm. apply manifest_platforms_inv in Hm as [-> [value [Hl ->]]].
  split; [reflexivity |]. split; [apply split_nonempty |].
  split; [apply split_no_sep |]. rewrite join_split. apply Hl.
Qed.

Lemma manifest_platforms_pieces_witness :
  let w := Example.world_of Example.project_fresh in
  ["esp32"; "esp32s3"] <> []
  /\ Forall (fun p => Str.has_char "," p = false) ["esp32"; "esp32s3"]
  /\ Config.lookup Demo.manifest "target" "platforms" w
     = (Return (Str.join "," ["esp32"; "esp32s3"]), w).
Proof.
  intros w.
  apply (manifest_platforms_pieces Demo.manifest w ["esp32"; "esp32s3"] w).
  vm_compute. reflexivity.
Defined.

Lemma mem_in x l : mem x l = true <-> In x l.
Proof.
  unfold mem. rewrite existsb_exists. split.
  - intros [y [Hin Heq]]. apply String.eqb_eq in Heq. now subst.
  - intros Hin. exists x. split; [exact Hin | apply String.eqb_refl].
Qed.

Lemma mem_split_comma p value :
  Str.has_char "," p = true -> mem p (Str.split "," value) = false.
Proof.
  intros Hc. destruct (mem p (Str.split "," value)) eqn:Hm; [| reflexivity].
  apply mem_in in Hm. pose proof (split_no_sep ","%char value) as Hall.
  rewrite Forall_forall in Hall. apply Hall in Hm. congruence.
Qed.

(** X4. Which platforms an action works on.  Without a requested platform
    (none given, or the empty string) they are all the platforms of the
    manifest.  A requested platform is taken alone when it is one of them,
    compared as it is written; otherwise the tool exits with status 1 after
    one error line.  A request that contains a comma is never accepted. *)
Theorem get_manifest_target_platforms_spec manifest value w :
  Config.lookup manifest "target" "platforms" w = (Return value, w) ->
  get_manifest_target_platforms manifest None w = (Return (Str.split "," value), w)
  /\ get_manifest_target_platforms manifest (Some "") w = (Return (Str.split "," value), w)
  /\ (forall p, p <> "" ->
        get_manifest_target_platforms manifest (Some p) w
        = if mem p (Str.split "," value) then (Return [p], w)
          else (Raise (SystemExit 1),
                printed [line (error_text ("Platform " ++ p
                                           ++ " is not available in the manifest."))] w))
  /\ (forall p, Str.has_char "," p = true ->
        fst (get_manifest_target_platforms manifest (Some p) w) = Raise (SystemExit 1)).
Proof.
  intros Hl.
  assert (Hm : manifest_platforms manifest w = (Return (Str.split "," value), w)).
  { unfold manifest_platforms. now rewrite (bind_return _ _ _ _ _ Hl). }
  assert (Hp : forall p, (p =? "") = false ->
             get_manifest_target_platforms manifest (Some p) w
             = if mem p (Str.split "," value) then (Return [p], w)
               else (Raise (SystemExit 1),
                     printed [line (error_text ("Platform " ++ p
                                                ++ " is not available in the manifest."))] w)).
  { intros p Hne. unfold get_manifest_target_platforms. rewrite Hne.
    unfold validate_manifest_platform, is_valid_manifest_platform.
    rewrite !bind_assoc, (bind_return _ _ _ _ _ Hm), bind_ret.
    destruct (mem p (Str.split "," value)); reflexivity. }
  split; [exact Hm |]. split; [exact Hm |]. split.
  - intros p Hne. apply Hp. now apply String.eqb_neq.
  - intros p Hc. rewrite Hp.
    + now rewrite (mem_split_comma _ _ Hc).
    + destruct p; [discriminate | reflexivity].
Qed.

Lemma get_manifest_target_platforms_spec_witness :
  let w := Example.world_of Example.project_fresh in
  get_manifest_target_platforms Demo.manifest None w = (Return ["esp32"; "esp32s3"], w)
  /\ get_manifest_target_platforms Demo.manifest (Some "esp32s3") w
     = (Return ["esp32s3"], w)
  /\ fst (get_manifest_target_platforms Demo.manifest (Some "esp32,esp32s3") w)
     = Raise (SystemExit 1).
Proof.
  intros w.
  destruct (get_manifest_target_platforms_spec Demo.manifest "esp32,esp32s3" w)
    as [Hnone [_ [Hsome Hcomma]]]; [vm_compute; reflexivity |].
  split; [exact Hnone |]. split.
  - rewrite (Hsome "esp32s3"); [reflexivity | discriminate].
  - apply Hcomma. reflexivity.
Defined.

(** ** Downloads *)

Lemma download_file_cases E url filepath w :
  let wa := download_world url filepath w in
  let wf := with_fetched (fetched wa ++ [url]) wa in
  download_file E url filepath w
  = if negb ((urlparse_scheme url =? "http") || (urlparse_scheme url =? "https"))
    then (Return false,
          printed [line (error_text ("Unsupported URL scheme: " ++ urlparse_scheme url))] wa)
    else
      match urlopen E wa url with
      | FetchOk body =>
          match OS.write_file filepath body wf with
          | (Return _, w') => (Return true, w')
          | (Raise e, w') =>
              (Return false,
               announced (verbose w)
                 (error_text ("Failed to fetch URL " ++ url ++ lf ++ exn_str e)) w')
          end
      | FetchRaise e =>
          if is_OSError e
          then (Return false,
                announced (verbose w)
                  (error_text ("Failed to fetch URL " ++ url ++ lf ++ exn_str e)) wf)
          else (Raise e, wf)
      end.
Proof.
  intros wa wf. unfold download_file. rewrite bind_get, bind_when_print.
  fold (download_world url filepath w). fold wa.
  destruct (negb _); [reflexivity |].
  unfold try_except, do_urlopen. unfold bind at 1. fold wf.
  destruct (urlopen E wa url) as [body|e].
  - unfold bind. unfold OS.write_file, OS.update.
    destruct (filepath =? ""); [destruct (verbose w); reflexivity |].
    destruct (FS.write body _ _); [reflexivity | destruct (verbose w); reflexivity].
  - destruct (is_OSError e); [destruct (verbose w); reflexivity | reflexivity].
Qed.

Lemma write_file_cases filepath body w :
  OS.write_file filepath body w
  = if filepath =? "" then (Raise (OSError ("Cannot open for writing: " ++ filepath)), w)
    else match FS.write body (Path.resolve (cwd w) filepath) (fs w) with
         | Some f => (Return tt, with_fs f w)
         | None => (Raise (OSError ("Cannot open for writing: " ++ filepath)), w)
         end.
Proof. reflexivity. Qed.

Lemma write_file_written filepath body w w' :
  OS.write_file filepath body w = (Return tt, w') ->
  OS.stat w' filepath = Some (File body).
Proof.
  rewrite write_file_cases. unfold OS.stat.
  destruct (filepath =? ""); [discriminate |].
  destruct (FS.write body _ _) as [f|] eqn:Hw; [| discriminate].
  intros [= <-]. cbn [fs cwd with_fs].
  apply (alter_sets _ (File body)) in Hw; [exact Hw |].
  intros [[d|es]|] r; cbn; congruence.
Qed.

Lemma download_file_true E url filepath w w' :
  download_file E url filepath w = (Return true, w') ->
  (urlparse_scheme url = "http" \/ urlparse_scheme url = "https")
  /\ exists body,
       urlopen E (download_world url filepath w) url = FetchOk body
       /\ OS.stat w' filepath = Some (File body)
       /\ fetched w' = (fetched w ++ [url])%list.
Proof.
  rewrite download_file_cases. cbv zeta.
  destruct (negb _) eqn:Hs; [discriminate |].
  apply negb_false_iff, orb_true_iff in Hs. intros Hd.
  split; [destruct Hs as [Hs|Hs]; apply String.eqb_eq in Hs; auto |].
  destruct (urlopen E _ url) as [body|e]; [| destruct (is_OSError e); discriminate].
  destruct (OS.write_file filepath body _) as [[[]|e] w1] eqn:Hw; [| discriminate].
  injection Hd as <-. exists body. split; [reflexivity |].
  split; [exact (write_file_written _ _ _ _ Hw) |].
  pose proof (keeps_write_file fetched (fun _ _ => eq_refl) filepath body) as Hk.
  specialize (Hk (with_fetched
                    (fetched (download_world url filepath w) ++ [url])
                    (download_world url filepath w))).
  rewrite Hw in Hk. cbn [snd] in Hk. rewrite Hk.
  unfold download_world, announced. now destruct (verbose w).
Qed.

(** X5. When [download_file] returns [True], the URL had the scheme [http]
    or [https], exactly one connection was opened, to that URL, and the
    target file now holds the body that was read. *)
Theorem download_file_success E url filepath w w' :
  download_file E url filepath w = (Return true, w') ->
  (urlparse_scheme url = "http" \/ urlparse_scheme url = "https")
  /\ exists body,
       urlopen E (download_world url filepath w) url = FetchOk body
       /\ OS.stat w' filepath = Some (File body)
       /\ fetched w' = (fetched w ++ [url])%list.
Proof. apply download_file_true. Qed.

Lemma download_file_success_witness :
  let E := Example.env (Example.cdn_serving []) (Example.idf_idle 0)
             (Example.device_answers 200) in
  let w := Example.world_of Example.project_fresh in
  let url := "https://cdn.tactilityproject.org/sdk/0.6.0/index.json" in
  exists body,
    urlopen E (download_world url "index.json" w) url = FetchOk body
    /\ OS.stat (snd (download_file E url "index.json" w)) "index.json" = Some (File body)
    /\ fetched (snd (download_file E url "index.json" w)) = ([] ++ [url])%list.
Proof.
  intros E w url.
  apply (download_file_success E url "index.json" w
           (snd (download_file E url "index.json" w))).
  vm_compute. reflexivity.
Defined.

Lemma download_file_raised E url filepath w e w' :
  download_file E url filepath w = (Raise e, w') ->
  is_OSError e = false
  /\ urlopen E (download_world url filepath w) url = FetchRaise e
  /\ fs w' = fs w
  /\ fetched w' = (fetched w ++ [url])%list.
Proof.
  rewrite download_file_cases. cbv zeta.
  destruct (negb _); [discriminate |].
  destruct (urlopen E _ url) as [body|e0].
  - destruct (OS.write_file filepath body _) as [[[]|e1] w1]; discriminate.
  - destruct (is_OSError e0) eqn:He; [discriminate |].
    intros [= <- <-]. repeat split; try assumption;
      unfold download_world, announced; now destruct (verbose w).
Qed.



(** ** The platform configurations *)

Lemma lookup_file_inv d p x : FS.lookup (File d) p = Some x -> p = [].
Proof. destruct p; [reflexivity | discriminate]. Qed.

Lemma alter_keeps_existing f :
  (forall cur, f cur <> Some None) ->
  (forall es, f (Some (Dir es)) = None) ->
  forall q n n', FS.alter f q n = Some n' ->
  forall p x, FS.lookup n p = Some x -> exists x', FS.lookup n' p = Some x'.
Proof.
  intros Hkeep Hdir. induction q as [|c q IH]; intros n n' Ha p x Hl.
  - destruct n; discriminate.
  - destruct n as [d|es]; [destruct q; discriminate |].
    destruct p as [|c' p]; [eexists; reflexivity |].
    destruct q as [|c2 q].
    + rewrite alter_last in Ha.
      destruct (f (FS.assoc c es)) as [[new|]|] eqn:Hf; try discriminate.
      * injection Ha as <-. rewrite lookup_cons in *.
        destruct (string_dec c c') as [<-|Hne].
        -- rewrite assoc_set_entry_same.
           destruct (FS.assoc c es) as [[d|es']|]; try discriminate.
           ++ apply lookup_file_inv in Hl as ->. eexists; reflexivity.
           ++ now rewrite Hdir in Hf.
        -- rewrite (assoc_set_entry_other _ _ _ _ Hne). eauto.
      * now apply Hkeep in Hf.
    + rewrite alter_deeper in Ha.
      destruct (FS.assoc c es) as [child|] eqn:Hc; [| discriminate].
      destruct (FS.alter f (c2 :: q) child) as [child'|] eqn:Hch; [| discriminate].
      injection Ha as <-. rewrite lookup_cons in *.
      destruct (string_dec c c') as [<-|Hne].
      * rewrite assoc_set_entry_same. rewrite Hc in Hl. eapply IH; eassumption.
      * rewrite (assoc_set_entry_other _ _ _ _ Hne). eauto.
Qed.

Lemma write_file_keeps_existing filepath body w r w' p :
  OS.write_file filepath body w = (r, w') ->
  OS.stat w p <> None -> OS.stat w' p <> None.
Proof.
  rewrite write_file_cases. destruct (filepath =? ""); [now intros [= <- <-] |].
  destruct (FS.write body _ _) as [f|] eqn:Hw; [| now intros [= <- <-]].
  intros [= <- <-]. unfold OS.stat. cbn [fs cwd with_fs].
  destruct (p =? ""); [trivial |].
  destruct (FS.lookup (fs w) _) as [x|] eqn:Hl; [| congruence]. intros _.
  unfold FS.write in Hw.
  eapply alter_keeps_existing in Hw as [x' Hx]; [| | | exact Hl].
  - congruence.
  - intros [[d|es]|]; discriminate.
  - reflexivity.
Qed.

Lemma stat_same w w' p : fs w' = fs w -> cwd w' = cwd w -> OS.stat w' p = OS.stat w p.
Proof. unfold OS.stat. now intros -> ->. Qed.

Lemma stat_announced flag s w p : OS.stat (announced flag s w) p = OS.stat w p.
Proof. now destruct flag. Qed.

Lemma download_file_keeps_existing E url filepath w p :
  OS.stat w p <> None -> OS.stat (snd (download_file E url filepath w)) p <> None.
Proof.
  intros Hp. rewrite download_file_cases. cbv zeta.
  assert (Hwa : OS.stat (download_world url filepath w) p <> None)
    by (unfold download_world; now rewrite stat_announced).
  destruct (negb _); [exact Hwa |].
  destruct (urlopen E _ url) as [body|e].
  - destruct (OS.write_file filepath body _) as [[[]|e] w1] eqn:Hw; cbn [snd];
      rewrite ?stat_announced; eapply write_file_keeps_existing; eauto.
  - destruct (is_OSError e); cbn [snd]; rewrite ?stat_announced; exact Hwa.
Qed.

Lemma fetch_keeps_existing E ps : forall w p,
  OS.stat w p <> None -> OS.stat (snd (fetch_sdkconfig_files E ps w)) p <> None.
Proof.
  induction ps as [|platform rest IH]; intros w p Hp; [exact Hp |].
  cbn [fetch_sdkconfig_files]. cbv zeta.
  pose proof (download_file_keeps_existing E (ttbuild_cdn ++ "/" ++ "sdkconfig.app." ++ platform)
                (Path.join ttbuild_path ("sdkconfig.app." ++ platform)) w p Hp) as Hd.
  destruct (download_file E _ _ w) as [[[|]|e] w1] eqn:Hdl; cbn [snd] in Hd.
  - rewrite (bind_return _ _ _ _ _ Hdl). cbn [negb]. rewrite bind_when_false. now apply IH.
  - rewrite (bind_return _ _ _ _ _ Hdl). cbn [negb]. rewrite bind_when_exit. exact Hd.
  - rewrite (bind_raise _ _ _ _ _ Hdl). exact Hd.
Qed.

Lemma should_fetch_eq ps w :
  should_fetch_sdkconfig_files ps w
  = (Return (existsb (fun p => negb (is_some (OS.stat w (sdkconfig_path p)))) ps), w).
Proof.
  induction ps as [|p rest IH]; [reflexivity |].
  cbn [should_fetch_sdkconfig_files existsb]. cbv zeta. unfold OS.exists_.
  rewrite bind_get. fold (sdkconfig_path p).
  destruct (OS.stat w (sdkconfig_path p)); cbn [negb is_some orb]; [exact IH | reflexivity].
Qed.

Lemma fetch_sdkconfig_files_returned E ps : forall w w',
  fetch_sdkconfig_files E ps w = (Return tt, w') ->
  fetched w' = (fetched w ++ map sdkconfig_url ps)%list
  /\ should_fetch_sdkconfig_files ps w' = (Return false, w').
Proof.
  induction ps as [|p rest IH]; intros w w' Hf.
  - injection Hf as <-. split; [now rewrite app_nil_r | reflexivity].
  - cbn [fetch_sdkconfig_files] in Hf. cbv zeta in Hf.
    fold (sdkconfig_url p) (sdkconfig_path p) in Hf.
    destruct (download_file E (sdkconfig_url p) (sdkconfig_path p) w)
      as [[[|]|e] w1] eqn:Hdl.
    + rewrite (bind_return _ _ _ _ _ Hdl) in Hf. cbn [negb] in Hf.
      rewrite bind_when_false in Hf.
      apply download_file_true in Hdl as [_ [body [_ [Hst Hfe]]]].
      destruct (IH _ _ Hf) as [Hfetched Hshould]. split.
      * rewrite Hfetched, Hfe. cbn [map]. now rewrite <- app_assoc.
      * rewrite should_fetch_eq in *. cbn [existsb].
        pose proof (fetch_keeps_existing E rest w1 (sdkconfig_path p)) as Hk.
        rewrite Hf in Hk. cbn [snd] in Hk. rewrite Hst in Hk. specialize (Hk ltac:(discriminate)).
        destruct (OS.stat w' (sdkconfig_path p)); [| congruence].
        cbn [negb is_some orb]. exact Hshould.
    + rewrite (bind_return _ _ _ _ _ Hdl) in Hf. cbn [negb] in Hf.
      rewrite bind_when_exit in Hf. discriminate.
    + rewrite (bind_raise _ _ _ _ _ Hdl) in Hf. discriminate.
Qed.

Lemma fetch_sdkconfig_files_app E before : forall rest w w1,
  fetch_sdkconfig_files E before w = (Return tt, w1) ->
  fetch_sdkconfig_files E (before ++ rest) w = fetch_sdkconfig_files E rest w1.
Proof.
  induction before as [|p before IH]; intros rest w w1 Hf.
  - now injection Hf as <-.
  - cbn [fetch_sdkconfig_files app] in Hf |- *. cbv zeta in Hf |- *.
    fold (sdkconfig_url p) (sdkconfig_path p) in Hf |- *.
    destruct (download_file E (sdkconfig_url p) (sdkconfig_path p) w)
      as [[[|]|e] w0] eqn:Hdl.
    + rewrite (bind_return _ _ _ _ _ Hdl) in Hf. rewrite (bind_return _ _ _ _ _ Hdl).
      cbn [negb] in Hf |- *. rewrite bind_when_false in Hf. rewrite bind_when_false.
      now apply IH.
    + rewrite (bind_return _ _ _ _ _ Hdl) in Hf. cbn [negb] in Hf.
      rewrite bind_when_exit in Hf. discriminate.
    + rewrite (bind_raise _ _ _ _ _ Hdl) in Hf. discriminate.
Qed.

(** X7. [fetch_sdkconfig_files] downloads the configuration of every
    platform it is given, in order, also of those that are on disk already.
    When it returns, one connection per platform was opened, to
    [<cdn>/sdkconfig.app.<platform>], and every configuration is in place:
    [should_fetch_sdkconfig_files] answers [False].  It stops at the first
    download that fails: the tool exits with status 1 after one error line
    naming that platform, and nothing is fetched for the platforms after
    it. *)
Theorem fetch_sdkconfig_files_spec E ps w :
  (forall w',
      fetch_sdkconfig_files E ps w = (Return tt, w') ->
      fetched w' = (fetched w ++ map sdkconfig_url ps)%list
      /\ should_fetch_sdkconfig_files ps w' = (Return false, w'))
  /\ (forall before p after w1 w2,
        ps = (before ++ p :: after)%list ->
        fetch_sdkconfig_files E before w = (Return tt, w1) ->
        download_file E (sdkconfig_url p) (sdkconfig_path p) w1 = (Return false, w2) ->
        fetch_sdkconfig_files E ps w
        = (Raise (SystemExit 1),
           printed [line (error_text ("Failed to download sdkconfig file for " ++ p))] w2)).
Proof.
  split; [apply fetch_sdkconfig_files_returned |].
  intros before p after w1 w2 -> Hb Hd.
  rewrite (fetch_sdkconfig_files_app _ _ _ _ _ Hb).
  cbn [fetch_sdkconfig_files]. cbv zeta.
  fold (sdkconfig_url p) (sdkconfig_path p).
  rewrite (bind_return _ _ _ _ _ Hd). cbn [negb]. now rewrite bind_when_exit.
Qed.

Lemma fetch_sdkconfig_files_spec_witness :
  let E := Example.env (fun _ _ => FetchOk Example.sdkconfig) (Example.idf_idle 0)
             (Example.device_answers 200) in
  let w := Example.world_of Example.project_fresh in
  let w' := snd (fetch_sdkconfig_files E ["esp32"; "esp32s3"] w) in
  (fetched w' = ([] ++ map sdkconfig_url ["esp32"; "esp32s3"])%list
   /\ should_fetch_sdkconfig_files ["esp32"; "esp32s3"] w' = (Return false, w'))
  /\ fst (fetch_sdkconfig_files Example.env_default ["esp32"; "esp32s3"] w)
     = Raise (SystemExit 1).
Proof.
  intros E w w'. split.
  - apply (proj1 (fetch_sdkconfig_files_spec E ["esp32"; "esp32s3"] w) w').
    vm_compute. reflexivity.
  - rewrite (proj2 (fetch_sdkconfig_files_spec Example.env_default ["esp32"; "esp32s3"] w)
               [] "esp32" ["esp32s3"] w
               (snd (download_file Example.env_default (sdkconfig_url "esp32")
                       (sdkconfig_path "esp32") w)));
      [reflexivity | reflexivity | reflexivity | vm_compute; reflexivity].
Defined.

(** ** Local SDKs *)

Lemma validate_local_sdks_loop_eq base v ps w :
  validate_local_sdks_loop (Some base) v ps w
  = match find (fun p => negb (has_dir w (local_sdk_dir base v p))) ps with
    | None => (Return tt, w)
    | Some p =>
        exited ("Local SDK folder missing for " ++ p ++ ": " ++ local_sdk_dir base v p) w
    end.
Proof.
  induction ps as [|p rest IH]; [reflexivity |].
  cbn [validate_local_sdks_loop find]. cbv zeta. unfold OS.isdir. rewrite bind_get.
  fold (local_sdk_dir base v p). fold (has_dir w (local_sdk_dir base v p)).
  destruct (has_dir w (local_sdk_dir base v p)); cbn [negb].
  - rewrite bind_when_false. exact IH.
  - now rewrite bind_when_exit.
Qed.

Lemma get_sdk_dir_local base v p w :
  use_local_sdk w = true -> local_base_path w = Some base ->
  get_sdk_dir v p w
  = if has_dir w (local_sdk_dir base v p) then (Return (local_sdk_dir base v p), w)
    else exited ("Local SDK folder not found for platform " ++ p ++ ": "
                 ++ local_sdk_dir base v p) w.
Proof.
  intros Hl Hb. unfold get_sdk_dir. rewrite bind_get, Hl, bind_get, Hb. cbv zeta.
  unfold OS.isdir. rewrite bind_get.
  fold (local_sdk_dir base v p). fold (has_dir w (local_sdk_dir base v p)).
  now destruct (has_dir w (local_sdk_dir base v p)).
Qed.

(** X8. [validate_local_sdks] does nothing unless [--local-sdk] is on.  When
    it is on and the base path is set, it returns exactly when the SDK
    directory of every platform exists, and then [get_sdk_dir] returns that
    directory for each of them instead of exiting; at the first platform
    whose directory is missing the tool exits with status 1 after one error
    line.  With no base path the first platform ends in a [TypeError]. *)
Theorem validate_local_sdks_spec ps v w :
  (use_local_sdk w = false -> validate_local_sdks ps v w = (Return tt, w))
  /\ (use_local_sdk w = true -> local_base_path w = None -> ps <> [] ->
      validate_local_sdks ps v w
      = (Raise (TypeError "expected str, bytes or os.PathLike object, not NoneType"), w))
  /\ (forall base,
        use_local_sdk w = true -> local_base_path w = Some base ->
        validate_local_sdks ps v w
        = match find (fun p => negb (has_dir w (local_sdk_dir base v p))) ps with
          | None => (Return tt, w)
          | Some p =>
              exited ("Local SDK folder missing for " ++ p ++ ": "
                      ++ local_sdk_dir base v p) w
          end)
  /\ (forall base w',
        use_local_sdk w = true -> local_base_path w = Some base ->
        validate_local_sdks ps v w = (Return tt, w') ->
        Forall (fun p => get_sdk_dir v p w' = (Return (local_sdk_dir base v p), w')) ps).
Proof.
  unfold validate_local_sdks. rewrite bind_get.
  split; [now intros -> |]. split; [| split].
  - intros -> Hb Hne. cbn [negb]. rewrite bind_get, Hb.
    destruct ps; [contradiction | reflexivity].
  - intros base -> Hb. cbn [negb]. rewrite bind_get, Hb. apply validate_local_sdks_loop_eq.
  - intros base w' Hl Hb. rewrite Hl. cbn [negb]. rewrite bind_get, Hb.
    rewrite validate_local_sdks_loop_eq.
    destruct (find _ ps) as [p|] eqn:Hf; [discriminate |].
    intros [= <-]. apply Forall_forall. intros p Hin.
    apply (find_none _ _ Hf) in Hin. apply negb_false_iff in Hin.
    now rewrite (get_sdk_dir_local base), Hin.
Qed.

(** ** The environment *)

Lemma validate_environment_eq H w :
  validate_environment H w
  = if negb (is_some (FS.assoc "IDF_PATH" (environ w))) then
      exited (if sys_platform H =? "win32"
              then "Cannot find the Espressif IDF SDK. Ensure it is installed and that it is activated via %IDF_PATH%\export.ps1"
              else "Cannot find the Espressif IDF SDK. Ensure it is installed and that it is activated via $PATH_TO_IDF_SDK/export.sh") w
    else if negb (is_some (OS.stat w "manifest.properties")) then
      exited "manifest.properties not found" w
    else if negb (use_local_sdk w) && is_some (FS.assoc "TACTILITY_SDK_PATH" (environ w)) then
      (Return tt,
       printed [line (warning_text "TACTILITY_SDK_PATH is set, but will be ignored by this command.");
                line (warning_text "If you want to use it, use the '--local-sdk' parameter")] w)
    else if use_local_sdk w && negb (is_some (FS.assoc "TACTILITY_SDK_PATH" (environ w))) then
      exited "local build was requested, but TACTILITY_SDK_PATH environment variable is not set." w
    else (Return tt, w).
Proof.
  unfold validate_environment, environ_get, OS.exists_. rewrite bind_get.
  destruct (FS.assoc "IDF_PATH" (environ w)) as [idf|]; cbn [is_some negb].
  2: { destruct (sys_platform H =? "win32"); reflexivity. }
  rewrite bind_when_false, bind_get.
  destruct (OS.stat w "manifest.properties") as [n|]; cbn [is_some negb]; [| reflexivity].
  rewrite bind_when_false, !bind_get.
  destruct (use_local_sdk w) eqn:Hl,
    (FS.assoc "TACTILITY_SDK_PATH" (environ w)) as [sdk|] eqn:Hs;
    cbn [negb andb is_some]; rewrite ?bind_get, ?Hl, ?Hs; try reflexivity.
  unfold print_warning. rewrite bind_print.
  change (print ?s ?w0) with (Return tt, printed [line s] w0).
  now rewrite printed_printed.
Qed.

(** X9. [validate_environment] returns exactly when [IDF_PATH] is set,
    [manifest.properties] exists, and, under [--local-sdk],
    [TACTILITY_SDK_PATH] is set too.  Otherwise the tool exits with status
    1 after one error line.  Without [--local-sdk] a [TACTILITY_SDK_PATH]
    that is set only earns two warning lines.  In every case the call does
    nothing but print. *)
Theorem validate_environment_spec H w :
  (fst (validate_environment H w) = Return tt
   <-> is_some (FS.assoc "IDF_PATH" (environ w)) = true
       /\ is_some (OS.stat w "manifest.properties") = true
       /\ (use_local_sdk w = true ->
           is_some (FS.assoc "TACTILITY_SDK_PATH" (environ w)) = true))
  /\ (fst (validate_environment H w) = Return tt
      \/ exists message,
           validate_environment H w
           = (Raise (SystemExit 1), printed [line (error_text message)] w))
  /\ (forall w',
        validate_environment H w = (Return tt, w') ->
        w' = if negb (use_local_sdk w)
                && is_some (FS.assoc "TACTILITY_SDK_PATH" (environ w))
             then printed
                    [line (warning_text "TACTILITY_SDK_PATH is set, but will be ignored by this command.");
                     line (warning_text "If you want to use it, use the '--local-sdk' parameter")] w
             else w).
Proof.
  rewrite validate_environment_eq.
  destruct (is_some (FS.assoc "IDF_PATH" (environ w))); cbn [negb].
  2: { split; [| split].
       - split; [discriminate | intros [? _]; discriminate].
       - right. eexists. reflexivity.
       - discriminate. }
  destruct (is_some (OS.stat w "manifest.properties")); cbn [negb].
  2: { split; [| split].
       - split; [discriminate | intros [_ [? _]]; discriminate].
       - right. eexists. reflexivity.
       - discriminate. }
  destruct (use_local_sdk w), (is_some (FS.assoc "TACTILITY_SDK_PATH" (environ w)));
    cbn [negb andb fst]; (split; [| split]);
    try (split; [auto; discriminate | try reflexivity]);
    try (left; reflexivity);
    try (intros w' [= <-]; reflexivity);
    try discriminate.
  - intros [_ [_ Hs]]. specialize (Hs eq_refl). discriminate.
  - right. eexists. reflexivity.
Qed.

Section Cleaning.

Local Open Scope list_scope.

(** ** Set-up and the two cleaning actions *)

Lemma drop_entry_idem {A} k (es : list (string * A)) :
  FS.drop_entry k (FS.drop_entry k es) = FS.drop_entry k es.
Proof.
  unfold FS.drop_entry. induction es as [|[k' v] es IH]; [reflexivity |].
  cbn [filter fst]. destruct (negb (k' =? k)%string) eqn:Hk; [| exact IH].
  cbn [filter fst]. now rewrite Hk, IH.
Qed.

Lemma set_entry_idem {A} k (v : A) es :
  FS.set_entry k v (FS.set_entry k v es) = FS.set_entry k v es.
Proof.
  induction es as [|[k' v'] es IH]; cbn [FS.set_entry].
  - now rewrite String.eqb_refl.
  - destruct (k' =? k)%string eqn:Hk; cbn [FS.set_entry].
    + now rewrite String.eqb_refl, drop_entry_idem.
    + now rewrite Hk, IH.
Qed.

Lemma makedirs_fresh_dirs p : FS.makedirs p (FS.fresh_dirs p) = Some (FS.fresh_dirs p).
Proof.
  induction p as [|c p IH]; [reflexivity |].
  cbn [FS.fresh_dirs]. rewrite makedirs_cons. cbn [FS.assoc].
  rewrite String.eqb_refl, IH. cbn [FS.set_entry]. now rewrite String.eqb_refl.
Qed.

Lemma makedirs_idem p : forall n n', FS.makedirs p n = Some n' -> FS.makedirs p n' = Some n'.
Proof.
  induction p as [|c p IH]; intros n n' Hm.
  - destruct n; [discriminate |]. now injection Hm as <-.
  - destruct n as [d|es]; [discriminate |]. rewrite makedirs_cons in Hm.
    destruct (FS.assoc c es) as [child|] eqn:Hc.
    + destruct (FS.makedirs p child) as [child'|] eqn:Hch; [| discriminate].
      injection Hm as <-. rewrite makedirs_cons, assoc_set_entry_same, (IH _ _ Hch).
      now rewrite set_entry_idem.
    + injection Hm as <-. rewrite makedirs_cons, assoc_set_entry_same, makedirs_fresh_dirs.
      now rewrite set_entry_idem.
Qed.

Lemma makedirs_isdir p : forall n n',
  FS.makedirs p n = Some n' -> exists es, FS.lookup n' p = Some (Dir es).
Proof.
  induction p as [|c p IH]; intros n n' Hm.
  - destruct n as [d|es]; [discriminate |]. injection Hm as <-. now exists es.
  - destruct n as [d|es]; [discriminate |]. rewrite makedirs_cons in Hm.
    destruct (FS.assoc c es) as [child|] eqn:Hc.
    + destruct (FS.makedirs p child) as [child'|] eqn:Hch; [| discriminate].
      injection Hm as <-. rewrite lookup_cons, assoc_set_entry_same. eauto.
    + injection Hm as <-. rewrite lookup_cons, assoc_set_entry_same, lookup_fresh_dirs.
      now exists [].
Qed.

Lemma makedirs_keeps_files p : forall n n' q d,
  FS.makedirs p n = Some n' ->
  FS.lookup n q = Some (File d) -> FS.lookup n' q = Some (File d).
Proof.
  induction p as [|c p IH]; intros n n' q d Hm Hl.
  - destruct n; [discriminate |]. now injection Hm as <-.
  - destruct n as [d0|es]; [discriminate |]. rewrite makedirs_cons in Hm.
    destruct q as [|c' q]; [discriminate |]. rewrite lookup_cons in Hl.
    destruct (string_dec c c') as [<-|Hne].
    + destruct (FS.assoc c es) as [child|] eqn:Hc; [| discriminate].
      destruct (FS.makedirs p child) as [child'|] eqn:Hch; [| discriminate].
      injection Hm as <-. rewrite lookup_cons, assoc_set_entry_same. eauto.
    + destruct (FS.assoc c es) as [child|] eqn:Hc.
      * destruct (FS.makedirs p child) as [child'|] eqn:Hch; [| discriminate].
        injection Hm as <-. now rewrite lookup_cons, (assoc_set_entry_other _ _ _ _ Hne).
      * injection Hm as <-. now rewrite lookup_cons, (assoc_set_entry_other _ _ _ _ Hne).
Qed.

Lemma makedirs_cases p w :
  OS.makedirs p w
  = if (p =? "")%string then (Raise (OSError ("File exists: " ++ p)%string), w)
    else match FS.makedirs (Path.resolve (cwd w) p) (fs w) with
         | Some f => (Return tt, with_fs f w)
         | None => (Raise (OSError ("File exists: " ++ p)%string), w)
         end.
Proof. reflexivity. Qed.

(** X10. [setup_environment] makes the cache directory [.tactility] if it
    is not there.  When it returns, the directory exists, every regular
    file is what it was, and a second call changes nothing.  When
    [.tactility] is a regular file, it raises an [OSError] and leaves the
    world as it was. *)
Theorem setup_environment_spec w :
  (forall w1,
      setup_environment w = (Return tt, w1) ->
      has_dir w1 ttbuild_path = true
      /\ (forall p d, OS.stat w p = Some (File d) -> OS.stat w1 p = Some (File d))
      /\ setup_environment w1 = (Return tt, w1))
  /\ (forall d,
        OS.stat w ttbuild_path = Some (File d) ->
        exists text, setup_environment w = (Raise (OSError text), w)).
Proof.
  unfold setup_environment. rewrite makedirs_cases.
  change (ttbuild_path =? "")%string with false. cbv iota. split.
  - intros w1 Hs.
    destruct (FS.makedirs _ (fs w)) as [f|] eqn:Hm; [| discriminate].
    injection Hs as <-. split; [| split].
    + unfold has_dir, OS.stat. change (ttbuild_path =? "")%string with false.
      cbv iota. cbn [fs cwd with_fs].
      destruct (makedirs_isdir _ _ _ Hm) as [es ->]. reflexivity.
    + intros p d. unfold OS.stat. cbn [fs cwd with_fs].
      destruct (p =? "")%string; [discriminate |]. exact (makedirs_keeps_files _ _ _ _ _ Hm).
    + rewrite makedirs_cases. change (ttbuild_path =? "")%string with false.
      cbv iota. cbn [fs cwd with_fs]. rewrite (makedirs_idem _ _ _ Hm).
      destruct w; reflexivity.
  - intros d. unfold OS.stat. change (ttbuild_path =? "")%string with false. cbv iota.
    intros Hl. rewrite (makedirs_file _ _ _ Hl). eexists. reflexivity.
Qed.

Lemma endswith_plain s :
  Str.has_char Path.sep_char s = false -> Str.endswith s Path.sep = false.
Proof.
  intros Hp. unfold Str.endswith.
  destruct (String.length Path.sep <=? String.length s)%nat; [| reflexivity]. cbn [andb].
  apply String.eqb_neq. intros He.
  pose proof (has_char_substring Path.sep_char s
                (String.length s - String.length Path.sep) (String.length Path.sep) Hp) as Hs.
  rewrite He in Hs. discriminate.
Qed.

Lemma startswith_app_plain a b :
  Str.has_char Path.sep_char a = false -> 1 <= String.length a ->
  Str.startswith (a ++ b)%string Path.sep = false.
Proof.
  destruct a as [|x a]; cbn [String.length]; [lia |]. intros Hp _.
  cbn [Str.has_char] in Hp. apply orb_false_elim in Hp as [Hx _].
  unfold Str.startswith, Path.sep. cbn [append String.prefix].
  destruct (ascii_dec _ x) as [<-|]; [discriminate | reflexivity].
Qed.

Lemma join_plain a name :
  Str.has_char Path.sep_char a = false -> 1 <= String.length a ->
  Str.has_char Path.sep_char name = false ->
  Path.join a name = (a ++ String Path.sep_char name)%string.
Proof.
  intros Ha Hla Hn. unfold Path.join.
  rewrite (plain_not_absolute _ Hn), (endswith_plain _ Ha).
  destruct a; [cbn in Hla; lia | reflexivity].
Qed.

Lemma resolve_plain cwd a :
  Str.has_char Path.sep_char a = false -> 3 <= String.length a ->
  Path.resolve cwd a = cwd ++ [a].
Proof.
  intros Ha Hla. unfold Path.resolve.
  rewrite (plain_not_absolute _ Ha), (split_plain _ _ Ha), norm_plain by assumption.
  reflexivity.
Qed.

Lemma resolve_child cwd a name :
  Str.has_char Path.sep_char a = false -> 3 <= String.length a ->
  Str.has_char Path.sep_char name = false -> 3 <= String.length name ->
  Path.resolve cwd (Path.join a name) = cwd ++ [a; name].
Proof.
  intros Ha Hla Hn Hln. rewrite join_plain by (assumption || lia).
  unfold Path.resolve. rewrite startswith_app_plain by (assumption || lia).
  rewrite split_app, (split_plain _ _ Hn) by assumption.
  rewrite !norm_plain by assumption. cbn [Path.norm]. now rewrite <- app_assoc.
Qed.

Lemma norm_component stack c cs :
  ((c =? "") || (c =? "."))%string = false -> (c =? "..")%string = false ->
  Path.norm stack (c :: cs) = Path.norm (stack ++ [c]) cs.
Proof. intros H1 H2. cbn [Path.norm]. now rewrite H1, H2. Qed.

Lemma resolve_grandchild cwd a b name :
  Str.has_char Path.sep_char a = false -> 3 <= String.length a ->
  Str.has_char Path.sep_char b = false ->
  ((b =? "") || (b =? "."))%string = false -> (b =? "..")%string = false ->
  Str.has_char Path.sep_char name = false -> 3 <= String.length name ->
  Path.resolve cwd (Path.join (Path.join a b) name) = cwd ++ [a; b; name].
Proof.
  intros Ha Hla Hb Hb1 Hb2 Hn Hln. rewrite (join_plain a b) by (assumption || lia).
  assert (Hlb : 1 <= String.length b) by (destruct b; [discriminate | cbn; lia]).
  unfold Path.join. rewrite (plain_not_absolute _ Hn).
  assert (He : Str.endswith (a ++ String Path.sep_char b) Path.sep = false).
  { unfold Str.endswith. apply andb_false_intro2. apply String.eqb_neq. intros He.
    assert (Hlen : String.length (a ++ String Path.sep_char b)
                   = String.length a + S (String.length b))
      by (rewrite length_append; reflexivity).
    rewrite Hlen in He.
    change (String.length Path.sep) with 1 in He.
    replace (String.length a + S (String.length b) - 1)
      with (String.length a + String.length b) in He by lia.
    assert (Hsub : forall x y n, substring (String.length x + n) 1 (x ++ y)
                                 = substring n 1 y).
    { induction x as [|c x IHx]; intros y n; [reflexivity | apply IHx]. }
    replace (String.length a + String.length b)
      with (String.length a + (1 + (String.length b - 1))) in He by lia.
    rewrite Hsub in He. cbn [substring plus] in He.
    pose proof (has_char_substring Path.sep_char b (String.length b - 1) 1 Hb) as Hs.
    rewrite He in Hs. discriminate. }
  rewrite He. destruct (a ++ String Path.sep_char b =? "")%string eqn:Hemp.
  { apply String.eqb_eq in Hemp. destruct a; discriminate. }
  cbn [orb]. unfold Path.resolve.
  rewrite append_assoc. rewrite startswith_app_plain by (assumption || lia).
  cbn [append]. rewrite split_app by assumption.
  change (Path.sep ++ name)%string with (String Path.sep_char name).
  rewrite split_app, (split_plain _ _ Hn) by assumption.
  rewrite (norm_plain _ a) by assumption.
  rewrite (norm_component _ b) by assumption.
  rewrite (norm_plain _ name) by assumption.
  cbn [Path.norm]. now rewrite <- !app_assoc.
Qed.

Lemma alter_existing f : forall p n x r,
  p <> [] -> FS.lookup n p = Some x -> f (Some x) = Some r ->
  exists n', FS.alter f p n = Some n'.
Proof.
  induction p as [|c p IH]; intros n x r Hne Hl Hf; [contradiction |].
  destruct n as [d|es]; [discriminate |]. rewrite lookup_cons in Hl.
  destruct (FS.assoc c es) as [child|] eqn:Hc; [| discriminate].
  destruct p as [|c2 p].
  - injection Hl as <-. rewrite alter_last, Hc, Hf. destruct r; eauto.
  - rewrite alter_deeper, Hc.
    destruct (IH child x r ltac:(discriminate) Hl Hf) as [child' ->]. eauto.
Qed.

Lemma rmtree_cases p w :
  OS.rmtree p w
  = if (p =? "")%string then (Raise (OSError ("Cannot remove tree: " ++ p)%string), w)
    else match FS.rmtree (Path.resolve (cwd w) p) (fs w) with
         | Some f => (Return tt, with_fs f w)
         | None => (Raise (OSError ("Cannot remove tree: " ++ p)%string), w)
         end.
Proof. reflexivity. Qed.

Lemma rmtree_refuses_file : forall p n d,
  FS.lookup n p = Some (File d) -> FS.rmtree p n = None.
Proof.
  unfold FS.rmtree. induction p as [|c p IH]; intros n d Hl; [now destruct n |].
  destruct n as [d0|es]; [discriminate |]. rewrite lookup_cons in Hl.
  destruct (FS.assoc c es) as [child|] eqn:Hc; [| discriminate].
  destruct p as [|c2 p].
  - injection Hl as ->. now rewrite alter_last, Hc.
  - now rewrite alter_deeper, Hc, (IH _ _ Hl).
Qed.

Lemma rmtree_file a w d :
  OS.stat w a = Some (File d) ->
  OS.rmtree a w = (Raise (OSError ("Cannot remove tree: " ++ a)%string), w).
Proof.
  unfold OS.stat. rewrite rmtree_cases. destruct (a =? "")%string; [discriminate |].
  intros Hl. now rewrite (rmtree_refuses_file _ _ _ Hl).
Qed.

Lemma rmtree_dir a w es :
  Str.has_char Path.sep_char a = false -> 3 <= String.length a ->
  OS.stat w a = Some (Dir es) ->
  exists f,
    OS.rmtree a w = (Return tt, with_fs f w)
    /\ FS.lookup f (cwd w ++ [a]) = None
    /\ forall c q, c <> a -> FS.lookup f (cwd w ++ c :: q) = FS.lookup (fs w) (cwd w ++ c :: q).
Proof.
  intros Ha Hla. unfold OS.stat. rewrite rmtree_cases, resolve_plain by assumption.
  destruct (a =? "")%string; [discriminate |]. intros Hl.
  destruct (alter_existing (fun cur => match cur with
                                       | Some (Dir _) => Some None
                                       | _ => None
                                       end) (cwd w ++ [a]) (fs w) (Dir es) None)
    as [f Hf]; [now destruct (cwd w) | exact Hl | reflexivity |].
  exists f. unfold FS.rmtree. rewrite Hf. split; [reflexivity |]. split.
  - eapply alter_deletes; [| exact Hf]. intros [[d|es']|] r; cbn; congruence.
  - intros c q Hne. eapply alter_frame; [| exact Hf]. congruence.
Qed.

Lemma stat_below_missing w a name :
  Str.has_char Path.sep_char a = false -> 3 <= String.length a ->
  Str.has_char Path.sep_char name = false -> 3 <= String.length name ->
  OS.stat w a = None -> OS.stat w (Path.join a name) = None.
Proof.
  intros Ha Hla Hn Hln. unfold OS.stat.
  rewrite resolve_plain, resolve_child by assumption.
  destruct (a =? "")%string eqn:He; [apply String.eqb_eq in He; subst; cbn in Hla; lia |].
  intros Hl. destruct (Path.join a name =? "")%string; [reflexivity |].
  change (cwd w ++ [a; name]) with (cwd w ++ [a] ++ [name]).
  now rewrite app_assoc, lookup_app, Hl.
Qed.

Lemma stat_below_missing2 w a b name :
  Str.has_char Path.sep_char a = false -> 3 <= String.length a ->
  Str.has_char Path.sep_char b = false ->
  ((b =? "") || (b =? "."))%string = false -> (b =? "..")%string = false ->
  Str.has_char Path.sep_char name = false -> 3 <= String.length name ->
  OS.stat w a = None -> OS.stat w (Path.join (Path.join a b) name) = None.
Proof.
  intros Ha Hla Hb Hb1 Hb2 Hn Hln. unfold OS.stat.
  rewrite resolve_plain, resolve_grandchild by assumption.
  destruct (a =? "")%string eqn:He; [apply String.eqb_eq in He; subst; cbn in Hla; lia |].
  intros Hl. destruct (Path.join (Path.join a b) name =? "")%string; [reflexivity |].
  change (cwd w ++ [a; b; name]) with (cwd w ++ [a] ++ [b; name]).
  now rewrite app_assoc, lookup_app, Hl.
Qed.

Lemma clean_action_cases w :
  match OS.stat w "build" with
  | None => clean_action w = (Return tt, printed [line "Nothing to clean"] w)
  | Some (File d) =>
      clean_action w
      = (Raise (OSError "Cannot remove tree: build"),
         printed [status_busy_text "Removing build/"] w)
  | Some (Dir es) =>
      exists f,
        clean_action w
        = (Return tt,
           printed [line (status_success_text "Removed build/")]
             (with_fs f (printed [status_busy_text "Removing build/"] w)))
        /\ FS.lookup f (cwd w ++ ["build"]) = None
        /\ forall c q, c <> "build"%string ->
             FS.lookup f (cwd w ++ c :: q) = FS.lookup (fs w) (cwd w ++ c :: q)
  end.
Proof.
  unfold clean_action, OS.exists_. rewrite bind_get.
  destruct (OS.stat w "build") as [[d|es]|] eqn:Hs; [| | reflexivity].
  - unfold print_status_busy. rewrite bind_write.
    rewrite (bind_raise _ _ _ _ _
               (rmtree_file "build" (printed [status_busy_text "Removing build/"] w) d Hs)).
    reflexivity.
  - unfold print_status_busy. rewrite bind_write.
    destruct (rmtree_dir "build" (printed [status_busy_text "Removing build/"] w) es)
      as [f [Hr [Hgone Hframe]]]; [reflexivity | cbn; lia | exact Hs |].
    exists f. rewrite (bind_return _ _ _ _ _ Hr). auto.
Qed.

(** X11. [clean_action] by what [build] is.  When there is no [build], it
    prints that there is nothing to clean and does nothing else.  When
    [build] is a directory, it is removed with all it holds, and nothing
    beside it in the project directory changes.  When [build] is a regular
    file, [shutil.rmtree] refuses it: an [OSError] leaves the action and
    the file stays. *)
Theorem clean_action_spec w :
  (OS.stat w "build" = None ->
   clean_action w = (Return tt, printed [line "Nothing to clean"] w))
  /\ (forall d,
        OS.stat w "build" = Some (File d) ->
        exists text,
          clean_action w
          = (Raise (OSError text), printed [status_busy_text "Removing build/"] w))
  /\ (forall es,
        OS.stat w "build" = Some (Dir es) ->
        exists f,
          clean_action w
          = (Return tt,
             printed [line (status_success_text "Removed build/")]
               (with_fs f (printed [status_busy_text "Removing build/"] w)))
          /\ FS.lookup f (cwd w ++ ["build"]) = None
          /\ forall c q, c <> "build"%string ->
               FS.lookup f (cwd w ++ c :: q) = FS.lookup (fs w) (cwd w ++ c :: q)).
Proof.
  pose proof (clean_action_cases w) as Hc.
  split; [| split].
  - intros Hs. now rewrite Hs in Hc.
  - intros d Hs. rewrite Hs in Hc. eauto.
  - intros es Hs. now rewrite Hs in Hc.
Qed.

Lemma clean_action_returned w w' :
  clean_action w = (Return tt, w') -> OS.stat w' "build" = None.
Proof.
  pose proof (clean_action_cases w) as Hc.
  destruct (OS.stat w "build") as [[d|es]|] eqn:Hs.
  - rewrite Hc. discriminate.
  - destruct Hc as [f [-> [Hgone _]]]. intros [= <-].
    unfold OS.stat. cbn [fs cwd with_fs printed with_stdout].
    rewrite resolve_plain by (reflexivity || (cbn; lia)). exact Hgone.
  - rewrite Hc. intros [= <-]. exact Hs.
Qed.

(** X12. After a [clean_action] that returned, no platform has an ELF
    artifact: [find_elf_file] answers [None] for every platform identifier
    without a path separator, so the next [build_all] takes the first-build
    path for each of them; and a second [clean_action] finds nothing to
    clean. *)
Theorem clean_action_leaves_no_artifact w w' :
  clean_action w = (Return tt, w') ->
  (forall p, plain p -> find_elf_file p w' = (Return None, w'))
  /\ (forall E v p skip,
        plain p -> build_platform E v p skip w' = build_first E v p skip w')
  /\ clean_action w' = (Return tt, printed [line "Nothing to clean"] w').
Proof.
  intros Hc. apply clean_action_returned in Hc.
  assert (Hfind : forall p, plain p -> find_elf_file p w' = (Return None, w')).
  { intros p Hp. unfold find_elf_file, OS.exists_, get_cmake_path. cbv zeta.
    rewrite bind_get.
    rewrite (stat_below_missing w' "build" ("cmake-build-" ++ p)); try reflexivity;
      try (cbn; lia); assumption. }
  split; [exact Hfind |]. split.
  - intros E v p skip Hp. unfold build_platform.
    now rewrite (bind_return _ _ _ _ _ (Hfind p Hp)).
  - pose proof (clean_action_cases w') as Hn. now rewrite Hc in Hn.
Qed.

Lemma clear_cache_action_cases w :
  match OS.stat w ttbuild_path with
  | None => clear_cache_action w = (Return tt, printed [line "Nothing to clear"] w)
  | Some (File d) =>
      clear_cache_action w
      = (Raise (OSError "Cannot remove tree: .tactility"),
         printed [status_busy_text "Removing .tactility/"] w)
  | Some (Dir es) =>
      exists f,
        clear_cache_action w
        = (Return tt,
           printed [line (status_success_text "Removed .tactility/")]
             (with_fs f (printed [status_busy_text "Removing .tactility/"] w)))
        /\ FS.lookup f (cwd w ++ [ttbuild_path]) = None
        /\ forall c q, c <> ttbuild_path ->
             FS.lookup f (cwd w ++ c :: q) = FS.lookup (fs w) (cwd w ++ c :: q)
  end.
Proof.
  unfold clear_cache_action, OS.exists_. rewrite bind_get.
  destruct (OS.stat w ttbuild_path) as [[d|es]|] eqn:Hs; [| | reflexivity].
  - unfold print_status_busy. rewrite bind_write.
    rewrite (bind_raise _ _ _ _ _
               (rmtree_file ttbuild_path
                  (printed [status_busy_text ("Removing " ++ ttbuild_path ++ "/")] w) d Hs)).
    reflexivity.
  - unfold print_status_busy. rewrite bind_write.
    destruct (rmtree_dir ttbuild_path
                (printed [status_busy_text ("Removing " ++ ttbuild_path ++ "/")] w) es)
      as [f [Hr [Hgone Hframe]]]; [reflexivity | cbn; lia | exact Hs |].
    exists f. rewrite (bind_return _ _ _ _ _ Hr). auto.
Qed.

Lemma clear_cache_action_returned w w' :
  clear_cache_action w = (Return tt, w') ->
  OS.stat w' ttbuild_path = None /\ use_local_sdk w' = use_local_sdk w.
Proof.
  pose proof (clear_cache_action_cases w) as Hc.
  destruct (OS.stat w ttbuild_path) as [[d|es]|] eqn:Hs.
  - rewrite Hc. discriminate.
  - destruct Hc as [f [-> [Hgone _]]]. intros [= <-]. split; [| reflexivity].
    unfold OS.stat. cbn [fs cwd with_fs printed with_stdout].
    rewrite resolve_plain by (reflexivity || (cbn; lia)). exact Hgone.
  - rewrite Hc. intros [= <-]. now split.
Qed.

Lemma dashed_component v p :
  ((v ++ "-" ++ p =? "") || (v ++ "-" ++ p =? "."))%string = false
  /\ (v ++ "-" ++ p =? "..")%string = false.
Proof.
  assert (Hd : Str.has_char "-" (v ++ "-" ++ p)%string = true).
  { rewrite has_char_app. cbn. now rewrite orb_true_r. }
  split.
  - apply orb_false_intro; apply String.eqb_neq; intros He; rewrite He in Hd; discriminate.
  - apply String.eqb_neq; intros He; rewrite He in Hd; discriminate.
Qed.

Lemma json_load_missing path w :
  OS.stat w path = None ->
  json_load path w = (Raise (OSError ("No such file or directory: " ++ path)%string), w).
Proof. intros Hs. unfold json_load, OS.read_file, bind. now rewrite Hs. Qed.

(** X13. After a [clear_cache_action] that returned, the cache is empty for
    what comes next: without [--local-sdk] no SDK is found
    ([sdk_exists] answers [False] for every version and platform written
    without a path separator), the platform configurations are to be
    fetched again, [tool.json] is gone, so that [read_sdk_json] raises an
    [OSError], and a second [clear_cache_action] finds nothing to clear. *)
Theorem clear_cache_action_empties_cache w w' :
  clear_cache_action w = (Return tt, w') ->
  (use_local_sdk w = false ->
   forall v p, plain v -> plain p -> sdk_exists v p w' = (Return false, w'))
  /\ (forall p ps, plain p -> should_fetch_sdkconfig_files (p :: ps) w' = (Return true, w'))
  /\ (exists text, read_sdk_json w' = (Raise (OSError text), w'))
  /\ clear_cache_action w' = (Return tt, printed [line "Nothing to clear"] w').
Proof.
  intros Hc. apply clear_cache_action_returned in Hc as [Hgone Hlocal].
  split; [| split; [| split]].
  - intros Hl v p Hv Hp. unfold sdk_exists, get_sdk_dir.
    rewrite bind_assoc, bind_get, Hlocal, Hl, bind_ret. unfold OS.isdir, get, Path.join3.
    destruct (dashed_component v p) as [H1 H2].
    rewrite (stat_below_missing2 w' ttbuild_path (v ++ "-" ++ p) "TactilitySDK");
      try reflexivity; try (cbn; lia); try assumption.
    rewrite !has_char_app. unfold plain in Hv, Hp. now rewrite Hv, Hp.
  - intros p ps Hp. rewrite should_fetch_eq. cbn [existsb]. unfold sdkconfig_path.
    rewrite (stat_below_missing w' ttbuild_path ("sdkconfig.app." ++ p));
      try reflexivity; try (cbn; lia); assumption.
  - eexists. unfold read_sdk_json. apply json_load_missing.
    apply (stat_below_missing w' ttbuild_path "tool.json"); try reflexivity;
      try (cbn; lia); assumption.
  - pose proof (clear_cache_action_cases w') as Hn. now rewrite Hgone in Hn.
Qed.

End Cleaning.

(** ** Updating the tool *)



(** ** The device actions *)

Lemma do_request_cases method answer url params w :
  do_request method answer url params w
  = match answer w url params with
    | Response status_code => (Return status_code, after_request method url w)
    | RequestRaise e => (Raise e, after_request method url w)
    end.
Proof. unfold do_request. now destruct (answer w url params). Qed.

(** X15. [run_action] and [uninstall_action], for a manifest that has the
    application id: each hands exactly one request to the device, a [POST]
    to [/app/run] or a [PUT] to [/app/uninstall] on port 6666, and leaves
    the file system alone.  A [requests.RequestException] never leaves
    them; the only exception that does is one the request raised that is
    not a [RequestException]. *)
Theorem device_actions_contain_request_errors H manifest ip app_id w :
  Config.lookup manifest "app" "id" w = (Return app_id, w) ->
  (requested (snd (run_action H manifest ip w))
   = (requested w ++ [("POST", get_url ip "/app/run")])%list
   /\ fs (snd (run_action H manifest ip w)) = fs w
   /\ forall e w',
        run_action H manifest ip w = (Raise e, w') ->
        is_RequestException e = false
        /\ requests_post H (printed [status_busy_text "Running"] w)
             (get_url ip "/app/run") [("id", app_id)] = RequestRaise e)
  /\ (requested (snd (uninstall_action H manifest ip w))
      = (requested w ++ [("PUT", get_url ip "/app/uninstall")])%list
      /\ fs (snd (uninstall_action H manifest ip w)) = fs w
      /\ forall e w',
           uninstall_action H manifest ip w = (Raise e, w') ->
           is_RequestException e = false
           /\ requests_put_params H (printed [status_busy_text "Uninstalling"] w)
                (get_url ip "/app/uninstall") [("id", app_id)] = RequestRaise e).
Proof.
  intros Hl. split.
  - unfold run_action. rewrite (bind_return _ _ _ _ _ Hl).
    unfold print_status_busy. rewrite bind_write. cbv zeta. unfold try_except, bind.
    rewrite do_request_cases.
    destruct (requests_post H _ _ _) as [status|e].
    + destruct (negb (status =? 200)%Z); cbn [snd];
        (split; [reflexivity | split; [reflexivity | discriminate]]).
    + destruct (is_RequestException e) eqn:He; cbn [snd];
        (split; [reflexivity | split; [reflexivity |]]); [discriminate |].
      intros e' w' [= <- <-]. now split.
  - unfold uninstall_action. rewrite (bind_return _ _ _ _ _ Hl).
    unfold print_status_busy. rewrite bind_write. cbv zeta. unfold try_except, bind.
    rewrite do_request_cases.
    destruct (requests_put_params H _ _ _) as [status|e].
    + destruct (negb (status =? 200)%Z); cbn [snd];
        (split; [reflexivity | split; [reflexivity | discriminate]]).
    + destruct (is_RequestException e) eqn:He; cbn [snd];
        (split; [reflexivity | split; [reflexivity |]]); [discriminate |].
      intros e' w' [= <- <-]. now split.
Qed.

(** ** What the actions never do *)

(** X16. [install_action] only reads and sends: whatever the device
    answers, it leaves the file system, the environment, the list of CDN
    connections and the list of spawned commands as they were. *)
Theorem install_action_only_sends E ip ps w :
  fs (snd (install_action E ip ps w)) = fs w
  /\ environ (snd (install_action E ip ps w)) = environ w
  /\ fetched (snd (install_action E ip ps w)) = fetched w
  /\ spawned (snd (install_action E ip ps w)) = spawned w.
Proof.
  repeat split; apply (keeps_install_action _ E); reflexivity.
Qed.

(** X17. Building and packaging work offline and never reach the device:
    [build_all] and [package_all] open no connection and send no request;
    [package_all] moreover spawns no command and leaves the environment
    as it was. *)
Theorem build_and_package_stay_local E v ps skip w :
  (fetched (snd (build_all E v ps skip w)) = fetched w
   /\ requested (snd (build_all E v ps skip w)) = requested w)
  /\ (fetched (snd (package_all ps w)) = fetched w
      /\ requested (snd (package_all ps w)) = requested w
      /\ spawned (snd (package_all ps w)) = spawned w
      /\ environ (snd (package_all ps w)) = environ w).
Proof.
  split; [split | repeat split].
  1,2: apply (keeps_build_all _ E); reflexivity.
  all: apply keeps_package_all; reflexivity.
Qed.

(** X18. With [--skip-build], [build_action] spawns no command, whatever
    the manifest, the requested platform and the state of the project; it
    never sends a request to the device either. *)
Theorem build_action_skip_build_spawns_nothing E H manifest platform_arg w :
  spawned (snd (build_action E H manifest platform_arg true w)) = spawned w
  /\ requested (snd (build_action E H manifest platform_arg true w)) = requested w.
Proof.
  split; apply (keeps_build_action_skipped _ E H); reflexivity.
Qed.

(** ** A build from a local SDK *)

Lemma get_manifest_target_platforms_const manifest requested :
  exists r, forall w,
    fst (get_manifest_target_platforms manifest requested w) = r
    /\ (forall ps, r = Return ps ->
        get_manifest_target_platforms manifest requested w = (Return ps, w)).
Proof.
  destruct (lookup_const manifest "target" "platforms") as [r Hl].
  assert (Hm : forall w, manifest_platforms manifest w
                         = (match r with
                            | Return value => Return (Str.split "," value)
                            | Raise e => Raise e
                            end, w)).
  { intros w. unfold manifest_platforms, bind. rewrite Hl. now destruct r. }
  unfold get_manifest_target_platforms.
  destruct requested as [platform|].
  2: { eexists. intros w. rewrite Hm. cbn [fst]. split; [reflexivity |].
       intros ps Hr. now rewrite Hr. }
  destruct (platform =? "").
  { eexists. intros w. rewrite Hm. cbn [fst]. split; [reflexivity |].
    intros ps Hr. now rewrite Hr. }
  unfold validate_manifest_platform, is_valid_manifest_platform.
  destruct r as [value|e].
  - destruct (mem platform (Str.split "," value)) eqn:Hv.
    + exists (Return [platform]). intros w.
      rewrite !bind_assoc, (bind_return _ _ _ _ _ (Hm w)), bind_ret, Hv.
      split; [reflexivity |]. now intros ps [= <-].
    + exists (Raise (SystemExit 1)). intros w.
      rewrite !bind_assoc, (bind_return _ _ _ _ _ (Hm w)), bind_ret, Hv.
      split; [reflexivity | discriminate].
  - exists (Raise e). intros w.
    rewrite !bind_assoc, (bind_raise _ _ _ _ _ (Hm w)). split; [reflexivity | discriminate].
Qed.

Lemma snd_bind {X A B} (f : world -> X) (m : M A) (k : A -> M B) w :
  f (snd (m w)) = f w ->
  (forall a w1, m w = (Return a, w1) -> f (snd (k a w1)) = f w) ->
  f (snd (bind m k w)) = f w.
Proof.
  intros Hm Hk. unfold bind. destruct (m w) as [[a|e] w1]; [now apply Hk | exact Hm].
Qed.

Lemma existsb_pointwise {A} (f g : A -> bool) l :
  (forall a, f a = g a) -> existsb f l = existsb g l.
Proof. intros Hfg. induction l as [|a l IH]; cbn [existsb]; [reflexivity | now rewrite Hfg, IH]. Qed.

Lemma should_fetch_standing ps w w' :
  fs w' = fs w -> cwd w' = cwd w ->
  should_fetch_sdkconfig_files ps w = (Return false, w) ->
  should_fetch_sdkconfig_files ps w' = (Return false, w').
Proof.
  intros Hfs Hcwd. rewrite !should_fetch_eq. intros [= He].
  f_equal. f_equal. rewrite <- He. apply existsb_pointwise.
  intros p. now rewrite (stat_same _ _ _ Hfs Hcwd).
Qed.

(** X19. A build from a local SDK works offline.  With [--local-sdk] on and
    the configuration of every platform to build on disk, [build_action]
    opens no connection at all: [tool.json] is not read, [validate_self]
    is not run and no SDK is downloaded. *)
Theorem build_action_local_sdk_offline E H manifest platform_arg skip w :
  use_local_sdk w = true ->
  (forall ps,
      fst (get_manifest_target_platforms manifest platform_arg w) = Return ps ->
      should_fetch_sdkconfig_files ps w = (Return false, w)) ->
  fetched (snd (build_action E H manifest platform_arg skip w)) = fetched w.
Proof.
  intros Hlocal Hconfig.
  assert (Hgoal : standing (snd (build_action E H manifest platform_arg skip w))
                  = standing w
                  \/ fetched (snd (build_action E H manifest platform_arg skip w))
                     = fetched w).
  2: { destruct Hgoal as [Hs|Hf]; [| exact Hf]. unfold standing in Hs. congruence. }
  unfold build_action.
  pose proof (keeps_validate_environment standing H
                (fun _ _ => eq_refl) w) as H0.
  destruct (validate_environment H w) as [[[]|e0] w0] eqn:Hv; cbn [snd] in H0;
    [rewrite (bind_return _ _ _ _ _ Hv) | rewrite (bind_raise _ _ _ _ _ Hv); now left].
  destruct (get_manifest_target_platforms_const manifest platform_arg) as [r Hr].
  destruct (Hr w) as [Hrw Hps]. destruct (Hr w0) as [Hr0 Hps0].
  destruct r as [ps|e1].
  2: { left.
       pose proof (keeps_get_manifest_target_platforms standing (fun _ _ => eq_refl)
                     manifest platform_arg w0) as H1.
       destruct (get_manifest_target_platforms manifest platform_arg w0)
         as [[ps|e] w1] eqn:Hg; cbn [fst snd] in *; [discriminate |].
       rewrite (bind_raise _ _ _ _ _ Hg). cbn [snd]. congruence. }
  rewrite (bind_return _ _ _ _ _ (Hps0 ps eq_refl)).
  specialize (Hconfig ps Hrw).
  assert (Hl0 : use_local_sdk w0 = true) by (unfold standing in H0; congruence).
  rewrite bind_get, Hl0. cbv beta iota delta [when].
  rewrite bind_assoc. unfold environ_get. rewrite bind_get, bind_assoc, bind_modify.
  set (w1 := with_local_base_path (FS.assoc "TACTILITY_SDK_PATH" (environ w0)) w0).
  assert (H1 : standing w1 = standing w) by exact H0.
  rewrite bind_assoc.
  destruct (lookup_const manifest "target" "sdk") as [rs Hsdk].
  destruct rs as [sdk|e2].
  2: { left. rewrite (bind_raise _ _ _ _ _ (Hsdk w1)). exact H1. }
  rewrite (bind_return _ _ _ _ _ (Hsdk w1)).
  pose proof (keeps_validate_local_sdks standing (fun _ _ => eq_refl) ps sdk w1) as H2.
  rewrite H1 in H2.
  destruct (validate_local_sdks ps sdk w1) as [[[]|e3] w2] eqn:Hvl; cbn [snd] in H2;
    [rewrite (bind_return _ _ _ _ _ Hvl) | rewrite (bind_raise _ _ _ _ _ Hvl); now left].
  assert (Hfetch : should_fetch_sdkconfig_files ps w2 = (Return false, w2)).
  { apply (should_fetch_standing ps w w2); unfold standing in H2; congruence. }
  rewrite (bind_return _ _ _ _ _ Hfetch), bind_ret.
  assert (Hl2 : use_local_sdk w2 = true) by (unfold standing in H2; congruence).
  rewrite bind_get, Hl2. cbn [negb]. rewrite bind_ret.
  rewrite (bind_return _ _ _ _ _ (Hsdk w2)), bind_get, Hl2. cbn [negb]. rewrite bind_ret.
  right. transitivity (fetched w2); [| unfold standing in H2; congruence].
  apply (keeps_bind fetched).
  - apply (keeps_build_all _ E); reflexivity.
  - intros ok. destruct (negb ok); [apply keeps_ret |].
    destruct (negb skip); [| apply keeps_ret].
    apply keeps_bind; [apply keeps_package_all; reflexivity |].
    intros ok2. destruct (negb ok2); apply keeps_ret.
Qed.

(** ** The command line *)

Lemma print_help_after {B} (k : unit -> M B) w :
  bind print_help k w = k tt (printed (map line help_lines) w).
Proof. unfold print_help. apply bind_print_lines. Qed.

(** X20. The usage paths of the script.  With [--help] anywhere on the
    command line the script prints its banner and the usage text and
    leaves with status 0, whatever else was asked; with no argument at all
    it prints the same and leaves with status 1.  In both cases nothing
    else happens: no directory is made, no manifest is read. *)
Theorem main_usage E H C argv w :
  (mem "--help" argv = true ->
   main E H C argv w
   = (Raise (SystemExit 0), printed (line banner :: map line help_lines) w))
  /\ (mem "--help" argv = false -> List.length argv = 1 ->
      main E H C argv w
      = (Raise (SystemExit 1), printed (line banner :: map line help_lines) w)).
Proof.
  unfold main. rewrite bind_print. split.
  - intros ->. unfold when. rewrite !bind_assoc, print_help_after.
    unfold raise, bind. now rewrite printed_printed.
  - intros -> ->. rewrite bind_when_false. cbn [Nat.eqb]. unfold when.
    rewrite !bind_assoc, print_help_after. unfold raise, bind. now rewrite printed_printed.
Qed.

Lemma mem_false_filter x l :
  mem x l = false -> filter (fun y => negb (y =? x)) l = l.
Proof.
  unfold mem. induction l as [|h t IH]; [reflexivity |].
  cbn [existsb filter]. intros Hm. apply orb_false_elim in Hm as [Hh Ht].
  rewrite String.eqb_sym, Hh. cbn [negb]. now rewrite (IH Ht).
Qed.

Lemma remove_filter x l :
  NoDup l ->
  (if mem x l then list_remove x l else l) = filter (fun y => negb (y =? x)) l.
Proof.
  induction l as [|h t IH]; [reflexivity |]. intros Hnd.
  inversion Hnd as [|? ? Hnot Hnd']; subst.
  unfold mem in *. cbn [existsb list_remove filter].
  destruct (x =? h) eqn:Hx.
  - apply String.eqb_eq in Hx. subst h. rewrite String.eqb_refl. cbn [orb negb].
    symmetry. apply mem_false_filter. unfold mem.
    destruct (existsb (String.eqb x) t) eqn:He; [| reflexivity].
    apply existsb_exists in He as [y [Hin Hy]]. apply String.eqb_eq in Hy. now subst.
  - rewrite String.eqb_sym, Hx. cbn [orb negb]. rewrite <- (IH Hnd').
    now destruct (existsb (String.eqb x) t).
Qed.

Lemma NoDup_filter_str (f : string -> bool) l : NoDup l -> NoDup (filter f l).
Proof.
  induction 1 as [|h t Hnot Hnd IH]; cbn [filter]; [constructor |].
  destruct (f h); [| exact IH]. constructor; [| exact IH].
  intros Hin. apply filter_In in Hin. tauto.
Qed.

Lemma strip_flags prog flags :
  ~ In prog option_flags -> NoDup flags -> incl flags option_flags ->
  filter (fun y => negb (y =? "--local-sdk"))
    (filter (fun y => negb (y =? "--skip-build"))
       (filter (fun y => negb (y =? "--verbose")) (prog :: flags)))
  = [prog].
Proof.
  intros Hprog _ Hincl. unfold option_flags in *. cbn [In] in Hprog.
  assert (Hp : forall x, In x ["--verbose"; "--skip-build"; "--local-sdk"] ->
                         (prog =? x) = false).
  { intros x Hx. apply String.eqb_neq. intros ->. cbn [In] in Hx. tauto. }
  cbn [filter].
  rewrite !Hp by (cbn [In]; tauto). cbn [negb filter].
  rewrite !Hp by (cbn [In]; tauto). cbn [negb filter].
  rewrite !Hp by (cbn [In]; tauto). cbn [negb]. f_equal.
  induction flags as [|h t IH]; [reflexivity |].
  assert (Hh : In h ["--verbose"; "--skip-build"; "--local-sdk"])
    by (apply Hincl; now left).
  assert (Ht : incl t ["--verbose"; "--skip-build"; "--local-sdk"])
    by (intros y Hy; apply Hincl; now right).
  cbn [In] in Hh. destruct Hh as [<-|[<-|[<-|[]]]]; cbn; exact (IH Ht).
Qed.

(** X21. A command line that holds options only has no action to take:
    when the arguments after the script name are some of [--verbose],
    [--skip-build] and [--local-sdk], each at most once, the script removes
    them and then fails on [sys.argv[1]] with an [IndexError], instead of
    printing the usage text.  Nothing was done before that but the banner
    and the setting of the flags. *)
Theorem main_options_only E H C prog flags w :
  ~ In prog ("--help" :: option_flags) ->
  flags <> [] -> NoDup flags -> incl flags option_flags ->
  exists w',
    main E H C (prog :: flags) w = (Raise (IndexError "list index out of range"), w')
    /\ fs w' = fs w
    /\ stdout w' = (stdout w ++ [line banner])%list
    /\ fetched w' = fetched w.
Proof.
  intros Hprog Hne Hnd Hincl.
  assert (Hprog' : ~ In prog option_flags) by (intros Hin; apply Hprog; now right).
  assert (Hnd0 : NoDup (prog :: flags)).
  { constructor; [| exact Hnd]. intros Hin. apply Hprog'. now apply Hincl. }
  assert (Hhelp : mem "--help" (prog :: flags) = false).
  { unfold mem. destruct (existsb _ _) eqn:He; [| reflexivity].
    apply existsb_exists in He as [y [Hin Hy]]. apply String.eqb_eq in Hy. subst y.
    destruct Hin as [Heq|Hin]; [exfalso; apply Hprog; left; now symmetry |].
    apply Hincl in Hin. unfold option_flags in Hin. cbn [In] in Hin.
    destruct Hin as [Hin|[Hin|[Hin|[]]]]; discriminate. }
  unfold main. rewrite bind_print, Hhelp, bind_when_false.
  assert (Hlen : (List.length (prog :: flags) =? 1)%nat = false)
    by (destruct flags; [contradiction | reflexivity]).
  rewrite Hlen, bind_when_false. cbv zeta.
  rewrite (remove_filter "--verbose" (prog :: flags) Hnd0).
  rewrite (remove_filter "--skip-build" _ (NoDup_filter_str _ _ Hnd0)).
  rewrite (remove_filter "--local-sdk" _ (NoDup_filter_str _ _ (NoDup_filter_str _ _ Hnd0))).
  rewrite (strip_flags prog flags Hprog' Hnd Hincl).
  destruct (mem "--verbose" (prog :: flags)), (mem "--local-sdk" _);
    (eexists; split; [reflexivity | repeat split]).
Qed.

Lemma setup_environment_beside w w1 name :
  Str.has_char Path.sep_char name = false -> 3 <= String.length name ->
  name <> ttbuild_path ->
  setup_environment w = (Return tt, w1) ->
  OS.stat w1 name = OS.stat w name.
Proof.
  intros Hn Hln Hne. unfold setup_environment. rewrite makedirs_cases.
  change (ttbuild_path =? "") with false. cbv iota.
  rewrite resolve_plain by (reflexivity || (cbn; lia)).
  destruct (FS.makedirs _ (fs w)) as [f|] eqn:Hm; [| discriminate].
  intros [= <-]. unfold OS.stat. cbn [fs cwd with_fs].
  destruct (name =? ""); [reflexivity |].
  rewrite resolve_plain by assumption.
  eapply (makedirs_frame (cwd w) ttbuild_path name [] []); [congruence | exact Hm].
Qed.

(** X22. Every action needs the manifest, also those that do not use it.
    On a command line without options whose action is any word at all
    ([clean], [clearcache] and [updateself] included), when
    [manifest.properties] is not a regular file of the working directory
    the script exits with status 1 after one error line; by then it has
    made the cache directory [.tactility], and it has done nothing
    else. *)
Theorem main_needs_manifest E H C argv action w w1 :
  mem "--help" argv = false ->
  mem "--verbose" argv = false ->
  mem "--skip-build" argv = false ->
  mem "--local-sdk" argv = false ->
  nth_error argv 1 = Some action ->
  (forall d, OS.stat w "manifest.properties" <> Some (File d)) ->
  setup_environment w = (Return tt, w1) ->
  main E H C argv w
  = (Raise (SystemExit 1),
     printed [line (error_text "manifest.properties not found")]
       (with_fs (fs w1) (printed [line banner] w))).
Proof.
  intros Hhelp Hv Hs Hl Hact Hman Hsetup.
  unfold main. rewrite bind_print, Hhelp, bind_when_false.
  assert (Hlen : (List.length argv =? 1)%nat = false)
    by (destruct argv as [|a [|b t]]; try discriminate; reflexivity).
  rewrite Hlen, bind_when_false. cbv zeta. rewrite Hv, Hs, Hl.
  rewrite !bind_when_false. unfold argv_get. rewrite Hact, bind_ret.
  assert (Hsetup' : setup_environment (printed [line banner] w)
                    = (Return tt, with_fs (fs w1) (printed [line banner] w))).
  { revert Hsetup. unfold setup_environment. rewrite !makedirs_cases.
    destruct (ttbuild_path =? ""); [discriminate |]. cbn [fs cwd printed with_stdout].
    destruct (FS.makedirs _ (fs w)); [| discriminate]. now intros [= <-]. }
  rewrite (bind_return _ _ _ _ _ Hsetup'). unfold OS.isfile. rewrite bind_get.
  assert (Hstat : OS.stat (with_fs (fs w1) (printed [line banner] w)) "manifest.properties"
                  = OS.stat w "manifest.properties").
  { rewrite <- (setup_environment_beside w w1 "manifest.properties");
      try reflexivity; try (cbn; lia); try discriminate; try assumption.
    unfold OS.stat. cbn [fs cwd with_fs printed with_stdout].
    revert Hsetup. unfold setup_environment. rewrite makedirs_cases.
    destruct (ttbuild_path =? ""); [discriminate |].
    destruct (FS.makedirs _ (fs w)); [| discriminate]. now intros [= <-]. }
  rewrite Hstat.
  destruct (OS.stat w "manifest.properties") as [[d|es]|] eqn:Hm;
    [now specialize (Hman d) | reflexivity | reflexivity].
Qed.

Lemma validated_everywhere manifest w :
  fst (validate_manifest manifest w) = Return tt ->
  (forall w2, validate_manifest manifest w2 = (Return tt, w2))
  /\ exists ps, forall w2, manifest_platforms manifest w2 = (Return ps, w2).
Proof.
  rewrite validate_manifest_eq. intros Hr.
  destruct (find _ manifest_checks) as [check|] eqn:Hf; [discriminate |].
  split; [intros w2; now rewrite validate_manifest_eq, Hf |].
  pose proof (find_none _ _ Hf) as Hall.
  assert (Ho : Config.has_option manifest "target" "platforms" = true).
  { specialize (Hall ("target", Some "platforms")). cbn [check_holds] in Hall.
    apply negb_false_iff, Hall. unfold manifest_checks. cbn [In]. tauto. }
  destruct (lookup_has_option manifest "target" "platforms" Ho eq_refl) as [value Hv].
  exists (Str.split "," value). intros w2. unfold manifest_platforms.
  now rewrite (bind_return _ _ _ _ _ (Hv w2)).
Qed.

Lemma setup_environment_printed w w1 lines :
  setup_environment w = (Return tt, w1) ->
  setup_environment (printed lines w) = (Return tt, with_fs (fs w1) (printed lines w)).
Proof.
  unfold setup_environment. rewrite !makedirs_cases.
  destruct (ttbuild_path =? ""); [discriminate |]. cbn [fs cwd printed with_stdout].
  destruct (FS.makedirs _ (fs w)); [| discriminate]. now intros [= <-].
Qed.

Lemma setup_environment_world w w1 :
  setup_environment w = (Return tt, w1) -> w1 = with_fs (fs w1) w.
Proof.
  unfold setup_environment. rewrite makedirs_cases.
  destruct (ttbuild_path =? ""); [discriminate |].
  destruct (FS.makedirs _ (fs w)); [| discriminate]. now intros [= <-].
Qed.

(** X23. Every action needs a fresh [tool.json] unless [--local-sdk] is
    given, also those that do not use it.  On a command line without
    options, with a valid manifest, when the cache holds no [tool.json]
    and the CDN cannot be reached, the script exits with status 1 after the
    line [Failed to retrieve SDK info], whatever the action is ([clean]
    included): the action is not started.  One connection was attempted,
    to [<cdn>/sdk/tool.json]. *)
Theorem main_needs_tool_json E H C argv action w w1 d manifest text :
  mem "--help" argv = false ->
  mem "--verbose" argv = false ->
  mem "--skip-build" argv = false ->
  mem "--local-sdk" argv = false ->
  nth_error argv 1 = Some action ->
  use_local_sdk w = false ->
  setup_environment w = (Return tt, w1) ->
  OS.stat w "manifest.properties" = Some (File d) ->
  config_parse H d = Parsed manifest ->
  fst (validate_manifest manifest w) = Return tt ->
  OS.stat w1 tool_json_path = None ->
  (forall w0, urlopen E w0 tool_json_url = FetchRaise (OSError text)) ->
  exists w',
    main E H C argv w = (Raise (SystemExit 1), w')
    /\ fs w' = fs w1
    /\ fetched w' = (fetched w ++ [tool_json_url])%list
    /\ spawned w' = spawned w
    /\ exists before,
         stdout w' = (before ++ [line (error_text "Failed to retrieve SDK info")])%list.
Proof.
  intros Hhelp Hv Hs Hl Hact Hlocal Hsetup Hman Hparse Hvalid Htool Hcdn.
  unfold main. rewrite bind_print, Hhelp, bind_when_false.
  assert (Hlen : (List.length argv =? 1)%nat = false)
    by (destruct argv as [|a [|b t]]; try discriminate; reflexivity).
  rewrite Hlen, bind_when_false. cbv zeta. rewrite Hv, Hs, Hl.
  rewrite !bind_when_false. unfold argv_get. rewrite Hact, bind_ret.
  rewrite (bind_return _ _ _ _ _ (setup_environment_printed _ _ [line banner] Hsetup)).
  set (w2 := with_fs (fs w1) (printed [line banner] w)).
  assert (Hstat : forall p, OS.stat w2 p = OS.stat w1 p).
  { intros p. apply stat_same; [reflexivity |].
    rewrite (setup_environment_world _ _ Hsetup). reflexivity. }
  unfold OS.isfile. rewrite bind_get, Hstat.
  rewrite (setup_environment_beside w w1 "manifest.properties");
    try reflexivity; try (cbn; lia); try discriminate; try assumption.
  rewrite Hman. cbn [negb]. rewrite bind_when_false.
  assert (Hread : read_manifest H w2 = (Return manifest, w2)).
  { unfold read_manifest, read_properties_file. rewrite Hstat.
    rewrite (setup_environment_beside w w1 "manifest.properties");
      try reflexivity; try (cbn; lia); try discriminate; try assumption.
    now rewrite Hman, Hparse. }
  rewrite (bind_return _ _ _ _ _ Hread).
  destruct (validated_everywhere _ _ Hvalid) as [Hval [ps Hps]].
  rewrite (bind_return _ _ _ _ _ (Hval w2)), (bind_return _ _ _ _ _ (Hps w2)).
  rewrite bind_get. change (use_local_sdk w2) with (use_local_sdk w). rewrite Hlocal.
  cbn [negb]. unfold should_update_tool_json at 1. cbv zeta. unfold OS.exists_.
  fold tool_json_path. rewrite bind_assoc, bind_get, Hstat, Htool, bind_ret.
  unfold update_tool_json. cbv zeta. fold tool_json_url. fold tool_json_path.
  pose proof (download_file_cases E tool_json_url tool_json_path w2) as Hd.
  cbv zeta in Hd. change (urlparse_scheme tool_json_url) with "https" in Hd.
  cbn [String.eqb Ascii.eqb Bool.eqb orb andb negb] in Hd.
  rewrite Hcdn in Hd. cbn [is_OSError] in Hd.
  rewrite bind_assoc, (bind_return _ _ _ _ _ Hd), bind_ret. cbn [negb].
  unfold download_world, announced.
  destruct (verbose w2);
    (eexists; split; [reflexivity |]; repeat (split; [reflexivity |]);
     eexists; reflexivity).
Qed.

(** ** Artifacts *)

Lemma find_split {A} (f : A -> bool) l x :
  find f l = Some x ->
  exists before rest,
    l = (before ++ x :: rest)%list /\ Forall (fun y => f y = false) before /\ f x = true.
Proof.
  induction l as [|a l IH]; [discriminate |]. cbn [find].
  destruct (f a) eqn:Ha.
  - intros [= ->]. exists [], l. auto.
  - intros Hf. destruct (IH Hf) as [before [rest [-> [Hb Hx]]]].
    exists (a :: before), rest. auto.
Qed.

(** X24. What [find_elf_file] answers.  A path it returns is an entry of
    the platform's build directory whose name ends in [.app.elf], the first
    one in listing order; the entry may be of any kind, a directory of
    that name is taken too.  [None] means that the build directory is
    missing or lists no such name.  When the build directory is a regular
    file, [os.listdir] raises an [OSError].  The world is never changed. *)
Theorem find_elf_file_spec p w r w' :
  find_elf_file p w = (r, w') ->
  w' = w
  /\ match r with
     | Return (Some path) =>
         exists es before file rest,
           OS.stat w (get_cmake_path p) = Some (Dir es)
           /\ map fst es = (before ++ file :: rest)%list
           /\ Forall (fun name => Str.endswith name ".app.elf" = false) before
           /\ Str.endswith file ".app.elf" = true
           /\ path = Path.join (get_cmake_path p) file
     | Return None =>
         OS.stat w (get_cmake_path p) = None
         \/ exists es,
              OS.stat w (get_cmake_path p) = Some (Dir es)
              /\ Forall (fun name => Str.endswith name ".app.elf" = false) (map fst es)
     | Raise e =>
         exists d text, OS.stat w (get_cmake_path p) = Some (File d) /\ e = OSError text
     end.
Proof.
  unfold find_elf_file. cbv zeta. unfold OS.exists_. rewrite bind_get.
  unfold OS.listdir, bind.
  destruct (OS.stat w (get_cmake_path p)) as [[d|es]|] eqn:Hs; cbv beta iota;
    rewrite ?Hs.
  - intros [= <- <-]. split; [reflexivity |]. eauto.
  - destruct (find _ (map fst es)) as [file|] eqn:Hf; intros [= <- <-];
      (split; [reflexivity |]).
    + destruct (find_split _ _ _ Hf) as [before [rest [Hl [Hb Hfile]]]].
      exists es, before, file, rest. auto.
    + right. exists es. split; [reflexivity |]. apply Forall_forall.
      intros name Hin. exact (find_none _ _ Hf name Hin).
  - intros [= <- <-]. split; [reflexivity |]. now left.
Qed.

Lemma find_elf_file_eq p w :
  find_elf_file p w
  = (match OS.stat w (get_cmake_path p) with
     | None => Return None
     | Some (File _) => Raise (OSError ("Not a directory: " ++ get_cmake_path p))
     | Some (Dir es) =>
         Return (option_map (Path.join (get_cmake_path p))
                   (find (fun file => Str.endswith file ".app.elf") (map fst es)))
     end, w).
Proof.
  unfold find_elf_file, OS.exists_, OS.listdir, bind, get. cbv beta iota zeta.
  destruct (OS.stat w (get_cmake_path p)) as [[d|es]|] eqn:Hs; cbv beta iota;
    rewrite ?Hs; try reflexivity.
  now destruct (find _ (map fst es)).
Qed.

Lemma find_elf_file_printed p lines w r :
  find_elf_file p w = (r, w) -> find_elf_file p (printed lines w) = (r, printed lines w).
Proof.
  rewrite !find_elf_file_eq.
  change (OS.stat (printed lines w) (get_cmake_path p)) with (OS.stat w (get_cmake_path p)).
  intros Heq. apply (f_equal fst) in Heq. cbn [fst] in Heq. now rewrite Heq.
Qed.

Lemma install_check_app before : forall rest w,
  Forall (fun q => exists path, find_elf_file q w = (Return (Some path), w)) before ->
  install_check (before ++ rest) w = install_check rest w.
Proof.
  induction before as [|q before IH]; intros rest w Hall; [reflexivity |].
  inversion Hall as [|? ? [path Hq] Hall']; subst.
  cbn [app install_check]. rewrite (bind_return _ _ _ _ _ Hq). now apply IH.
Qed.

(** X25. [install_action] sends nothing unless every platform has its ELF
    file.  At the first platform without one it prints the error status
    naming that platform and returns [False]: no package is looked up, no
    request is made, and the platforms after it are not examined. *)
Theorem install_action_missing_elf E ip before p after w :
  Forall (fun q => exists path, find_elf_file q w = (Return (Some path), w)) before ->
  find_elf_file p w = (Return None, w) ->
  install_action E ip (before ++ p :: after) w
  = (Return false,
     printed [status_busy_text "Installing";
              line (status_error_text ("ELF file not built for " ++ p))] w).
Proof.
  intros Hall Hp. unfold install_action, print_status_busy. rewrite bind_write.
  assert (Hic : install_check (before ++ p :: after)
                  (printed [status_busy_text "Installing"] w)
                = (Return false,
                   printed [status_busy_text "Installing";
                            line (status_error_text ("ELF file not built for " ++ p))] w)).
  { rewrite install_check_app.
    - cbn [install_check].
      rewrite (bind_return _ _ _ _ _ (find_elf_file_printed _ _ _ _ Hp)).
      unfold print_status_error. rewrite bind_print. unfold ret.
      now rewrite printed_printed.
    - eapply Forall_impl; [| exact Hall]. intros q [path Hq]. exists path.
      now apply find_elf_file_printed. }
  now rewrite (bind_return _ _ _ _ _ Hic).
Qed.

(** ** SDK resolution for several platforms *)

Lemma sdk_download_all_app E v before : forall rest w w1,
  sdk_download_all E v before w = (Return true, w1) ->
  sdk_download_all E v (before ++ rest) w = sdk_download_all E v rest w1.
Proof.
  induction before as [|p before IH]; intros rest w w1 Hb.
  - now injection Hb as <-.
  - cbn [app sdk_download_all] in Hb |- *.
    destruct (sdk_exists v p w) as [[cached|e] w0] eqn:Hc.
    2: { rewrite (bind_raise _ _ _ _ _ Hc) in Hb. discriminate. }
    rewrite (bind_return _ _ _ _ _ Hc) in Hb. rewrite (bind_return _ _ _ _ _ Hc).
    destruct cached; cbn [negb] in Hb |- *.
    + rewrite bind_get, bind_when_print in Hb. rewrite bind_get, bind_when_print.
      now apply IH.
    + destruct (sdk_download E v p w0) as [[ok|e] w2] eqn:Hd.
      2: { rewrite (bind_raise _ _ _ _ _ Hd) in Hb. discriminate. }
      rewrite (bind_return _ _ _ _ _ Hd) in Hb. rewrite (bind_return _ _ _ _ _ Hd).
      destruct ok; cbn [negb] in Hb |- *; [now apply IH | discriminate].
Qed.

(** X26. [sdk_download_all] stops at the first SDK it cannot get.  When the
    platforms before [p] were resolved, [p] is not in the cache and its
    download returns [False], the whole resolution returns [False] in the
    world that download left: nothing is fetched for the platforms after
    [p]. *)
Theorem sdk_download_all_fail_fast E v before p after w w1 w2 :
  sdk_download_all E v before w = (Return true, w1) ->
  sdk_exists v p w1 = (Return false, w1) ->
  sdk_download E v p w1 = (Return false, w2) ->
  sdk_download_all E v (before ++ p :: after) w = (Return false, w2).
Proof.
  intros Hb Hc Hd. rewrite (sdk_download_all_app _ _ _ _ _ _ Hb).
  cbn [sdk_download_all]. rewrite (bind_return _ _ _ _ _ Hc). cbn [negb].
  now rewrite (bind_return _ _ _ _ _ Hd).
Qed.

(** ** Reading the manifest *)

(** X27. [read_properties_file] never fails on a file that is not there:
    for a path that names no regular file it returns an empty parser, and
    the world is what it was.  Such a manifest does not pass
    [validate_manifest]: the tool exits with status 1 at the first check,
    the [manifest] section. *)
Theorem read_properties_file_missing H path w :
  (forall d, OS.stat w path <> Some (File d)) ->
  read_properties_file H path w = (Return (mkConfig [] []), w)
  /\ validate_manifest (mkConfig [] []) w
     = exited "Invalid manifest format: [manifest] not found" w.
Proof.
  intros Hs. split; [| reflexivity].
  unfold read_properties_file.
  destruct (OS.stat w path) as [[d|es]|]; [now specialize (Hs d) | reflexivity | reflexivity].
Qed.

(** ** A release index that does not list the platform *)

Lemma json_load_file path w j :
  OS.stat w path = Some (File (JsonDoc j)) -> json_load path w = (Return j, w).
Proof. intros Hs. unfold json_load, OS.read_file, bind. now rewrite Hs. Qed.

(** X28. [sdk_download] against a release whose [index.json] does not list
    the platform.  Whatever else happens, it never returns [True] and it
    never asks for an archive: at most one connection is opened, the one
    for [index.json].  When the index has a [platforms] object without the
    platform, the answer is [False] (or the [OSError] of a cache directory
    that cannot be made); when the index has no [platforms] at all, the
    [KeyError] of the lookup leaves the function uncaught. *)
Theorem sdk_download_unlisted_platform E v p w fields r w' :
  (forall w0, urlopen E w0 (get_sdk_url v "index.json") = FetchOk (JsonDoc (JObj fields))) ->
  match Json.dict_get "platforms" fields with
  | Some (JObj listed) => Json.dict_get p listed = None
  | Some _ => False
  | None => True
  end ->
  sdk_download E v p w = (r, w') ->
  r <> Return true
  /\ (fetched w' = fetched w
      \/ fetched w' = (fetched w ++ [get_sdk_url v "index.json"])%list)
  /\ match r with
     | Return ok => ok = false
     | Raise e =>
         (exists text, e = OSError text)
         \/ (e = KeyError "platforms" /\ Json.dict_get "platforms" fields = None)
     end.
Proof.
  intros Hcdn Hindex. unfold sdk_download. cbv zeta.
  pose proof (keeps_makedirs fetched (fun _ _ => eq_refl) (get_sdk_root_dir v p) w) as Hk.
  destruct (OS.makedirs (get_sdk_root_dir v p) w) as [[[]|e] w1] eqn:Hm; cbn [snd] in Hk.
  2: { rewrite (bind_raise _ _ _ _ _ Hm). intros [= <- <-].
       split; [discriminate |]. split; [now left |]. left.
       revert Hm. unfold OS.makedirs, OS.update.
       destruct (get_sdk_root_dir v p =? ""); [intros [= <- _]; eauto |].
       destruct (FS.makedirs _ _); [discriminate | intros [= <- _]; eauto]. }
  rewrite (bind_return _ _ _ _ _ Hm), bind_print, bind_get, bind_when_print.
  set (w2 := announced _ _ _).
  assert (Hf2 : fetched w2 = fetched w).
  { subst w2. unfold announced. cbn [verbose printed with_stdout].
    now destruct (verbose w1). }
  destruct (download_file E (get_sdk_url v "index.json")
              (Path.join (get_sdk_root_dir v p) "index.json") w2)
    as [[[|]|e] w3] eqn:Hd.
  - rewrite (bind_return _ _ _ _ _ Hd). cbn [negb].
    apply download_file_true in Hd as [_ [body [Ho [Hst Hf3]]]].
    rewrite Hcdn in Ho. injection Ho as <-.
    rewrite (bind_return _ _ _ _ _ (json_load_file _ _ _ Hst)).
    unfold Json.getitem at 1.
    destruct (Json.dict_get "platforms" fields) as [[| | | | |listed]|] eqn:Hp;
      try contradiction.
    + rewrite bind_ret. unfold Json.contains. rewrite bind_ret, Hindex. cbn [negb].
      unfold print_error. rewrite bind_print. intros [= <- <-].
      split; [discriminate |]. split; [| reflexivity]. right.
      cbn [fetched printed with_stdout]. now rewrite Hf3, Hf2.
    + intros [= <- <-]. split; [discriminate |]. split; [| now right]. right.
      now rewrite Hf3, Hf2.
  - rewrite (bind_return _ _ _ _ _ Hd). cbn [negb].
    unfold print_error. rewrite bind_print. intros [= <- <-].
    split; [discriminate |]. split; [| reflexivity].
    pose proof (download_file_cases E (get_sdk_url v "index.json")
                  (Path.join (get_sdk_root_dir v p) "index.json") w2) as Hc.
    cbv zeta in Hc. rewrite Hd in Hc.
    destruct (negb _).
    + left. injection Hc as ->. cbn [fetched printed with_stdout].
      unfold download_world, announced. destruct (verbose w2); exact Hf2.
    + rewrite Hcdn in Hc. right.
      destruct (OS.write_file _ _ _) as [[[]|e] w4] eqn:Hw; [discriminate |].
      injection Hc as ->. cbn [fetched printed with_stdout].
      pose proof (keeps_write_file fetched (fun _ _ => eq_refl)
                    (Path.join (get_sdk_root_dir v p) "index.json")
                    (JsonDoc (JObj fields))) as Hkw.
      specialize (Hkw (with_fetched
                         (fetched (download_world (get_sdk_url v "index.json")
                                     (Path.join (get_sdk_root_dir v p) "index.json") w2)
                          ++ [get_sdk_url v "index.json"])
                         (download_world (get_sdk_url v "index.json")
                            (Path.join (get_sdk_root_dir v p) "index.json") w2))).
      rewrite Hw in Hkw. cbn [snd] in Hkw.
      unfold announced. destruct (verbose w2); cbn [fetched printed with_stdout];
        rewrite Hkw; cbn [fetched with_fetched]; unfold download_world, announced;
        destruct (verbose w2); cbn [fetched printed with_stdout]; now rewrite Hf2.
  - rewrite (bind_raise _ _ _ _ _ Hd).
    apply download_file_raised in Hd as [_ [Ho _]].
    now rewrite Hcdn in Ho.
Qed.

(** ** The properties on the concrete worlds *)

Lemma validate_manifest_spec_witness :
  let w := Example.world_of Example.project_fresh in
  fst (validate_manifest Demo.manifest w) = Return tt
  /\ validate_manifest Demo.manifest_nameless w
     = exited "Invalid manifest format: [app] name not found" w.
Proof.
  intros w. split.
  - apply (proj2 (validate_manifest_spec Demo.manifest w)).
    unfold required_options. repeat constructor.
  - rewrite (proj1 (validate_manifest_spec Demo.manifest_nameless w)). reflexivity.
Defined.

Lemma validate_local_sdks_spec_witness :
  Forall (fun p => get_sdk_dir "0.6.0" p Site.world_local
                   = (Return (local_sdk_dir "/opt/sdk" "0.6.0" p), Site.world_local))
    ["esp32"; "esp32s3"]
  /\ fst (validate_local_sdks ["esp32"; "esp32c6"] "0.6.0" Site.world_local)
     = Raise (SystemExit 1).
Proof.
  destruct (validate_local_sdks_spec ["esp32"; "esp32s3"] "0.6.0" Site.world_local)
    as [_ [_ [_ Hall]]].
  destruct (validate_local_sdks_spec ["esp32"; "esp32c6"] "0.6.0" Site.world_local)
    as [_ [_ [Heq _]]].
  split.
  - apply (Hall "/opt/sdk" Site.world_local); [reflexivity | reflexivity |].
    vm_compute. reflexivity.
  - rewrite (Heq "/opt/sdk"); reflexivity.
Defined.

Lemma validate_environment_spec_witness :
  fst (validate_environment Site.host Site.world_local) = Return tt
  /\ exists message,
       validate_environment Site.host (Example.world_of Example.project_fresh)
       = (Raise (SystemExit 1),
          printed [line (error_text message)] (Example.world_of Example.project_fresh)).
Proof.
  split.
  - apply (proj1 (validate_environment_spec Site.host Site.world_local)).
    repeat split; reflexivity.
  - destruct (validate_environment_spec Site.host (Example.world_of Example.project_fresh))
      as [_ [[Hr|Hx] _]]; [discriminate Hr | exact Hx].
Defined.

Lemma setup_environment_spec_witness :
  let w1 := snd (setup_environment Site.world_empty) in
  has_dir w1 ttbuild_path = true /\ setup_environment w1 = (Return tt, w1).
Proof.
  intros w1.
  destruct (proj1 (setup_environment_spec Site.world_empty) w1) as [Hd [_ Hi]];
    [vm_compute; reflexivity |].
  split; assumption.
Defined.

Lemma clean_action_spec_witness :
  clean_action Site.world_empty
  = (Return tt, printed [line "Nothing to clean"] Site.world_empty)
  /\ exists text,
       clean_action (Example.world_of (Dir [("build", File (Bytes ""))]))
       = (Raise (OSError text),
          printed [status_busy_text "Removing build/"]
            (Example.world_of (Dir [("build", File (Bytes ""))]))).
Proof.
  split.
  - apply (proj1 (clean_action_spec Site.world_empty)). reflexivity.
  - apply (proj1 (proj2 (clean_action_spec
                           (Example.world_of (Dir [("build", File (Bytes ""))]))))
             (Bytes "")).
    reflexivity.
Defined.

Lemma clean_action_leaves_no_artifact_witness :
  let w := Example.world_of Example.project_built in
  let w' := snd (clean_action w) in
  find_elf_file "esp32" w' = (Return None, w')
  /\ clean_action w' = (Return tt, printed [line "Nothing to clean"] w').
Proof.
  intros w w'.
  destruct (clean_action_leaves_no_artifact w w') as [Hf [_ Hc]];
    [vm_compute; reflexivity |].
  split; [apply Hf; reflexivity | exact Hc].
Defined.

Lemma clear_cache_action_empties_cache_witness :
  let w := Example.world_of Example.project_fresh in
  let w' := snd (clear_cache_action w) in
  sdk_exists "0.6.0" "esp32" w' = (Return false, w')
  /\ should_fetch_sdkconfig_files ["esp32"; "esp32s3"] w' = (Return true, w').
Proof.
  intros w w'.
  destruct (clear_cache_action_empties_cache w w') as [Hs [Hf _]];
    [vm_compute; reflexivity |].
  split; [apply Hs; reflexivity | apply Hf; reflexivity].
Defined.


Lemma device_actions_contain_request_errors_witness :
  let w := Example.world_of Example.project_built in
  requested (snd (run_action Site.host Demo.manifest "192.168.1.20" w))
  = ([] ++ [("POST", get_url "192.168.1.20" "/app/run")])%list
  /\ requested (snd (uninstall_action Site.host Demo.manifest "192.168.1.20" w))
     = ([] ++ [("PUT", get_url "192.168.1.20" "/app/uninstall")])%list.
Proof.
  intros w.
  destruct (device_actions_contain_request_errors Site.host Demo.manifest "192.168.1.20"
              "com.example.hello" w) as [[Hr _] [Hu _]]; [reflexivity |].
  split; assumption.
Defined.

Lemma build_action_local_sdk_offline_witness :
  fetched (snd (build_action Example.env_default Site.host Demo.manifest None false
                  Site.world_local))
  = fetched Site.world_local.
Proof.
  apply build_action_local_sdk_offline; [reflexivity |].
  intros ps Hps. vm_compute in Hps. injection Hps as <-. vm_compute. reflexivity.
Defined.

Lemma main_usage_witness :
  let w := Site.world_empty in
  main Example.env_default Site.host Site.clock ["tactility.py"; "build"; "--help"] w
  = (Raise (SystemExit 0), printed (line banner :: map line help_lines) w)
  /\ main Example.env_default Site.host Site.clock ["tactility.py"] w
     = (Raise (SystemExit 1), printed (line banner :: map line help_lines) w).
Proof.
  intros w.
  destruct (main_usage Example.env_default Site.host Site.clock ["tactility.py"; "build"; "--help"] w)
    as [Hh _].
  destruct (main_usage Example.env_default Site.host Site.clock ["tactility.py"] w) as [_ Hn].
  split; [apply Hh | apply Hn]; reflexivity.
Defined.

Lemma main_options_only_witness :
  exists w',
    main Example.env_default Site.host Site.clock ["tactility.py"; "--verbose"; "--local-sdk"]
      Site.world_empty
    = (Raise (IndexError "list index out of range"), w')
    /\ fs w' = fs Site.world_empty
    /\ stdout w' = ([] ++ [line banner])%list
    /\ fetched w' = fetched Site.world_empty.
Proof.
  apply (main_options_only Example.env_default Site.host Site.clock "tactility.py"
           ["--verbose"; "--local-sdk"] Site.world_empty).
  - unfold option_flags. cbn [In]. intros [H|[H|[H|[H|[]]]]]; discriminate.
  - discriminate.
  - constructor; [cbn [In]; intros [H|[]]; discriminate |].
    constructor; [intros [] | constructor].
  - intros x Hx. unfold option_flags. cbn [In] in *. tauto.
Defined.

Lemma main_needs_manifest_witness :
  let w := Site.world_empty in
  main Example.env_default Site.host Site.clock ["tactility.py"; "clean"] w
  = (Raise (SystemExit 1),
     printed [line (error_text "manifest.properties not found")]
       (with_fs (fs (snd (setup_environment w))) (printed [line banner] w))).
Proof.
  intros w.
  apply (main_needs_manifest Example.env_default Site.host Site.clock ["tactility.py"; "clean"]
           "clean" w (snd (setup_environment w))); try reflexivity.
  intros d. discriminate.
Defined.

Lemma main_needs_tool_json_witness :
  let w := Example.world_of Example.project_built in
  exists w',
    main Example.env_default Site.host Site.clock ["tactility.py"; "clean"] w
    = (Raise (SystemExit 1), w')
    /\ fs w' = fs (snd (setup_environment w))
    /\ fetched w' = ([] ++ [tool_json_url])%list
    /\ spawned w' = []
    /\ exists before,
         stdout w' = (before ++ [line (error_text "Failed to retrieve SDK info")])%list.
Proof.
  intros w.
  apply (main_needs_tool_json Example.env_default Site.host Site.clock ["tactility.py"; "clean"]
           "clean" w (snd (setup_environment w)) Example.manifest Demo.manifest
           "<urlopen error [Errno 111] Connection refused>"); try reflexivity.
Defined.

Lemma find_elf_file_spec_witness :
  let w := Example.world_of Example.project_built in
  exists es before file rest,
    OS.stat w (get_cmake_path "esp32") = Some (Dir es)
    /\ map fst es = (before ++ file :: rest)%list
    /\ Forall (fun name => Str.endswith name ".app.elf" = false) before
    /\ Str.endswith file ".app.elf" = true
    /\ "build/cmake-build-esp32/Hello.app.elf" = Path.join (get_cmake_path "esp32") file.
Proof.
  intros w.
  apply (proj2 (find_elf_file_spec "esp32" w
                  (Return (Some "build/cmake-build-esp32/Hello.app.elf")) w eq_refl)).
Defined.

Lemma install_action_missing_elf_witness :
  let w := Example.world_of Example.project_built in
  install_action Example.env_default "192.168.1.20" ["esp32"; "esp32c6"; "esp32s3"] w
  = (Return false,
     printed [status_busy_text "Installing";
              line (status_error_text ("ELF file not built for " ++ "esp32c6"))] w).
Proof.
  intros w.
  apply (install_action_missing_elf Example.env_default "192.168.1.20"
           ["esp32"] "esp32c6" ["esp32s3"] w); [| reflexivity].
  repeat constructor. eexists. reflexivity.
Defined.

Lemma sdk_download_all_fail_fast_witness :
  let w := Example.world_of Example.project_fresh in
  sdk_download_all Example.env_default "0.6.0" ["esp32"; "esp32s3"] w
  = (Return false, snd (sdk_download Example.env_default "0.6.0" "esp32" w)).
Proof.
  intros w.
  apply (sdk_download_all_fail_fast Example.env_default "0.6.0" [] "esp32" ["esp32s3"]
           w w (snd (sdk_download Example.env_default "0.6.0" "esp32" w)));
    vm_compute; reflexivity.
Defined.

Lemma read_properties_file_missing_witness :
  read_properties_file Site.host "manifest.properties" Site.world_empty
  = (Return (mkConfig [] []), Site.world_empty)
  /\ validate_manifest (mkConfig [] []) Site.world_empty
     = exited "Invalid manifest format: [manifest] not found" Site.world_empty.
Proof.
  apply read_properties_file_missing. intros d. discriminate.
Defined.

Lemma sdk_download_unlisted_platform_witness :
  let E := Example.env (Example.cdn_serving []) (Example.idf_idle 0)
             (Example.device_answers 200) in
  let w := Example.world_of Example.project_fresh in
  fetched (snd (sdk_download E "0.6.0" "esp32s3" w)) = fetched w
  \/ fetched (snd (sdk_download E "0.6.0" "esp32s3" w))
     = (fetched w ++ [get_sdk_url "0.6.0" "index.json"])%list.
Proof.
  intros E w.
  apply (proj1 (proj2 (sdk_download_unlisted_platform E "0.6.0" "esp32s3" w
                         [("platforms", JObj [("esp32", JStr "sdk.zip")])]
                         (fst (sdk_download E "0.6.0" "esp32s3" w))
                         (snd (sdk_download E "0.6.0" "esp32s3" w))
                         (fun _ => eq_refl) eq_refl
                         (surjective_pairing _)))).
Defined.
